(** * Pharmacy agent: tool layer, dispatcher and orchestration core

    A shallow embedding of [app/db.py], [app/tools.py] and [app/agent.py],
    and the properties of the orchestration loop proved over it.

    Conventions.
    - A Python [str] is a list of Unicode code points ([N]).
    - A Python value that travels through JSON ([Any] in the source) is a
      [pyval]; a [dict] is an association list in insertion order.
    - A Python function that may raise returns an [outcome]; [try]/[except]
      is a [match] on it.
    - The model backend is a pair of functions handed to the orchestration
      core; the core returns the trace of what it yielded and which backend
      calls it made. *)

From Stdlib Require Import List NArith ZArith Bool String Ascii Lia.
From Stdlib Require DecimalFacts DecimalPos DecimalN.
Import ListNotations.

Set Implicit Arguments.
Set Warnings "-register-all".

(* ================================================================== *)
(** * Python strings *)

Module Str.

Local Open Scope N_scope.

Definition str := list N.

(** An ASCII literal as a [str]. *)
Definition py (s : string) : str :=
  map N_of_ascii (list_ascii_of_string s).
Arguments py s%_string.

Fixpoint eqb (a b : str) : bool :=
  match a, b with
  | [], [] => true
  | x :: a', y :: b' => N.eqb x y && eqb a' b'
  | _, _ => false
  end.

(** [ch.isspace()] as [str.strip()] uses it: CPython's
    [_PyUnicode_IsWhitespace]. *)
Definition isspace (c : N) : bool :=
  ((9 <=? c) && (c <=? 13)) || ((28 <=? c) && (c <=? 32))
  || (c =? 133) || (c =? 160) || (c =? 5760)
  || ((8192 <=? c) && (c <=? 8202))
  || (c =? 8232) || (c =? 8233) || (c =? 8239) || (c =? 8287)
  || (c =? 12288).

Fixpoint lstrip (s : str) : str :=
  match s with
  | c :: s' => if isspace c then lstrip s' else s
  | [] => []
  end.

Definition rstrip (s : str) : str := rev (lstrip (rev s)).

(** [s.strip()] *)
Definition strip (s : str) : str := rstrip (lstrip s).

(** The lower-case image of one code point.  The ASCII letters are
    written out, and so are the two code points outside ASCII whose
    lower-case image contains an ASCII letter: U+212A KELVIN SIGN and
    U+0130 LATIN CAPITAL LETTER I WITH DOT ABOVE.  Every other code
    point has a lower-case image outside ASCII; it is kept as it is,
    since the program only ever compares a lower-cased string with the
    lower-cased ASCII names of [db.py]. *)
Definition lower_cp (c : N) : str :=
  if (65 <=? c) && (c <=? 90) then [c + 32]
  else if c =? 8490 then [107]
  else if c =? 304 then [105; 775]
  else [c].

(** [s.lower()] *)
Definition lower (s : str) : str := flat_map lower_cp s.

(** [_looks_hebrew] tests whether [ch] lies between U+0590 and U+05FF. *)
Definition is_hebrew (c : N) : bool := (1424 <=? c) && (c <=? 1535).

End Str.

Import Str.
Arguments py s%_string.

(* ================================================================== *)
(** * Python values *)

(** A [float] is kept as the decimal number its literal denotes; the
    program never computes with one. *)
Inductive pyfloat :=
| FDec (neg : bool) (mantissa : N) (exp10 : Z)
| FInf (neg : bool)
| FNaN.

Inductive pyval :=
| PNone
| PBool (b : bool)
| PInt (z : Z)
| PFloat (f : pyfloat)
| PStr (s : str)
| PList (l : list pyval)
| PDict (d : list (str * pyval)).

Definition pydict := list (str * pyval).

(** [d.get(k)] *)
Fixpoint dict_get (k : str) (d : pydict) : option pyval :=
  match d with
  | [] => None
  | (k', v) :: d' => if Str.eqb k' k then Some v else dict_get k d'
  end.

(** [k in d] *)
Definition dict_mem (k : str) (d : pydict) : bool :=
  match dict_get k d with Some _ => true | None => false end.

(** [d[k] = v]: an existing key keeps its place, a new key goes last. *)
Fixpoint dict_set (k : str) (v : pyval) (d : pydict) : pydict :=
  match d with
  | [] => [(k, v)]
  | (k', v') :: d' =>
      if Str.eqb k' k then (k', v) :: d' else (k', v') :: dict_set k v d'
  end.

(** A float literal denotes zero when its mantissa is zero or when the
    number rounds to zero in binary64 (at most 2^-1075). *)
Definition float_is_zero (f : pyfloat) : bool :=
  match f with
  | FDec _ m e =>
      (m =? 0)%N
      || match e with
         | Zneg p => (Z.of_N m * 2 ^ 1075 <=? 10 ^ Zpos p)%Z
         | _ => false
         end
  | _ => false
  end.

(** Truth value of a Python value ([if not x]). *)
Definition truthy (v : pyval) : bool :=
  match v with
  | PNone => false
  | PBool b => b
  | PInt z => negb (z =? 0)%Z
  | PFloat f => negb (float_is_zero f)
  | PStr s => match s with [] => false | _ => true end
  | PList l => match l with [] => false | _ => true end
  | PDict d => match d with [] => false | _ => true end
  end.

(** [type(v).__name__] *)
Definition type_name (v : pyval) : str :=
  match v with
  | PNone => py "NoneType"
  | PBool _ => py "bool"
  | PInt _ => py "int"
  | PFloat _ => py "float"
  | PStr _ => py "str"
  | PList _ => py "list"
  | PDict _ => py "dict"
  end.

(** [f"{v}"], that is [str(v)].  It is written out for the values that
    reach an f-string of [tools.py]: a [str], and the values that are false
    ([None], [False], [0], a zero float, the empty string, list and dict).
    Any other value raises at [.strip()] before it is formatted (lemmas
    [find_med_none_formattable] and [find_user_none_formattable]). *)
Definition py_format (v : pyval) : str :=
  match v with
  | PStr s => s
  | PNone => py "None"
  | PBool true => py "True"
  | PBool false => py "False"
  | PInt _ => py "0"
  | PFloat (FDec true _ _) => py "-0.0"
  | PFloat _ => py "0.0"
  | PList _ => py "[]"
  | PDict _ => py "{}"
  end.

Definition formattable (v : pyval) : bool :=
  match v with
  | PStr _ => true
  | _ => negb (truthy v)
  end.

(** Induction on a value, with the values inside a list or a dictionary. *)
Section PyvalInduction.
Variable P : pyval -> Prop.
Hypothesis HNone : P PNone.
Hypothesis HBool : forall b, P (PBool b).
Hypothesis HInt : forall z, P (PInt z).
Hypothesis HFloat : forall f, P (PFloat f).
Hypothesis HStr : forall s, P (PStr s).
Hypothesis HList : forall l, Forall P l -> P (PList l).
Hypothesis HDict : forall d, Forall (fun kv => P (snd kv)) d -> P (PDict d).

Fixpoint pyval_induction (v : pyval) : P v :=
  match v with
  | PNone => HNone
  | PBool b => HBool b
  | PInt z => HInt z
  | PFloat f => HFloat f
  | PStr s => HStr s
  | PList l =>
      @HList l ((fix all (l : list pyval) : Forall P l :=
                match l with
                | [] => Forall_nil _
                | x :: l' => Forall_cons _ (pyval_induction x) (all l')
                end) l)
  | PDict d =>
      @HDict d ((fix all (d : list (str * pyval))
               : Forall (fun kv => P (snd kv)) d :=
                match d with
                | [] => Forall_nil _
                | kv :: d' =>
                    Forall_cons _ (pyval_induction (snd kv)) (all d')
                end) d)
  end.
End PyvalInduction.

(* ================================================================== *)
(** * Exceptions *)

Inductive exn :=
| AttributeError (msg : str)
| TypeError (msg : str).

(** [str(e)] *)
Definition str_exn (e : exn) : str :=
  match e with
  | AttributeError m => m
  | TypeError m => m
  end.

Inductive outcome (A : Type) :=
| Ok (a : A)
| Raise (e : exn).
Arguments Ok {A} a.
Arguments Raise {A} e.

Definition bind {A B} (r : outcome A) (k : A -> outcome B) : outcome B :=
  match r with
  | Ok a => k a
  | Raise e => Raise e
  end.

Declare Scope py_scope.
Delimit Scope py_scope with py_bind.
Notation "x <- r ;; k" := (bind r (fun x => k))
  (at level 61, r at next level, right associativity) : py_scope.
Open Scope py_scope.

(** [v.strip()]: only a [str] has the method. *)
Definition py_strip (v : pyval) : outcome str :=
  match v with
  | PStr s => Ok (strip s)
  | _ => Raise (AttributeError
                  (py "'" ++ type_name v ++ py "' object has no attribute 'strip'"))
  end.

(* ================================================================== *)
(** * The dataset ([app/db.py]) *)

Module Db.

Record dosage := {
  dose_amount : str;
  frequency : str;
  max_daily : str;
}.

Record medication := {
  name : str;
  active_ingredient : str;
  requires_prescription : bool;
  dosage_instruction : dosage;
  usage_instructions : str;
  safety_instructions : str;
  stock : Z;
}.

(** The key ["name"] of a user is the field [user_name]. *)
Record user := {
  user_id : str;
  user_name : str;
  prescriptions : list str;
}.

(** U+2013 EN DASH and U+2019 RIGHT SINGLE QUOTATION MARK. *)
Definition endash : str := [8211%N].
Definition rsquo : str := [8217%N].

(** The records of [USERS], named after their identifiers. *)
Definition u001 : user :=
  {| user_id := py "u001"; user_name := py "Einat Shvartz";
     prescriptions := [py "Amoxicillin"; py "Metformin"] |}.
Definition u002 : user :=
  {| user_id := py "u002"; user_name := py "Guy Lurya";
     prescriptions := [] |}.
Definition u003 : user :=
  {| user_id := py "u003"; user_name := py "Noa Kasher";
     prescriptions := [py "Amoxicillin"] |}.
Definition u004 : user :=
  {| user_id := py "u004"; user_name := py "Amit Wiez";
     prescriptions := [] |}.
Definition u005 : user :=
  {| user_id := py "u005"; user_name := py "Lea London";
     prescriptions := [py "Metformin"] |}.
Definition u006 : user :=
  {| user_id := py "u006"; user_name := py "Maya Rubin";
     prescriptions := [] |}.
Definition u007 : user :=
  {| user_id := py "u007"; user_name := py "Tamar Levi";
     prescriptions := [py "Amoxicillin"] |}.
Definition u008 : user :=
  {| user_id := py "u008"; user_name := py "Tair Cohen";
     prescriptions := [] |}.
Definition u009 : user :=
  {| user_id := py "u009"; user_name := py "Nicole Kaplan";
     prescriptions := [py "Metformin"] |}.
Definition u010 : user :=
  {| user_id := py "u010"; user_name := py "Omri Paz";
     prescriptions := [] |}.

Definition USERS : list user :=
  [u001; u002; u003; u004; u005; u006; u007; u008; u009; u010].

Definition as_prescribed : dosage :=
  {| dose_amount := py "As prescribed";
     frequency := py "As prescribed";
     max_daily := py "As prescribed" |}.

(** The records of [MEDICATIONS], named after the medications. *)
Definition paracetamol : medication :=
  {| name := py "Paracetamol";
     active_ingredient := py "Acetaminophen";
     requires_prescription := false;
     dosage_instruction :=
       {| dose_amount := py "500 mg";
          frequency := py "every 4" ++ endash ++ py "6 hours";
          max_daily := py "Do not exceed 4,000 mg in 24 hours (label guidance)." |};
     usage_instructions := py "Take with water. Follow the package directions.";
     safety_instructions :=
       py "Do not use if you are allergic to acetaminophen. "
       ++ py "Avoid combining with other products containing acetaminophen. "
       ++ py "Follow the label and consult a healthcare professional for personal medical advice.";
     stock := 42 |}.

Definition ibuprofen : medication :=
  {| name := py "Ibuprofen";
     active_ingredient := py "Ibuprofen";
     requires_prescription := false;
     dosage_instruction :=
       {| dose_amount := py "200" ++ endash ++ py "400 mg";
          frequency := py "every 6" ++ endash ++ py "8 hours";
          max_daily := py "Do not exceed 1,200 mg in 24 hours unless directed by a clinician (label guidance)." |};
     usage_instructions := py "Take with food or milk to reduce stomach upset. Follow the package directions.";
     safety_instructions :=
       py "Do not use if you are allergic to ibuprofen/NSAIDs. "
       ++ py "May increase risk of stomach bleeding; follow label warnings. "
       ++ py "Consult a healthcare professional for pregnancy/medical conditions or personal medical advice.";
     stock := 18 |}.

Definition amoxicillin : medication :=
  {| name := py "Amoxicillin";
     active_ingredient := py "Amoxicillin";
     requires_prescription := true;
     dosage_instruction := as_prescribed;
     usage_instructions := py "Prescription-only. Take exactly as prescribed. Complete the full course if instructed.";
     safety_instructions :=
       py "Do not use if you have a penicillin allergy. "
       ++ py "Follow the prescriber" ++ rsquo
       ++ py "s directions and consult a healthcare professional for side effects or concerns.";
     stock := 10 |}.

Definition cetirizine : medication :=
  {| name := py "Cetirizine";
     active_ingredient := py "Cetirizine";
     requires_prescription := false;
     dosage_instruction :=
       {| dose_amount := py "10 mg";
          frequency := py "once daily";
          max_daily := py "Do not exceed 10 mg in 24 hours (label guidance)." |};
     usage_instructions := py "May be taken with or without food. Follow the package directions.";
     safety_instructions :=
       py "Do not use if you are allergic to cetirizine. "
       ++ py "May cause drowsiness in some people; follow label warnings. "
       ++ py "Consult a healthcare professional for pregnancy/breastfeeding or personal medical advice.";
     stock := 0 |}.

Definition metformin : medication :=
  {| name := py "Metformin";
     active_ingredient := py "Metformin";
     requires_prescription := true;
     dosage_instruction := as_prescribed;
     usage_instructions := py "Prescription-only. Take with meals as prescribed to reduce stomach upset.";
     safety_instructions :=
       py "Do not use if you are allergic to metformin. "
       ++ py "Follow the prescriber" ++ rsquo
       ++ py "s directions and consult a healthcare professional for side effects or concerns.";
     stock := 6 |}.

Definition MEDICATIONS : list medication :=
  [paracetamol; ibuprofen; amoxicillin; cetirizine; metformin].

End Db.

(* ================================================================== *)
(** * The tool layer ([app/tools.py]) *)

(** The error member of an envelope:
    [{"code": code, "message": message}]. *)
Definition error_body (code message : str) : pyval :=
  PDict [(py "code", PStr code); (py "message", PStr message)].

(** [f"Medication '{name}' not found"] and [f"User '{user_id}' not found"] *)
Definition medication_not_found (name : pyval) : str :=
  py "Medication '" ++ py_format name ++ py "' not found".
Definition user_not_found (user_id : pyval) : str :=
  py "User '" ++ py_format user_id ++ py "' not found".

Section Tools.

(** [from app.db import MEDICATIONS, USERS] *)
Variable MEDICATIONS : list Db.medication.
Variable USERS : list Db.user.

(** The [for] loop of [_find_med_by_name]. *)
Fixpoint scan_meds (name_l : str) (ms : list Db.medication)
  : option Db.medication :=
  match ms with
  | [] => None
  | m :: ms' =>
      if Str.eqb (lower (Db.name m)) name_l then Some m
      else scan_meds name_l ms'
  end.

Definition _find_med_by_name (name : pyval)
  : outcome (option Db.medication) :=
  if negb (truthy name) then Ok None
  else
    s <- py_strip name ;;
    Ok (scan_meds (lower s) MEDICATIONS).

(** The [for] loop of [_find_user_by_id]. *)
Fixpoint scan_users (uid : str) (us : list Db.user) : option Db.user :=
  match us with
  | [] => None
  | u :: us' =>
      if Str.eqb (Db.user_id u) uid then Some u else scan_users uid us'
  end.

Definition _find_user_by_id (user_id : pyval) : outcome (option Db.user) :=
  if negb (truthy user_id) then Ok None
  else
    uid <- py_strip user_id ;;
    Ok (scan_users uid USERS).

Definition get_user (user_id : pyval) : outcome pyval :=
  user <- _find_user_by_id user_id ;;
  match user with
  | None =>
      Ok (PDict [(py "found", PBool false);
                 (py "error",
                  error_body (py "UNKNOWN_USER") (user_not_found user_id))])
  | Some user =>
      Ok (PDict [(py "found", PBool true);
                 (py "user",
                  PDict [(py "user_id", PStr (Db.user_id user));
                         (py "name", PStr (Db.user_name user));
                         (py "prescriptions",
                          PList (map PStr (Db.prescriptions user)))])])
  end.

Definition dosage_dict (d : Db.dosage) : pyval :=
  PDict [(py "dose_amount", PStr (Db.dose_amount d));
         (py "frequency", PStr (Db.frequency d));
         (py "max_daily", PStr (Db.max_daily d))].

Definition get_medication_by_name (name : pyval) : outcome pyval :=
  med <- _find_med_by_name name ;;
  match med with
  | None =>
      Ok (PDict [(py "found", PBool false);
                 (py "error",
                  error_body (py "NOT_FOUND") (medication_not_found name))])
  | Some med =>
      Ok (PDict
            [(py "found", PBool true);
             (py "medication",
              PDict
                [(py "name", PStr (Db.name med));
                 (py "active_ingredient", PStr (Db.active_ingredient med));
                 (py "requires_prescription",
                  PBool (Db.requires_prescription med));
                 (py "dosage_instruction",
                  dosage_dict (Db.dosage_instruction med));
                 (py "usage_instructions",
                  PStr (Db.usage_instructions med));
                 (py "safety_instructions",
                  PStr (Db.safety_instructions med));
                 (py "stock", PInt (Db.stock med))])])
  end.

Definition check_stock (name : pyval) : outcome pyval :=
  med <- _find_med_by_name name ;;
  match med with
  | None =>
      Ok (PDict [(py "found", PBool false);
                 (py "error",
                  error_body (py "NOT_FOUND") (medication_not_found name))])
  | Some med =>
      Ok (PDict [(py "found", PBool true);
                 (py "name", PStr (Db.name med));
                 (py "stock", PInt (Db.stock med))])
  end.

Definition check_prescription (user_id name : pyval) : outcome pyval :=
  user <- _find_user_by_id user_id ;;
  match user with
  | None =>
      Ok (PDict [(py "ok", PBool false);
                 (py "error",
                  error_body (py "UNKNOWN_USER") (user_not_found user_id))])
  | Some user =>
      med <- _find_med_by_name name ;;
      match med with
      | None =>
          Ok (PDict [(py "ok", PBool false);
                     (py "error",
                      error_body (py "NOT_FOUND")
                        (medication_not_found name))])
      | Some med =>
          let canonical_name := Db.name med in
          let requires := Db.requires_prescription med in
          let prescriptions := Db.prescriptions user in
          let presc_set := map (fun x => lower (strip x)) prescriptions in
          let user_has :=
            existsb (Str.eqb (lower (strip canonical_name))) presc_set in
          Ok (PDict [(py "ok", PBool true);
                     (py "name", PStr canonical_name);
                     (py "requires_prescription", PBool requires);
                     (py "user_has_prescription", PBool user_has)])
      end
  end.

End Tools.

(* ================================================================== *)
(** * [json.dumps] and [json.loads]

    The two library functions [agent.py] calls, with the default options:
    [ensure_ascii=True], separators [", "] and [": "], and the strict
    decoder.  A failure of [json.loads] (the exception it raises) is
    [None].

    Two limits of the interpreter are outside the model: the recursion
    limit, which makes [json.loads] raise [RecursionError] on a text
    nested about a thousand levels deep, and the limit on the digits of
    an integer literal (4300 by default, a [ValueError]).  Both are
    exceptions that [_normalize_args] catches.  The envelopes of the
    tools, the only texts the properties below decode, are nested three
    levels deep and hold the small integers of [db.py]. *)

Module Json.

Local Open Scope N_scope.

(** ** Encoding *)

Definition hex_digit (d : N) : N := if d <? 10 then 48 + d else 87 + d.

(** [\uXXXX] *)
Definition escape_u (c : N) : str :=
  [92; 117; hex_digit (c / 4096); hex_digit ((c / 256) mod 16);
   hex_digit ((c / 16) mod 16); hex_digit (c mod 16)].

(** One character of a string under [ensure_ascii]: the short escapes,
    printable ASCII as it is, [\uXXXX] below U+10000 and a surrogate pair
    from there on.  A number beyond U+10FFFF is no code point of a Python
    string; the model leaves it as it is. *)
Definition escape_cp (c : N) : str :=
  if c =? 34 then [92; 34]
  else if c =? 92 then [92; 92]
  else if c =? 10 then [92; 110]
  else if c =? 13 then [92; 114]
  else if c =? 9 then [92; 116]
  else if c =? 8 then [92; 98]
  else if c =? 12 then [92; 102]
  else if (32 <=? c) && (c <=? 126) then [c]
  else if c <? 65536 then escape_u c
  else if c <? 1114112 then
    escape_u (55296 + (c - 65536) / 1024)
    ++ escape_u (56320 + (c - 65536) mod 1024)
  else [c].

Definition dumps_str (s : str) : str :=
  34 :: flat_map escape_cp s ++ [34].

Fixpoint uint_str (u : Decimal.uint) : str :=
  match u with
  | Decimal.Nil => []
  | Decimal.D0 u' => 48 :: uint_str u'
  | Decimal.D1 u' => 49 :: uint_str u'
  | Decimal.D2 u' => 50 :: uint_str u'
  | Decimal.D3 u' => 51 :: uint_str u'
  | Decimal.D4 u' => 52 :: uint_str u'
  | Decimal.D5 u' => 53 :: uint_str u'
  | Decimal.D6 u' => 54 :: uint_str u'
  | Decimal.D7 u' => 55 :: uint_str u'
  | Decimal.D8 u' => 56 :: uint_str u'
  | Decimal.D9 u' => 57 :: uint_str u'
  end.

(** [str(n)] for a natural number *)
Definition dumps_nat (n : N) : str := uint_str (N.to_uint n).

(** [str(z)] for an [int] *)
Definition dumps_int (z : Z) : str :=
  match z with
  | Zneg p => 45 :: dumps_nat (Npos p)
  | _ => dumps_nat (Z.to_N z)
  end.

(** A float.  CPython prints the shortest literal that reads back as the
    same binary64; the model prints the literal [m e x] of the decimal
    number it keeps.  No envelope of the tool layer holds a float. *)
Definition dumps_float (f : pyfloat) : str :=
  match f with
  | FDec neg m e =>
      (if neg then [45] else []) ++ dumps_nat m ++ [101] ++ dumps_int e
  | FInf neg => (if neg then [45] else []) ++ py "Infinity"
  | FNaN => py "NaN"
  end.

(** [sep.join(parts)] *)
Fixpoint intercalate (sep : str) (parts : list str) : str :=
  match parts with
  | [] => []
  | [p] => p
  | p :: parts' => p ++ sep ++ intercalate sep parts'
  end.

Fixpoint dumps (v : pyval) : str :=
  match v with
  | PNone => py "null"
  | PBool true => py "true"
  | PBool false => py "false"
  | PInt z => dumps_int z
  | PFloat f => dumps_float f
  | PStr s => dumps_str s
  | PList l => 91 :: intercalate [44; 32] (map dumps l) ++ [93]
  | PDict d =>
      123 :: intercalate [44; 32]
               (map (fun kv => dumps_str (fst kv) ++ [58; 32]
                               ++ dumps (snd kv)) d)
      ++ [125]
  end.

(** ** Decoding *)

Definition is_ws (c : N) : bool :=
  (c =? 32) || (c =? 9) || (c =? 10) || (c =? 13).

Fixpoint skip_ws (s : str) : str :=
  match s with
  | c :: s' => if is_ws c then skip_ws s' else s
  | [] => []
  end.

Definition hex_val (c : N) : option N :=
  if (48 <=? c) && (c <=? 57) then Some (c - 48)
  else if (97 <=? c) && (c <=? 102) then Some (c - 87)
  else if (65 <=? c) && (c <=? 70) then Some (c - 55)
  else None.

(** The four hexadecimal digits after [\u]. *)
Definition decode_u (s : str) : option (N * str) :=
  match s with
  | a :: b :: c :: d :: r =>
      match hex_val a, hex_val b, hex_val c, hex_val d with
      | Some x, Some y, Some z, Some w =>
          Some (x * 4096 + y * 256 + z * 16 + w, r)
      | _, _, _, _ => None
      end
  | _ => None
  end.

Definition is_high (c : N) : bool := (55296 <=? c) && (c <=? 56319).
Definition is_low (c : N) : bool := (56320 <=? c) && (c <=? 57343).
Definition join_pair (hi lo : N) : N :=
  65536 + ((hi - 55296) * 1024 + (lo - 56320)).

(** The character a short escape stands for. *)
Definition short_escape (c : N) : option N :=
  if c =? 34 then Some 34
  else if c =? 92 then Some 92
  else if c =? 47 then Some 47
  else if c =? 98 then Some 8
  else if c =? 102 then Some 12
  else if c =? 110 then Some 10
  else if c =? 114 then Some 13
  else if c =? 116 then Some 9
  else None.

(** The rest of [s] after the character [c], when [s] starts with it. *)
Definition after (c : N) (s : str) : option str :=
  match s with
  | x :: s' => if x =? c then Some s' else None
  | [] => None
  end.

(** The rest of [s] after a backslash and [u], when [s] starts with them. *)
Definition after_u (s : str) : option str :=
  match after 92 s with
  | Some s1 => after 117 s1
  | None => None
  end.

(** What an escaped code unit [uni] stands for, given the text [r] after
    it: when [uni] is a high surrogate and the escape of a low surrogate
    follows, the code point of the pair and the text after both escapes;
    otherwise [uni] itself. *)
Definition join_ahead (uni : N) (r : str) : option (N * str) :=
  if is_high uni then
    match after_u r with
    | Some r1 =>
        match decode_u r1 with
        | None => None
        | Some (uni2, r2) =>
            if is_low uni2 then Some (join_pair uni uni2, r2)
            else Some (uni, r)
        end
    | None => Some (uni, r)
    end
  else Some (uni, r).

(** [scanstring]: the text after the opening quote, up to and including
    the closing quote. *)
Fixpoint scanstring (fuel : nat) (s : str) : option (str * str) :=
  match fuel with
  | O => None
  | S n =>
      match s with
      | [] => None
      | c :: r =>
          if c =? 34 then Some ([], r)
          else if c =? 92 then
            match r with
            | [] => None
            | e :: r1 =>
                if e =? 117 then
                  match decode_u r1 with
                  | None => None
                  | Some (uni, r2) =>
                      match join_ahead uni r2 with
                      | None => None
                      | Some (ch, r3) =>
                          match scanstring n r3 with
                          | Some (t, r4) => Some (ch :: t, r4)
                          | None => None
                          end
                      end
                  end
                else
                  match short_escape e with
                  | None => None
                  | Some ch =>
                      match scanstring n r1 with
                      | Some (t, r2) => Some (ch :: t, r2)
                      | None => None
                      end
                  end
            end
          else if c <? 32 then None
          else
            match scanstring n r with
            | Some (t, r') => Some (c :: t, r')
            | None => None
            end
      end
  end.

Definition is_digit (c : N) : bool := (48 <=? c) && (c <=? 57).

Definition push_digit (c : N) (u : Decimal.uint) : Decimal.uint :=
  if c =? 48 then Decimal.D0 u
  else if c =? 49 then Decimal.D1 u
  else if c =? 50 then Decimal.D2 u
  else if c =? 51 then Decimal.D3 u
  else if c =? 52 then Decimal.D4 u
  else if c =? 53 then Decimal.D5 u
  else if c =? 54 then Decimal.D6 u
  else if c =? 55 then Decimal.D7 u
  else if c =? 56 then Decimal.D8 u
  else Decimal.D9 u.

(** The longest run of digits at the head of [s]. *)
Fixpoint digits (s : str) : Decimal.uint * str :=
  match s with
  | c :: r =>
      if is_digit c
      then let (u, r') := digits r in (push_digit c u, r')
      else (Decimal.Nil, s)
  | [] => (Decimal.Nil, [])
  end.

(** [0|[1-9][0-9]*] *)
Definition int_part (s : str) : option (Decimal.uint * str) :=
  match s with
  | c :: r =>
      if c =? 48 then Some (Decimal.D0 Decimal.Nil, r)
      else if is_digit c then Some (digits s)
      else None
  | [] => None
  end.

(** [(\.[0-9]+)?]: the digits of the fraction, [Nil] when there is none. *)
Definition frac_part (s : str) : Decimal.uint * str :=
  match after 46 s with
  | Some r =>
      match digits r with
      | (Decimal.Nil, _) => (Decimal.Nil, s)
      | (u, r') => (u, r')
      end
  | None => (Decimal.Nil, s)
  end.

(** [[-+]?]: whether the sign is a minus, and the text after the sign. *)
Definition exp_sign (s : str) : bool * str :=
  match after 45 s, after 43 s with
  | Some r, _ => (true, r)
  | None, Some r => (false, r)
  | None, None => (false, s)
  end.

(** [([eE][-+]?[0-9]+)?] *)
Definition exp_part (s : str) : option Z * str :=
  match s with
  | e :: r =>
      if (e =? 101) || (e =? 69) then
        let (neg, r1) := exp_sign r in
        match digits r1 with
        | (Decimal.Nil, _) => (None, s)
        | (u, r2) =>
            let n := Z.of_N (N.of_uint u) in
            (Some (if neg then (- n)%Z else n), r2)
        end
      else (None, s)
  | [] => (None, s)
  end.

(** [-?] *)
Definition minus_sign (s : str) : bool * str :=
  match after 45 s with
  | Some s1 => (true, s1)
  | None => (false, s)
  end.

(** [NUMBER_RE] and the conversion of its groups. *)
Definition number (s : str) : option (pyval * str) :=
  let (neg, s1) := minus_sign s in
  match int_part s1 with
  | None => None
  | Some (i, s2) =>
      let (f, s3) := frac_part s2 in
      let (e, s4) := exp_part s3 in
      match f, e with
      | Decimal.Nil, None =>
          let n := Z.of_N (N.of_uint i) in
          Some (PInt (if neg then (- n)%Z else n), s4)
      | _, _ =>
          let m := N.of_uint (Decimal.app i f) in
          let x := match e with Some x => x | None => 0%Z end in
          Some (PFloat (FDec neg m (x - Z.of_nat (Decimal.nb_digits f))),
                s4)
      end
  end.

(** [s.startswith(p)]: the rest of [s] after [p]. *)
Fixpoint strip_prefix (p s : str) : option str :=
  match p, s with
  | [], _ => Some s
  | a :: p', b :: s' => if a =? b then strip_prefix p' s' else None
  | _ :: _, [] => None
  end.

(** [dict(pairs)] *)
Definition dict_of_pairs (pairs : list (str * pyval)) : pydict :=
  fold_left (fun d kv => dict_set (fst kv) (snd kv) d) pairs [].

Section Containers.

(** [scan_once] *)
Variable scan_once : str -> option (pyval * str).

(** The elements of a non-empty array, up to the closing bracket. *)
Fixpoint elements (fuel : nat) (s : str) : option (list pyval * str) :=
  match fuel with
  | O => None
  | S n =>
      match scan_once s with
      | None => None
      | Some (v, r) =>
          match skip_ws r with
          | c :: r1 =>
              if c =? 93 then Some ([v], r1)
              else if c =? 44 then
                match elements n (skip_ws r1) with
                | Some (vs, r2) => Some (v :: vs, r2)
                | None => None
                end
              else None
          | [] => None
          end
      end
  end.

(** The members of a non-empty object, from the opening quote of a
    key up to the closing brace. *)
Fixpoint members (fuel : nat) (s : str)
  : option (list (str * pyval) * str) :=
  match fuel with
  | O => None
  | S n =>
      match after 34 s with
      | Some r =>
          match scanstring (List.length r) r with
          | None => None
          | Some (k, r1) =>
              match after 58 (skip_ws r1) with
              | Some r2 =>
                  match scan_once (skip_ws r2) with
                  | None => None
                  | Some (v, r3) =>
                      match skip_ws r3 with
                      | c :: r4 =>
                          if c =? 125 then Some ([(k, v)], r4)
                          else if c =? 44 then
                            match members n (skip_ws r4) with
                            | Some (kvs, r5) => Some ((k, v) :: kvs, r5)
                            | None => None
                            end
                          else None
                      | [] => None
                      end
                  end
              | None => None
              end
          end
      | None => None
      end
  end.

End Containers.

Fixpoint scan_once (fuel : nat) (s : str) : option (pyval * str) :=
  match fuel with
  | O => None
  | S n =>
      match s with
      | [] => None
      | c :: r =>
          if c =? 34 then
            match scanstring (List.length r) r with
            | Some (t, r') => Some (PStr t, r')
            | None => None
            end
          else if c =? 123 then
            match after 125 (skip_ws r) with
            | Some r' => Some (PDict [], r')
            | None =>
                match members (scan_once n) n (skip_ws r) with
                | Some (kvs, r'') => Some (PDict (dict_of_pairs kvs), r'')
                | None => None
                end
            end
          else if c =? 91 then
            match after 93 (skip_ws r) with
            | Some r' => Some (PList [], r')
            | None =>
                match elements (scan_once n) n (skip_ws r) with
                | Some (vs, r'') => Some (PList vs, r'')
                | None => None
                end
            end
          else
            match strip_prefix (py "null") s,
                  strip_prefix (py "true") s,
                  strip_prefix (py "false") s with
            | Some r', _, _ => Some (PNone, r')
            | _, Some r', _ => Some (PBool true, r')
            | _, _, Some r' => Some (PBool false, r')
            | _, _, _ =>
                match number s with
                | Some res => Some res
                | None =>
                    match strip_prefix (py "NaN") s,
                          strip_prefix (py "Infinity") s,
                          strip_prefix (py "-Infinity") s with
                    | Some r', _, _ => Some (PFloat FNaN, r')
                    | _, Some r', _ => Some (PFloat (FInf false), r')
                    | _, _, Some r' => Some (PFloat (FInf true), r')
                    | _, _, _ => None
                    end
                end
            end
      end
  end.

(** [json.loads(s)]: a leading U+FEFF is refused, white space around
    the value is skipped, and nothing may follow. *)
Definition loads (s : str) : option pyval :=
  match after 65279 s with
  | Some _ => None
  | None =>
      match scan_once (S (List.length s)) (skip_ws s) with
      | Some (v, r) =>
          match skip_ws r with
          | [] => Some v
          | _ => None
          end
      | None => None
      end
  end.

(** ** A value after a round trip

    The decoder reads the escapes of a high surrogate and of a low
    surrogate that follows it as the one code point of the pair. *)

Fixpoint join (s : str) : str :=
  match s with
  | [] => []
  | c :: s' =>
      match s' with
      | d :: s'' =>
          if is_high c && is_low d then join_pair c d :: join s''
          else c :: join s'
      | [] => [c]
      end
  end.

Fixpoint join_val (v : pyval) : pyval :=
  match v with
  | PStr s => PStr (join s)
  | PList l => PList (map join_val l)
  | PDict d => PDict (map (fun kv => (fst kv, join_val (snd kv))) d)
  | _ => v
  end.

(** The keys of the envelopes: no surrogate in a key, no key twice. *)
Definition plain_key (k : str) : bool :=
  forallb (fun c => negb (is_high c)) k.

Fixpoint distinct (ks : list str) : bool :=
  match ks with
  | [] => true
  | k :: ks' => negb (existsb (Str.eqb k) ks') && distinct ks'
  end.

(** The values the round trip is proved for: no float, and dictionaries
    with plain, distinct keys. *)
Fixpoint plain (v : pyval) : bool :=
  match v with
  | PFloat _ => false
  | PList l => forallb plain l
  | PDict d =>
      distinct (map fst d)
      && forallb (fun kv => plain_key (fst kv) && plain (snd kv)) d
  | _ => true
  end.

(** The number of nodes of a value. *)
Fixpoint size (v : pyval) : nat :=
  match v with
  | PList l => S (list_sum (map size l))
  | PDict d => S (list_sum (map (fun kv => size (snd kv)) d))
  | _ => 1
  end.

  (** ** Vocabulary of the round-trip proof *)

Definition scan_more (c : N) (r : option (str * str)) : option (str * str) :=
  match r with
  | Some (t, r') => Some (c :: t, r')
  | None => None
  end.

(** The text [T] does not start with the escape of a low surrogate. *)
Definition no_low_ahead (T : str) : Prop :=
  match after_u T with
  | Some r3 =>
      exists u2 r4, decode_u r3 = Some (u2, r4) /\ is_low u2 = false
  | None => True
  end.

Definition no_digit_ahead (rest : str) : Prop :=
  match rest with
  | [] => True
  | c :: _ => is_digit c = false
  end.

Definition number_stop (rest : str) : Prop :=
  match rest with
  | [] => True
  | c :: _ => is_digit c = false /\ c <> 46 /\ c <> 101 /\ c <> 69
  end.

(** What may follow a value in the text [dumps] writes. *)
Definition stop (rest : str) : Prop :=
  match rest with
  | [] => True
  | c :: _ => c = 44 \/ c = 93 \/ c = 125
  end.

(** The first character of the text of a value. *)
Definition value_start (c : N) : Prop :=
  is_ws c = false /\ c <> 93 /\ c <> 125 /\ c <> 65279.

Definition roundtrips (v : pyval) : Prop :=
  plain v = true ->
  forall fuel rest, (size v <= fuel)%nat -> stop rest ->
  scan_once fuel (dumps v ++ rest) = Some (join_val v, rest).

End Json.

(* ================================================================== *)
(** * Calling a tool with [**args] *)

(** The first key of [d] that is no parameter of the function. *)
Definition unexpected_keyword (params : list str) (d : pydict) : option str :=
  option_map fst
    (find (fun kv => negb (existsb (Str.eqb (fst kv)) params)) d).

(** The parameters [d] gives no value for. *)
Definition missing_params (params : list str) (d : pydict) : list str :=
  filter (fun p => negb (dict_mem p d)) params.

(** ['a'], ['a' and 'b'] *)
Fixpoint quoted_names (ps : list str) : str :=
  match ps with
  | [] => []
  | [p] => py "'" ++ p ++ py "'"
  | p :: ps' => py "'" ++ p ++ py "' and " ++ quoted_names ps'
  end.

(** [f( **args)] for a function of [tools.py], whose parameters are all
    required and which takes no [**kwargs]: the argument must be a mapping,
    every key must name a parameter and every parameter must be given.
    The messages are CPython's. *)
Definition bind_kwargs (fname : str) (params : list str) (args : pyval)
  : outcome pydict :=
  match args with
  | PDict d =>
      match unexpected_keyword params d with
      | Some k =>
          Raise (TypeError
                   (fname ++ py "() got an unexpected keyword argument '"
                    ++ k ++ py "'"))
      | None =>
          match missing_params params d with
          | [] => Ok d
          | [p] =>
              Raise (TypeError
                       (fname
                        ++ py "() missing 1 required positional argument: "
                        ++ quoted_names [p]))
          | ps =>
              Raise (TypeError
                       (fname ++ py "() missing "
                        ++ Json.dumps_nat (N.of_nat (List.length ps))
                        ++ py " required positional arguments: "
                        ++ quoted_names ps))
          end
      end
  | _ =>
      Raise (TypeError
               (py "app.tools." ++ fname
                ++ py "() argument after ** must be a mapping, not "
                ++ type_name args))
  end.

(** The value bound to parameter [p]. *)
Definition kwarg (p : str) (d : pydict) : pyval :=
  match dict_get p d with
  | Some v => v
  | None => PNone
  end.

(** [x == "literal"] for a name that may be [None]. *)
Definition name_is (x : option str) (lit : str) : bool :=
  match x with
  | Some s => Str.eqb s lit
  | None => false
  end.

(** [f"{x}"] for a name that may be [None]. *)
Definition format_name (x : option str) : str :=
  match x with
  | Some s => s
  | None => py "None"
  end.

(** [needle in s] for two strings. *)
Fixpoint starts_with (p s : str) : bool :=
  match p, s with
  | [], _ => true
  | a :: p', b :: s' => N.eqb a b && starts_with p' s'
  | _ :: _, [] => false
  end.

Fixpoint is_substring (needle s : str) : bool :=
  starts_with needle s
  || match s with
     | [] => false
     | _ :: s' => is_substring needle s'
     end.

(** [needle in container] *)
Definition py_contains (needle : str) (container : pyval) : outcome bool :=
  match container with
  | PDict d => Ok (dict_mem needle d)
  | PList l =>
      Ok (existsb
            (fun v => match v with
                      | PStr s => Str.eqb s needle
                      | _ => false
                      end) l)
  | PStr s => Ok (is_substring needle s)
  | _ =>
      Raise (TypeError
               (py "argument of type '" ++ type_name container
                ++ py "' is not iterable"))
  end.

(** [container[k] = v] for a string key. *)
Definition py_setitem (container : pyval) (k : str) (v : pyval)
  : outcome pyval :=
  match container with
  | PDict d => Ok (PDict (dict_set k v d))
  | PList _ =>
      Raise (TypeError (py "list indices must be integers or slices, not str"))
  | _ =>
      Raise (TypeError
               (py "'" ++ type_name container
                ++ py "' object does not support item assignment"))
  end.

(** [v.get(k)]: only a [dict] has the method. *)
Definition py_get (k : str) (v : pyval) : outcome (option pyval) :=
  match v with
  | PDict d => Ok (dict_get k d)
  | _ =>
      Raise (AttributeError
               (py "'" ++ type_name v ++ py "' object has no attribute 'get'"))
  end.

(* ================================================================== *)
(** * The orchestration core ([app/agent.py]) *)

(** An item of the decision response's [output], as the core reads it:
    [type], [name], [arguments] and [call_id] (each [None] when the item
    has no such member), and whatever else the item holds. *)
Record item := {
  i_type : option str;
  i_name : option str;
  i_arguments : pyval;
  i_call_id : option str;
  i_rest : pyval;
}.

(** The decision response: its [output] is [None] or a list of items. *)
Record response := { output : option (list item) }.

(** What [_extract_function_calls] returns for one item.  In Python the
    member ["arguments"] is a reference to the very object the item holds;
    [c_item] records which item that is, so that an update in place of the
    arguments can be written to the item as well. *)
Record call := {
  c_name : option str;
  c_arguments : pyval;
  c_call_id : option str;
  c_item : nat;
}.

(** [{"type": "function_call_output", "call_id": ..., "output": ...}] *)
Record tool_output := {
  o_call_id : option str;
  o_output : str;
}.

(** The content of a message of the base input.  The two texts that are
    built from constants and f-strings are kept symbolic. *)
Inductive content :=
| SYSTEM_PROMPT
| UserContext (user_id : str) (name prescriptions : pyval)
| UserText (text : str).

Inductive input_item :=
| Message (role : str) (c : content)
| OutputItem (it : item)
| FunctionCallOutput (o : tool_output).

(** An event of a backend stream, by its [type]. *)
Inductive event :=
| OutputTextDelta (delta : str)
| ResponseError
| OtherEvent.

(** How the streaming call is made: without tools, or with [TOOLS] and
    [tool_choice="none"]. *)
Inductive stream_mode := NoTools | ToolChoiceNone.

(** The model backend ([client.responses]). *)
Record backend := {
  create : list input_item -> response;
  stream : list input_item -> stream_mode -> list event;
}.

(** What the generator yields.  The fixed texts are kept symbolic. *)
Inductive message :=
| TextDelta (delta : str)
| UnknownUserMessage (hebrew : bool) (user_id : str)
| MedicationNotFoundMessage (hebrew : bool)
| StreamErrorMessage
| MissingContextMessage.

(** What a run does, in order. *)
Inductive action :=
| Yield (m : message)
| DecisionCall (input : list input_item)
| StreamingCall (input : list input_item) (mode : stream_mode)
| Dispatch (name : option str) (args : pyval).

(** A run of the generator, consumed to its end: what it did, and the
    exception that ended it, if any. *)
Record run := {
  trace : list action;
  raised : option exn;
}.

(** A function tool of [TOOLS]: its name, its description, the
    properties of its parameters object with the type of each, and the
    required ones.  Every entry has [type] [function], and parameters of
    [type] [object]. *)
Record tool_schema := {
  t_name : str;
  t_description : str;
  t_properties : list (str * str);
  t_required : list str;
}.

Definition TOOLS : list tool_schema :=
  [{| t_name := py "get_medication_by_name";
      t_description :=
        py "Fetch full factual medication record by exact name (case-insensitive).";
      t_properties := [(py "name", py "string")];
      t_required := [py "name"] |};
   {| t_name := py "check_stock";
      t_description :=
        py "Check current stock quantity for a medication by name (case-insensitive).";
      t_properties := [(py "name", py "string")];
      t_required := [py "name"] |};
   {| t_name := py "check_prescription";
      t_description :=
        py "Combined check: whether medication requires a prescription and whether user has it on file.";
      t_properties := [(py "user_id", py "string"); (py "name", py "string")];
      t_required := [py "user_id"; py "name"] |}].

(** The error envelope of the [except] clause around [_run_tool]. *)
Definition tool_error (e : exn) : pyval :=
  PDict [(py "ok", PBool false);
         (py "error", error_body (py "TOOL_ERROR") (str_exn e))].

Definition unknown_tool (tool_name : option str) : pyval :=
  PDict [(py "ok", PBool false);
         (py "error",
          error_body (py "UNKNOWN_TOOL")
            (py "Tool '" ++ format_name tool_name ++ py "' not implemented"))].

(** [_extract_function_calls], the loop over [output] from index [i]. *)
Fixpoint extract_from (i : nat) (items : list item) : list call :=
  match items with
  | [] => []
  | it :: items' =>
      if name_is (i_type it) (py "function_call")
      then {| c_name := i_name it;
              c_arguments := i_arguments it;
              c_call_id := i_call_id it;
              c_item := i |} :: extract_from (S i) items'
      else extract_from (S i) items'
  end.

Definition _extract_function_calls (resp : response) : list call :=
  match output resp with
  | None => []
  | Some items => extract_from 0 items
  end.

Definition _normalize_args (arguments : pyval) : pyval :=
  match arguments with
  | PNone => PDict []
  | PDict _ => arguments
  | PStr s =>
      match Json.loads s with
      | Some v => v
      | None => PDict []
      end
  | _ => PDict []
  end.

Definition _looks_hebrew (text : str) : bool := existsb is_hebrew text.

(** The events of a stream, relayed: a text delta is yielded, an error
    event yields the fixed line and ends the run. *)
Fixpoint relay (events : list event) : list action :=
  match events with
  | [] => []
  | OutputTextDelta d :: events' => Yield (TextDelta d) :: relay events'
  | ResponseError :: _ => [Yield StreamErrorMessage]
  | OtherEvent :: events' => relay events'
  end.

(** [result.get("error", {}).get("code") == "NOT_FOUND"] *)
Definition is_not_found (result : pyval) : outcome bool :=
  error <- py_get (py "error") result ;;
  code <- py_get (py "code")
            (match error with Some e => e | None => PDict [] end) ;;
  Ok (match code with
      | Some (PStr s) => Str.eqb s (py "NOT_FOUND")
      | _ => false
      end).

(** The loop over [tool_outputs] that looks for [NOT_FOUND]. *)
Fixpoint scan_outputs (outs : list tool_output) : outcome bool :=
  match outs with
  | [] => Ok false
  | out :: outs' =>
      match Json.loads (o_output out) with
      | None => scan_outputs outs'
      | Some result =>
          nf <- is_not_found result ;;
          if nf then Ok true else scan_outputs outs'
      end
  end.

(** The arguments of item [i] of the response, replaced. *)
Fixpoint set_arguments (i : nat) (args : pyval) (items : list item)
  : list item :=
  match items, i with
  | [], _ => []
  | it :: items', O =>
      {| i_type := i_type it; i_name := i_name it; i_arguments := args;
         i_call_id := i_call_id it; i_rest := i_rest it |} :: items'
  | it :: items', S j => it :: set_arguments j args items'
  end.

(** An update in place of the arguments of call [c].  When the raw
    arguments are a [dict], [_normalize_args] has returned that very
    object, and the item of the response sees the update; otherwise the
    arguments are a fresh value. *)
Definition write_back (c : call) (args : pyval) (resp : response)
  : response :=
  match c_arguments c, output resp with
  | PDict _, Some items =>
      {| output := Some (set_arguments (c_item c) args items) |}
  | _, _ => resp
  end.

(** [user_res["user"].get(k)] *)
Definition user_member (k : str) (user_res : pyval) : pyval :=
  match user_res with
  | PDict d =>
      match dict_get (py "user") d with
      | Some (PDict u) => kwarg k u
      | _ => PNone
      end
  | _ => PNone
  end.

(** [user_res.get("found")] *)
Definition found (user_res : pyval) : pyval :=
  match user_res with
  | PDict d => kwarg (py "found") d
  | _ => PNone
  end.

(** The input of the decision call. *)
Definition base_input (user_id : str) (user_res : pyval)
  (user_message : str) : list input_item :=
  [Message (py "system") SYSTEM_PROMPT;
   Message (py "system")
     (UserContext user_id
        (user_member (py "name") user_res)
        (user_member (py "prescriptions") user_res));
   Message (py "user") (UserText user_message)].

(** The input of the final call. *)
Definition final_input (base : list input_item) (resp_output : list item)
  (tool_outputs : list tool_output) : list input_item :=
  base ++ map OutputItem resp_output ++ map FunctionCallOutput tool_outputs.

(** What a trace yields, and the calls to the model backend in it. *)
Definition yielded (t : list action) : list message :=
  flat_map (fun a => match a with Yield m => [m] | _ => [] end) t.

Definition model_calls (t : list action) : list action :=
  filter (fun a => match a with
                   | DecisionCall _ | StreamingCall _ _ => true
                   | _ => false
                   end) t.

Definition dispatches (t : list action) : list action :=
  filter (fun a => match a with Dispatch _ _ => true | _ => false end) t.

(** The error code an envelope carries, if any. *)
Definition error_code (envelope : pyval) : option str :=
  match envelope with
  | PDict d =>
      match dict_get (py "error") d with
      | Some (PDict e) =>
          match dict_get (py "code") e with
          | Some (PStr code) => Some code
          | _ => None
          end
      | _ => None
      end
  | _ => None
  end.

Section Agent.

Variable MEDICATIONS : list Db.medication.
Variable USERS : list Db.user.

(** [client] *)
Variable client : backend.

Definition _run_tool (tool_name : option str) (args : pyval)
  : outcome pyval :=
  if name_is tool_name (py "get_medication_by_name") then
    d <- bind_kwargs (py "get_medication_by_name") [py "name"] args ;;
    get_medication_by_name MEDICATIONS (kwarg (py "name") d)
  else if name_is tool_name (py "check_stock") then
    d <- bind_kwargs (py "check_stock") [py "name"] args ;;
    check_stock MEDICATIONS (kwarg (py "name") d)
  else if name_is tool_name (py "check_prescription") then
    d <- bind_kwargs (py "check_prescription")
           [py "user_id"; py "name"] args ;;
    check_prescription MEDICATIONS USERS
      (kwarg (py "user_id") d) (kwarg (py "name") d)
  else Ok (unknown_tool tool_name).

(** The [try] statement around [_run_tool]: the dispatch of one call. *)
Definition dispatch (name : option str) (args : pyval) : pyval :=
  match _run_tool name args with
  | Ok result => result
  | Raise e => tool_error e
  end.

(** The head of the loop body: the arguments of one call, normalized,
    with [user_id] put in for [check_prescription] when it is not
    there.  The arguments the dispatcher gets, and the response as the
    update leaves it. *)
Definition prepare_args (user_id : str) (c : call) (resp : response)
  : outcome (pyval * response) :=
  let args := _normalize_args (c_arguments c) in
  if name_is (c_name c) (py "check_prescription") then
    present <- py_contains (py "user_id") args ;;
    if negb present then
      args' <- py_setitem args (py "user_id") (PStr user_id) ;;
      Ok (args', write_back c args' resp)
    else Ok (args, resp)
  else Ok (args, resp).

(** The loop over [tool_calls]: the dispatches it makes, and either the
    response and the outputs it leaves or the exception that ends it. *)
Fixpoint run_tools (user_id : str) (calls : list call) (resp : response)
  (tool_outputs : list tool_output)
  : list action * outcome (response * list tool_output) :=
  match calls with
  | [] => ([], Ok (resp, tool_outputs))
  | c :: calls' =>
      match prepare_args user_id c resp with
      | Raise e => ([], Raise e)
      | Ok (args, resp1) =>
          let result := dispatch (c_name c) args in
          let (acts, r) :=
            run_tools user_id calls' resp1
              (tool_outputs
               ++ [{| o_call_id := c_call_id c;
                      o_output := Json.dumps result |}]) in
          (Dispatch (c_name c) args :: acts, r)
      end
  end.

Definition stream_agent_reply (user_id user_message : str) : run :=
  match get_user USERS (PStr user_id) with
  | Raise e => {| trace := []; raised := Some e |}
  | Ok user_res =>
      if negb (truthy (found user_res)) then
        {| trace :=
             [Yield (UnknownUserMessage (_looks_hebrew user_message)
                       user_id)];
           raised := None |}
      else
        let base_input := base_input user_id user_res user_message in
        let resp := create client base_input in
        let tool_calls := _extract_function_calls resp in
        match tool_calls with
        | [] =>
            {| trace :=
                 DecisionCall base_input
                 :: StreamingCall base_input NoTools
                 :: relay (stream client base_input NoTools);
               raised := None |}
        | _ :: _ =>
            match run_tools user_id tool_calls resp [] with
            | (acts, Raise e) =>
                {| trace := DecisionCall base_input :: acts;
                   raised := Some e |}
            | (acts, Ok (resp', tool_outputs)) =>
                match scan_outputs tool_outputs with
                | Raise e =>
                    {| trace := DecisionCall base_input :: acts;
                       raised := Some e |}
                | Ok true =>
                    {| trace :=
                         DecisionCall base_input :: acts
                         ++ [Yield (MedicationNotFoundMessage
                                      (_looks_hebrew user_message))];
                       raised := None |}
                | Ok false =>
                    match output resp' with
                    | None | Some [] =>
                        {| trace :=
                             DecisionCall base_input :: acts
                             ++ [Yield MissingContextMessage];
                           raised := None |}
                    | Some resp_output =>
                        let final_input :=
                          final_input base_input resp_output
                            tool_outputs in
                        {| trace :=
                             DecisionCall base_input :: acts
                             ++ StreamingCall final_input ToolChoiceNone
                             :: relay (stream client final_input
                                         ToolChoiceNone);
                           raised := None |}
                    end
                end
            end
        end
  end.

End Agent.

Unset Implicit Arguments.
Local Open Scope N_scope.
Import Json.

(* ================================================================== *)
(** * Vocabulary of the statements about the lookups *)

(** A string of white space only. *)
Definition blank (s : str) : Prop := Forall (fun c => isspace c = true) s.

(** The same character, up to the case of an ASCII letter. *)
Definition same_letter (a b : N) : Prop :=
  a = b
  \/ (65 <= a /\ a <= 90 /\ b = a + 32)
  \/ (65 <= b /\ b <= 90 /\ a = b + 32).

(** [q] is [name] up to letter case, with white space around it. *)
Definition variant (q name : str) : Prop :=
  exists ws1 q0 ws2,
    q = ws1 ++ q0 ++ ws2 /\ blank ws1 /\ blank ws2
    /\ Forall2 same_letter q0 name.

(** [q] is [s] with white space around it. *)
Definition padded (q s : str) : Prop :=
  exists ws1 ws2, q = ws1 ++ s ++ ws2 /\ blank ws1 /\ blank ws2.

(* ================================================================== *)
(** * Vocabulary of the statements about envelopes *)

(** The discriminator of an envelope: ["ok"], or else ["found"]. *)
Definition flag_of (d : pydict) : option bool :=
  match dict_get (py "ok") d with
  | Some (PBool b) => Some b
  | Some _ => None
  | None =>
      match dict_get (py "found") d with
      | Some (PBool b) => Some b
      | _ => None
      end
  end.

(** A result envelope: a dictionary with a discriminator, that carries
    an error with a code and a message exactly when the discriminator is
    false. *)
Definition is_envelope (v : pyval) : bool :=
  match v with
  | PDict d =>
      match flag_of d with
      | Some true => negb (dict_mem (py "error") d)
      | Some false =>
          match dict_get (py "error") d with
          | Some (PDict e) =>
              match dict_get (py "code") e, dict_get (py "message") e with
              | Some (PStr _), Some (PStr _) => true
              | _, _ => false
              end
          | _ => false
          end
      | None => false
      end
  | _ => false
  end.

(** The envelope carries the error code [NOT_FOUND]. *)
Definition carries_not_found (envelope : pyval) : bool :=
  match error_code envelope with
  | Some code => Str.eqb code (py "NOT_FOUND")
  | None => false
  end.

(** The message of the error an envelope carries, if any. *)
Definition error_message (envelope : pyval) : option str :=
  match envelope with
  | PDict d =>
      match dict_get (py "error") d with
      | Some (PDict e) =>
          match dict_get (py "message") e with
          | Some (PStr m) => Some m
          | _ => None
          end
      | _ => None
      end
  | _ => None
  end.

(** The tool names the dispatcher knows. *)
Definition known_tool (name : option str) : bool :=
  name_is name (py "get_medication_by_name")
  || name_is name (py "check_stock")
  || name_is name (py "check_prescription").

(** The output item of a call. *)
Definition output_of MEDICATIONS USERS (c : call) (args : pyval)
  : tool_output :=
  {| o_call_id := c_call_id c;
     o_output := dumps (dispatch MEDICATIONS USERS (c_name c) args) |}.

(** Sample calls: [check_stock] with a parameter the tool does not have,
    [check_stock] of a stored medication, and a response that holds
    neither. *)
Definition faulty_call : call :=
  {| c_name := Some (py "check_stock");
     c_arguments :=
       PStr (dumps (PDict [(py "nam", PStr (py "Paracetamol"))]));
     c_call_id := Some (py "call_1");
     c_item := 0 |}.

Definition stock_call : call :=
  {| c_name := Some (py "check_stock");
     c_arguments :=
       PStr (dumps (PDict [(py "name", PStr (py "Paracetamol"))]));
     c_call_id := Some (py "call_2");
     c_item := 1 |}.

Definition no_output : response := {| output := None |}.

(** The actions of the tool loop are dispatches. *)
Definition dispatch_actions (calls_args : list (call * pyval)) : list action :=
  map (fun ca => Dispatch (c_name (fst ca)) (snd ca)) calls_args.

Definition output_length (resp : response) : option nat :=
  option_map (@List.length item) (output resp).

(** A backend that answers with the given items and streams one delta. *)
Definition scripted (items : list item) : backend :=
  {| create := fun _ => {| output := Some items |};
     stream := fun _ _ => [OutputTextDelta (py "ok")] |}.

(** The item of a function call. *)
Definition function_call (name : str) (arguments : pyval) (call_id : str)
  : item :=
  {| i_type := Some (py "function_call");
     i_name := Some name;
     i_arguments := arguments;
     i_call_id := Some call_id;
     i_rest := PNone |}.

(** A user message in Hebrew (shin, lamed, vav, final mem). *)
Definition shalom : str := [1513; 1500; 1493; 1501].

(** A decision response with a call of [check_stock] and two calls of
    [check_prescription]: without [user_id], and with the [user_id] of
    another user. *)
Definition prescription_items : list item :=
  [function_call (py "check_stock")
     (PStr (dumps (PDict [(py "name", PStr (py "Paracetamol"))])))
     (py "call_1");
   function_call (py "check_prescription")
     (PStr (dumps (PDict [(py "name", PStr (py "Amoxicillin"))])))
     (py "call_2");
   function_call (py "check_prescription")
     (PStr (dumps (PDict [(py "user_id", PStr (py "u002"));
                          (py "name", PStr (py "Amoxicillin"))])))
     (py "call_3")].

(** A decision output with two calls named [check_prescription]: the
    arguments of the first are the text of a JSON array, those of the
    second the text of a mapping with [name] only. *)
Definition array_first_items : list item :=
  [function_call (py "check_prescription") (PStr (py "[]")) (py "call_1");
   function_call (py "check_prescription")
     (PStr (dumps (PDict [(py "name", PStr (py "Amoxicillin"))])))
     (py "call_2")].

(** A decision response with two calls of [check_stock]: a stored
    medication and an unknown one. *)
Definition stock_items : list item :=
  [function_call (py "check_stock")
     (PStr (dumps (PDict [(py "name", PStr (py "Paracetamol"))])))
     (py "call_1");
   function_call (py "check_stock")
     (PStr (dumps (PDict [(py "name", PStr (py "Aspirin"))])))
     (py "call_2")].

(* ================================================================== *)
(** * Vocabulary of the statements about the final input *)

(** The payload is a mapping already: [isinstance(arguments, dict)]. *)
Definition structured (arguments : pyval) : bool :=
  match arguments with
  | PDict _ => true
  | _ => false
  end.

(** The call ids of the function-call-output items of an input. *)
Definition output_ids (input : list input_item) : list (option str) :=
  flat_map (fun it => match it with
                      | FunctionCallOutput o => [o_call_id o]
                      | _ => []
                      end) input.

Definition id_eq_dec (a b : option str) : {a = b} + {a <> b}.
Proof. decide equality. apply (list_eq_dec N.eq_dec). Defined.

(** How often a call id occurs in a list of ids. *)
Definition occurrences (id : option str) (ids : list (option str)) : nat :=
  count_occ id_eq_dec ids id.

(** A decision response with two calls that carry the same call id. *)
Definition same_id_items : list item :=
  [function_call (py "check_stock")
     (PStr (dumps (PDict [(py "name", PStr (py "Paracetamol"))])))
     (py "call_1");
   function_call (py "check_stock")
     (PStr (dumps (PDict [(py "name", PStr (py "Ibuprofen"))])))
     (py "call_1")].

(** A decision response whose call holds its arguments as a mapping. *)
Definition structured_items : list item :=
  [function_call (py "check_prescription")
     (PDict [(py "name", PStr (py "Amoxicillin"))])
     (py "call_1")].

(** A decision response with two calls and distinct call ids. *)
Definition two_items : list item :=
  [function_call (py "check_prescription")
     (PStr (dumps (PDict [(py "name", PStr (py "Amoxicillin"))])))
     (py "call_1");
   function_call (py "check_stock")
     (PStr (dumps (PDict [(py "name", PStr (py "Paracetamol"))])))
     (py "call_2")].

(** The input of the final call of a run, if the run makes one. *)
Definition final_call_input (t : list action) : option (list input_item) :=
  match filter (fun a => match a with
                         | StreamingCall _ ToolChoiceNone => true
                         | _ => false
                         end) t with
  | StreamingCall input _ :: _ => Some input
  | _ => None
  end.

(** The one update the tool loop makes to an item of the decision
    response.  The arguments of a call are the very object its item
    holds; when the call is named [check_prescription] and the object is
    a mapping without [user_id], the assignment [args["user_id"] = ...]
    writes to it.  Every other item is left as it was. *)
Definition inject_user_id (user_id : str) (it : item) : item :=
  if name_is (i_type it) (py "function_call")
     && name_is (i_name it) (py "check_prescription")
  then
    match i_arguments it with
    | PDict d =>
        if dict_mem (py "user_id") d then it
        else {| i_type := i_type it;
                i_name := i_name it;
                i_arguments :=
                  PDict (dict_set (py "user_id") (PStr user_id) d);
                i_call_id := i_call_id it;
                i_rest := i_rest it |}
    | _ => it
    end
  else it.

(** A call whose arguments are updated in place: it is named
    [check_prescription] and holds its arguments as a mapping without
    [user_id]. *)
Definition updated_in_place (c : call) : bool :=
  name_is (c_name c) (py "check_prescription")
  && match c_arguments c with
     | PDict d => negb (dict_mem (py "user_id") d)
     | _ => false
     end.

(* ================================================================== *)
(** * Vocabulary of the statements about the tool layer *)

(** What [get_user] returns for the record [u]. *)
Definition user_envelope (u : Db.user) : pyval :=
  PDict [(py "found", PBool true);
         (py "user",
          PDict [(py "user_id", PStr (Db.user_id u));
                 (py "name", PStr (Db.user_name u));
                 (py "prescriptions",
                  PList (map PStr (Db.prescriptions u)))])].

(** What [get_medication_by_name] returns for the record [m]. *)
Definition medication_envelope (m : Db.medication) : pyval :=
  PDict
    [(py "found", PBool true);
     (py "medication",
      PDict
        [(py "name", PStr (Db.name m));
         (py "active_ingredient", PStr (Db.active_ingredient m));
         (py "requires_prescription", PBool (Db.requires_prescription m));
         (py "dosage_instruction", dosage_dict (Db.dosage_instruction m));
         (py "usage_instructions", PStr (Db.usage_instructions m));
         (py "safety_instructions", PStr (Db.safety_instructions m));
         (py "stock", PInt (Db.stock m))])].

(** What [check_stock] returns for the record [m]. *)
Definition stock_envelope (m : Db.medication) : pyval :=
  PDict [(py "found", PBool true);
         (py "name", PStr (Db.name m));
         (py "stock", PInt (Db.stock m))].

(** The two error envelopes of [tools.py], under the flag [found] or
    [ok]. *)
Definition unknown_user (flag : str) (user_id : pyval) : pyval :=
  PDict [(flag, PBool false);
         (py "error",
          error_body (py "UNKNOWN_USER") (user_not_found user_id))].

Definition not_found (flag : str) (name : pyval) : pyval :=
  PDict [(flag, PBool false);
         (py "error",
          error_body (py "NOT_FOUND") (medication_not_found name))].

(** A string of ASCII characters only, and a store whose medication
    names are such strings, as those of [db.py] are.  [lower] is written
    out for the comparison with a lower-cased ASCII name: the comparison
    of [lower q] with [lower name] is that of [q.lower()] with
    [name.lower()] whenever [name] is ASCII, whatever [q] is.  The
    statements below that compare lower-cased names over any store are
    about the stores with ASCII names. *)
Definition is_ascii (s : str) : bool := forallb (fun c => c <? 128) s.

Definition ascii_names (ms : list Db.medication) : bool :=
  forallb (fun m => is_ascii (Db.name m)) ms.

(** [AttributeError] of [v.strip()] for a [v] that is no [str]. *)
Definition no_strip (v : pyval) : exn :=
  AttributeError
    (py "'" ++ type_name v ++ py "' object has no attribute 'strip'").

(* ================================================================== *)
(** * Vocabulary of the statements about the paths of a run *)

(** The test [itype == "function_call"] on an item. *)
Definition is_function_call (it : item) : bool :=
  name_is (i_type it) (py "function_call").

(** The items of a response, none when [output] is [None]. *)
Definition items_of (resp : response) : list item :=
  match output resp with
  | Some items => items
  | None => []
  end.

(** The text deltas among the events of a stream, in their order. *)
Definition deltas (events : list event) : list message :=
  flat_map (fun e => match e with
                     | OutputTextDelta d => [TextDelta d]
                     | _ => []
                     end) events.

(** The test [event.type == "response.error"]. *)
Definition is_error (e : event) : bool :=
  match e with
  | ResponseError => true
  | _ => false
  end.

(** An item of the decision response that is no function call. *)
Definition message_item : item :=
  {| i_type := Some (py "message");
     i_name := None;
     i_arguments := PNone;
     i_call_id := None;
     i_rest := PNone |}.

(** A decision output with one call whose arguments are the text of a
    JSON array. *)
Definition array_items : list item :=
  [function_call (py "check_prescription") (PStr (py "[]")) (py "call_1")].

(** A decision output with a call to a tool that does not exist and a
    call that succeeds. *)
Definition mixed_items : list item :=
  [function_call (py "refill") (PStr (dumps (PDict []))) (py "call_1");
   function_call (py "check_stock")
     (PStr (dumps (PDict [(py "name", PStr (py "Paracetamol"))])))
     (py "call_2")].

(* ================================================================== *)
(** * Vocabulary of the statements about the dispatcher *)

(** The keyword arguments [d] fit the parameters [params]: every key
    names a parameter and every parameter has a value. *)
Definition accepts (params : list str) (d : pydict) : bool :=
  forallb (fun kv => existsb (Str.eqb (fst kv)) params) d
  && forallb (fun p => dict_mem p d) params.

(** The arguments [d] conform to the schema [t]: every key is a property
    of the schema, every required property is there, and every value is a
    string, the type the schema gives to each property. *)
Definition conforms (t : tool_schema) (d : pydict) : bool :=
  forallb (fun kv => existsb (Str.eqb (fst kv)) (map fst (t_properties t))) d
  && forallb (fun p => dict_mem p d) (t_required t)
  && forallb (fun kv => match snd kv with PStr _ => true | _ => false end) d.

(** No high surrogate in any string of a value. *)
Fixpoint no_high (v : pyval) : bool :=
  match v with
  | PStr s => plain_key s
  | PList l => forallb no_high l
  | PDict d => forallb (fun kv => no_high (snd kv)) d
  | _ => true
  end.

(** A call whose arguments are a text that is no JSON. *)
Definition garbled_call : call :=
  {| c_name := Some (py "check_prescription");
     c_arguments := PStr (py "{name: Amoxicillin");
     c_call_id := Some (py "call_1");
     c_item := 0 |}.

(* ================================================================== *)
(** * Properties *)

Ltac Zify.zify_post_hook ::= Z.to_euclidean_division_equations.

(* ================================================================== *)
(** * Strings *)

Lemma str_eqb_spec (a b : str) : reflect (a = b) (Str.eqb a b).
Proof.
  revert b; induction a as [|x a IH]; destruct b as [|y b]; simpl;
    try (constructor; congruence).
  destruct (N.eqb_spec x y) as [->|Hne]; simpl.
  - destruct (IH b) as [->|Hne]; constructor; congruence.
  - constructor; congruence.
Qed.

Lemma str_eqb_refl (a : str) : Str.eqb a a = true.
Proof. destruct (str_eqb_spec a a); congruence. Qed.

Lemma str_eqb_eq (a b : str) : Str.eqb a b = true <-> a = b.
Proof. destruct (str_eqb_spec a b); split; congruence. Qed.

Lemma str_eqb_neq (a b : str) : Str.eqb a b = false <-> a <> b.
Proof. destruct (str_eqb_spec a b); split; congruence. Qed.

Lemma str_eqb_sym (a b : str) : Str.eqb a b = Str.eqb b a.
Proof.
  destruct (str_eqb_spec a b) as [->|H].
  - symmetry. apply str_eqb_refl.
  - symmetry. apply str_eqb_neq. congruence.
Qed.

(* ================================================================== *)
(** * The round trip through JSON *)

(** Case analysis on every comparison of the goal, dropping the cases
    the hypotheses exclude. *)
Ltac nb :=
  repeat match goal with
    | |- context [N.eqb ?a ?b] => destruct (N.eqb_spec a b); try lia
    | |- context [N.leb ?a ?b] => destruct (N.leb_spec a b); try lia
    | |- context [N.ltb ?a ?b] => destruct (N.ltb_spec a b); try lia
    end; cbn [andb orb negb]; try lia.

Lemma after_start c x t : x <> c -> after c (x :: t) = None.
Proof. intros H. unfold after. destruct (N.eqb_spec x c); congruence. Qed.

Lemma hex_val_digit d : d < 16 -> hex_val (hex_digit d) = Some d.
Proof.
  intros H. unfold hex_val, hex_digit.
  destruct (N.ltb_spec d 10); nb; f_equal; lia.
Qed.

Lemma decode_escape_u c r :
  c < 65536 ->
  decode_u (hex_digit (c / 4096) :: hex_digit ((c / 256) mod 16)
            :: hex_digit ((c / 16) mod 16) :: hex_digit (c mod 16) :: r)
  = Some (c, r).
Proof.
  intros H. unfold decode_u.
  rewrite !hex_val_digit.
  - f_equal. f_equal.
    replace (c / 4096) with (c / 16 / 16 / 16)
      by (rewrite !N.Div0.div_div; reflexivity).
    replace (c / 256) with (c / 16 / 16)
      by (rewrite !N.Div0.div_div; reflexivity).
    lia.
  - apply N.mod_lt; lia.
  - apply N.mod_lt; lia.
  - apply N.mod_lt; lia.
  - apply N.Div0.div_lt_upper_bound; lia.
Qed.

Lemma join_cons_plain c s : is_high c = false -> join (c :: s) = c :: join s.
Proof. intros H. simpl. destruct s; [reflexivity|]. rewrite H. reflexivity. Qed.

(** a character that is no high surrogate: whatever follows *)
Lemma scan_step_plain n c T :
  is_high c = false ->
  scanstring (S n) (escape_cp c ++ T) = scan_more c (scanstring n T).
Proof.
  intros Hh. unfold is_high in Hh. unfold escape_cp.
  destruct (N.eqb_spec c 34) as [->|]; [reflexivity|].
  destruct (N.eqb_spec c 92) as [->|]; [reflexivity|].
  destruct (N.eqb_spec c 10) as [->|]; [reflexivity|].
  destruct (N.eqb_spec c 13) as [->|]; [reflexivity|].
  destruct (N.eqb_spec c 9) as [->|]; [reflexivity|].
  destruct (N.eqb_spec c 8) as [->|]; [reflexivity|].
  destruct (N.eqb_spec c 12) as [->|]; [reflexivity|].
  destruct (andb (32 <=? c) (c <=? 126)) eqn:Hp.
  { cbn [app scanstring].
    apply andb_true_iff in Hp. destruct Hp as [H1 H2].
    apply N.leb_le in H1. apply N.leb_le in H2.
    destruct (N.eqb_spec c 34); [lia|].
    destruct (N.eqb_spec c 92); [lia|].
    destruct (N.ltb_spec c 32); [lia|]. reflexivity. }
  destruct (N.ltb_spec c 65536).
  { unfold escape_u. cbn [app scanstring N.eqb Pos.eqb].
    rewrite decode_escape_u by assumption.
    unfold join_ahead, is_high. rewrite Hh. reflexivity. }
  destruct (N.ltb_spec c 1114112).
  { unfold escape_u. rewrite <- app_assoc. cbn [app scanstring N.eqb Pos.eqb].
    rewrite decode_escape_u.
    2:{ lia. }
    assert (Hhi : is_high (55296 + (c - 65536) / 1024) = true).
    { unfold is_high. apply andb_true_iff. split; [apply N.leb_le|apply N.leb_le]; lia. }
    unfold join_ahead. rewrite Hhi. cbn [after_u after N.eqb Pos.eqb].
    rewrite decode_escape_u by lia.
    assert (Hlo : is_low (56320 + (c - 65536) mod 1024) = true).
    { unfold is_low. apply andb_true_iff. split; [apply N.leb_le|apply N.leb_le]; lia. }
    rewrite Hlo.
    replace (join_pair _ _) with c by (unfold join_pair; lia).
    reflexivity. }
  cbn [app scanstring].
  destruct (N.eqb_spec c 34); [lia|].
  destruct (N.eqb_spec c 92); [lia|].
  destruct (N.ltb_spec c 32); [lia|]. reflexivity.
Qed.

Lemma escape_high c : is_high c = true -> escape_cp c = escape_u c.
Proof.
  unfold is_high. intros H. apply andb_true_iff in H. destruct H as [H1 H2].
  apply N.leb_le in H1. apply N.leb_le in H2.
  unfold escape_cp. nb. reflexivity.
Qed.

Lemma escape_low d : is_low d = true -> escape_cp d = escape_u d.
Proof.
  unfold is_low. intros H. apply andb_true_iff in H. destruct H as [H1 H2].
  apply N.leb_le in H1. apply N.leb_le in H2.
  unfold escape_cp. nb. reflexivity.
Qed.

Lemma high_bound c : is_high c = true -> c < 65536.
Proof.
  unfold is_high. intros H. apply andb_true_iff in H. destruct H as [H1 H2].
  apply N.leb_le in H2. lia.
Qed.

Lemma low_bound c : is_low c = true -> c < 65536.
Proof.
  unfold is_low. intros H. apply andb_true_iff in H. destruct H as [H1 H2].
  apply N.leb_le in H2. lia.
Qed.

Lemma scan_step_pair n c d T :
  is_high c = true -> is_low d = true ->
  scanstring (S n) (escape_cp c ++ escape_cp d ++ T)
  = scan_more (join_pair c d) (scanstring n T).
Proof.
  intros Hc Hd. rewrite (escape_high c Hc), (escape_low d Hd).
  unfold escape_u. cbn [app scanstring N.eqb Pos.eqb].
  rewrite decode_escape_u by (apply high_bound; assumption).
  unfold join_ahead. rewrite Hc. cbn [after_u after N.eqb Pos.eqb].
  rewrite decode_escape_u by (apply low_bound; assumption).
  rewrite Hd. reflexivity.
Qed.

Lemma scan_step_high n c T :
  is_high c = true -> no_low_ahead T ->
  scanstring (S n) (escape_cp c ++ T) = scan_more c (scanstring n T).
Proof.
  intros Hc HT. rewrite (escape_high c Hc).
  unfold escape_u. cbn [app scanstring N.eqb Pos.eqb].
  rewrite decode_escape_u by (apply high_bound; assumption).
  unfold join_ahead. rewrite Hc. unfold no_low_ahead in HT.
  destruct (after_u T) as [r3|]; [|reflexivity].
  destruct HT as (u2 & r4 & Hdec & Hlow).
  rewrite Hdec, Hlow. reflexivity.
Qed.

Lemma after_u_raw d T : d <> 92 -> after_u ([d] ++ T) = None.
Proof.
  intros H. unfold after_u, after. cbn [app].
  destruct (N.eqb_spec d 92); [congruence|reflexivity].
Qed.

Lemma no_low_ahead_escape d T :
  is_low d = false -> no_low_ahead (escape_cp d ++ T).
Proof.
  intros Hd. unfold escape_cp.
  destruct (N.eqb_spec d 34) as [->|]; [exact I|].
  destruct (N.eqb_spec d 92) as [->|]; [exact I|].
  destruct (N.eqb_spec d 10) as [->|]; [exact I|].
  destruct (N.eqb_spec d 13) as [->|]; [exact I|].
  destruct (N.eqb_spec d 9) as [->|]; [exact I|].
  destruct (N.eqb_spec d 8) as [->|]; [exact I|].
  destruct (N.eqb_spec d 12) as [->|]; [exact I|].
  assert (Hraw : no_low_ahead ([d] ++ T)).
  { unfold no_low_ahead. rewrite after_u_raw by assumption. exact I. }
  destruct (andb (32 <=? d) (d <=? 126)); [exact Hraw|].
  destruct (N.ltb_spec d 65536).
  { unfold escape_u, no_low_ahead. cbn [app after_u after N.eqb Pos.eqb].
    eexists _, _. split; [apply decode_escape_u; assumption|assumption]. }
  destruct (N.ltb_spec d 1114112); [|exact Hraw].
  unfold escape_u, no_low_ahead. rewrite <- app_assoc.
  cbn [app after_u after N.eqb Pos.eqb].
  eexists _, _. split; [apply decode_escape_u; lia|].
  unfold is_low. apply andb_false_iff. left. apply N.leb_gt. lia.
Qed.

Lemma escape_cp_length c : (1 <= List.length (escape_cp c))%nat.
Proof.
  unfold escape_cp, escape_u.
  repeat match goal with
         | |- context [if ?b then _ else _] => destruct b
         end; try rewrite length_app; simpl; lia.
Qed.

Lemma scanstring_escape :
  forall m s, (List.length s <= m)%nat ->
  forall fuel rest, (List.length s < fuel)%nat ->
  scanstring fuel (flat_map escape_cp s ++ 34 :: rest) = Some (join s, rest).
Proof.
  induction m as [|m IH]; intros s Hm fuel rest Hf.
  - destruct s; [|simpl in Hm; lia].
    destruct fuel; [simpl in Hf; lia|]. reflexivity.
  - destruct s as [|c s].
    + destruct fuel; [simpl in Hf; lia|]. reflexivity.
    + destruct fuel as [|fuel]; [simpl in Hf; lia|].
      simpl in Hm, Hf.
      cbn [flat_map]. rewrite <- app_assoc.
      destruct (is_high c) eqn:Hc.
      * destruct s as [|d s].
        { rewrite scan_step_high by (assumption || exact I).
          destruct fuel; [lia|]. reflexivity. }
        destruct (is_low d) eqn:Hd.
        { cbn [flat_map]. rewrite <- app_assoc.
          rewrite scan_step_pair by assumption.
          simpl in Hm, Hf.
          rewrite IH by lia.
          cbn [join]. rewrite Hc, Hd. reflexivity. }
        rewrite scan_step_high.
        2: assumption.
        2:{ cbn [flat_map]. rewrite <- app_assoc.
            apply no_low_ahead_escape. assumption. }
        rewrite IH by (simpl in *; lia).
        cbn [join andb]. rewrite Hc, Hd. reflexivity.
      * rewrite scan_step_plain by assumption.
        rewrite IH by lia.
        rewrite join_cons_plain by assumption. reflexivity.
Qed.

(* ---------- numbers ---------- *)

Lemma digits_stop rest : no_digit_ahead rest -> digits rest = (Decimal.Nil, rest).
Proof. destruct rest; simpl; intros H; [reflexivity|rewrite H; reflexivity]. Qed.

Lemma digits_uint_str u rest :
  no_digit_ahead rest -> digits (uint_str u ++ rest) = (u, rest).
Proof.
  intros H. induction u; cbn [uint_str app];
    [apply digits_stop; assumption|..];
    cbn [digits]; change (is_digit _) with true; cbv iota;
    rewrite IHu; reflexivity.
Qed.

Lemma pos_to_uint_head p :
  exists c t, uint_str (Pos.to_uint p) = c :: t /\ is_digit c = true /\ c <> 48.
Proof.
  assert (Hn : Pos.to_uint p = Decimal.unorm (Pos.to_uint p)).
  { change (Pos.to_uint p) with (N.to_uint (Npos p)) at 1.
    rewrite <- (DecimalPos.Unsigned.of_to p) at 1.
    apply DecimalPos.Unsigned.to_of. }
  destruct (Pos.to_uint p) as [|u|u|u|u|u|u|u|u|u|u] eqn:E;
    try (eexists _, _; cbn [uint_str]; split; [reflexivity|split; [reflexivity|discriminate]]).
  - exfalso. eapply DecimalPos.Unsigned.to_uint_nonnil; eassumption.
  - exfalso.
    destruct (Decimal.nzhead (Decimal.D0 u)) eqn:E2;
      [ | eapply DecimalFacts.nzhead_nonzero; exact E2
        | unfold Decimal.unorm in Hn; rewrite E2 in Hn; discriminate .. ].
    assert (Hz : Decimal.unorm (Decimal.D0 u) = Decimal.zero)
      by (unfold Decimal.unorm; rewrite E2; reflexivity).
    rewrite <- Hn in Hz.
    eapply DecimalPos.Unsigned.to_uint_nonzero. rewrite E. exact Hz.
Qed.

Lemma number_stop_no_digit rest : number_stop rest -> no_digit_ahead rest.
Proof. destruct rest; simpl; tauto. Qed.

Lemma frac_exp_stop rest :
  number_stop rest ->
  frac_part rest = (Decimal.Nil, rest) /\ exp_part rest = (None, rest).
Proof.
  destruct rest as [|c rest]; [split; reflexivity|].
  intros (Hd & H1 & H2 & H3). split.
  - unfold frac_part. rewrite after_start by assumption. reflexivity.
  - unfold exp_part.
    destruct (N.eqb_spec c 101); [congruence|].
    destruct (N.eqb_spec c 69); [congruence|]. reflexivity.
Qed.

Lemma int_part_nat n rest :
  number_stop rest ->
  int_part (dumps_nat n ++ rest) = Some (N.to_uint n, rest).
Proof.
  intros Hs. destruct n as [|p].
  - reflexivity.
  - unfold dumps_nat. change (N.to_uint (N.pos p)) with (Pos.to_uint p).
    destruct (pos_to_uint_head p) as (c & t & E & Hd & Hz).
    pose proof (digits_uint_str (Pos.to_uint p) rest
                  (number_stop_no_digit _ Hs)) as D.
    rewrite E in *. cbn [app] in *. unfold int_part.
    destruct (N.eqb_spec c 48); [congruence|].
    rewrite Hd. rewrite D. reflexivity.
Qed.

Lemma number_nat n rest :
  number_stop rest ->
  number (dumps_nat n ++ rest) = Some (PInt (Z.of_N n), rest).
Proof.
  intros Hs. unfold number.
  assert (Hhead : exists c t, dumps_nat n ++ rest = c :: t /\ c <> 45).
  { destruct n as [|p]; [eexists _, _; split; [reflexivity|discriminate]|].
    unfold dumps_nat. change (N.to_uint (N.pos p)) with (Pos.to_uint p).
    destruct (pos_to_uint_head p) as (c & t & E & Hd & Hz).
    rewrite E. eexists _, _. split; [reflexivity|].
    intros ->. discriminate. }
  destruct Hhead as (c & t & E & Hc).
  assert (Hm : minus_sign (dumps_nat n ++ rest) = (false, dumps_nat n ++ rest)).
  { rewrite E. unfold minus_sign. rewrite after_start by assumption.
    reflexivity. }
  rewrite Hm. rewrite int_part_nat by assumption.
  destruct (frac_exp_stop rest Hs) as [-> ->].
  rewrite DecimalN.Unsigned.of_to. reflexivity.
Qed.

Lemma number_int z rest :
  number_stop rest ->
  number (dumps_int z ++ rest) = Some (PInt z, rest).
Proof.
  intros Hs. destruct z as [|p|p].
  - apply (number_nat 0 rest Hs).
  - apply (number_nat (Npos p) rest Hs).
  - unfold dumps_int. cbn [app]. unfold number.
    cbn [minus_sign after N.eqb Pos.eqb].
    rewrite int_part_nat by assumption.
    destruct (frac_exp_stop rest Hs) as [-> ->].
    rewrite DecimalN.Unsigned.of_to. reflexivity.
Qed.

(* ---------- values ---------- *)

Lemma stop_number rest : stop rest -> number_stop rest.
Proof.
  destruct rest as [|c rest]; [exact (fun H => H)|].
  intros [ -> | [ -> | -> ] ]; repeat split; discriminate.
Qed.

Lemma digit_value_start c : is_digit c = true -> value_start c.
Proof.
  unfold is_digit, value_start, is_ws. intros H.
  apply andb_true_iff in H. destruct H as [H1 H2].
  apply N.leb_le in H1. apply N.leb_le in H2.
  repeat split; nb.
Qed.

Lemma dumps_nat_head n :
  exists c t, dumps_nat n = c :: t /\ is_digit c = true.
Proof.
  destruct n as [|p].
  - eexists _, _. split; reflexivity.
  - destruct (pos_to_uint_head p) as (c & t & E & Hd & _).
    exists c, t. split; assumption.
Qed.

Lemma dumps_int_head z :
  exists c t, dumps_int z = c :: t /\ (c = 45 \/ is_digit c = true).
Proof.
  destruct z as [|p|p].
  - eexists _, _. split; [reflexivity|right; reflexivity].
  - destruct (dumps_nat_head (Npos p)) as (c & t & E & Hd).
    exists c, t. split; [exact E|right; exact Hd].
  - eexists _, _. split; [reflexivity|left; reflexivity].
Qed.

Lemma dumps_head v :
  plain v = true -> exists c t, dumps v = c :: t /\ value_start c.
Proof.
  destruct v as [|[]|z|f|s|l|d]; cbn [plain dumps]; intros Hp;
    try discriminate;
    try (eexists _, _; split; [reflexivity|];
         repeat split; (reflexivity || discriminate)).
  destruct (dumps_int_head z) as (c & t & E & [ -> | Hd ]).
  - exists 45, t. split; [exact E|repeat split; (reflexivity || discriminate)].
  - exists c, t. split; [exact E|apply digit_value_start; exact Hd].
Qed.

Lemma skip_ws_start c t : value_start c -> skip_ws (c :: t) = c :: t.
Proof. intros (H & _). cbn [skip_ws]. rewrite H. reflexivity. Qed.

Lemma strip_prefix_ne a p c t :
  a <> c -> strip_prefix (a :: p) (c :: t) = None.
Proof. intros H. cbn [strip_prefix]. destruct (N.eqb_spec a c); congruence. Qed.

Lemma scan_once_number n c t res :
  c = 45 \/ is_digit c = true ->
  number (c :: t) = Some res ->
  scan_once (S n) (c :: t) = Some res.
Proof.
  intros Hc Hn.
  assert (H : c <> 34 /\ c <> 123 /\ c <> 91 /\ 110 <> c /\ 116 <> c /\ 102 <> c).
  { destruct Hc as [ -> | Hd ]; [repeat split; discriminate|].
    unfold is_digit in Hd. apply andb_true_iff in Hd. destruct Hd as [H1 H2].
    apply N.leb_le in H1. apply N.leb_le in H2. repeat split; lia. }
  destruct H as (H1 & H2 & H3 & H4 & H5 & H6).
  cbn [scan_once].
  destruct (N.eqb_spec c 34); [congruence|].
  destruct (N.eqb_spec c 123); [congruence|].
  destruct (N.eqb_spec c 91); [congruence|].
  change (py "null") with (110 :: py "ull").
  change (py "true") with (116 :: py "rue").
  change (py "false") with (102 :: py "alse").
  rewrite !strip_prefix_ne by assumption.
  rewrite Hn. reflexivity.
Qed.

Lemma escape_length s : (List.length s <= List.length (flat_map escape_cp s))%nat.
Proof.
  induction s as [|c s IH]; [reflexivity|].
  cbn [flat_map]. rewrite length_app. pose proof (escape_cp_length c).
  simpl. lia.
Qed.

Lemma scan_dumps_str s rest :
  scanstring (List.length (flat_map escape_cp s ++ 34 :: rest))
    (flat_map escape_cp s ++ 34 :: rest) = Some (join s, rest).
Proof.
  apply (scanstring_escape (List.length s)); [lia|].
  rewrite length_app. pose proof (escape_length s). simpl. lia.
Qed.

Lemma dumps_str_app s rest :
  dumps_str s ++ rest = 34 :: flat_map escape_cp s ++ 34 :: rest.
Proof. unfold dumps_str. cbn [app]. rewrite <- app_assoc. reflexivity. Qed.

Lemma intercalate_cons2 sep p q ps :
  intercalate sep (p :: q :: ps) = p ++ sep ++ intercalate sep (q :: ps).
Proof. reflexivity. Qed.

Lemma intercalate_head sep c t ps R :
  exists t', intercalate sep ((c :: t) :: ps) ++ R = c :: t'.
Proof.
  destruct ps; cbn [intercalate app]; eexists; reflexivity.
Qed.

Lemma skip_ws_values sep y l R :
  plain y = true ->
  skip_ws (intercalate sep (map dumps (y :: l)) ++ R)
  = intercalate sep (map dumps (y :: l)) ++ R.
Proof.
  intros Hp. destruct (dumps_head y Hp) as (c & t & E & Hc).
  destruct l; cbn [map intercalate]; rewrite E; cbn [app];
    apply skip_ws_start; exact Hc.
Qed.

Lemma elements_dumps n :
  forall l, Forall roundtrips l -> forallb plain l = true -> l <> [] ->
  (forall x, In x l -> (size x <= n)%nat) ->
  forall fuel rest, (List.length l <= fuel)%nat -> stop rest ->
  elements (scan_once n) fuel
    (intercalate [44; 32] (map dumps l) ++ 93 :: rest)
  = Some (map join_val l, rest).
Proof.
  induction l as [|x l IH]; intros HR Hp Hne Hsz fuel rest Hf Hs; [congruence|].
  inversion HR as [|? ? Hx HR']; subst.
  cbn [forallb] in Hp. apply andb_true_iff in Hp. destruct Hp as [Hpx Hpl].
  destruct fuel as [|fuel]; [simpl in Hf; lia|].
  destruct l as [|y l].
  - cbn [map intercalate elements].
    rewrite (Hx Hpx) by (try apply Hsz; simpl; auto).
    cbn [skip_ws is_ws N.eqb Pos.eqb orb]. reflexivity.
  - cbn [map]. rewrite intercalate_cons2. rewrite <- !app_assoc.
    cbn [elements].
    rewrite (Hx Hpx) by (try apply Hsz; simpl; auto).
    cbn [app skip_ws is_ws N.eqb Pos.eqb orb].
    change (dumps y :: map dumps l) with (map dumps (y :: l)).
    rewrite skip_ws_values
      by (cbn [forallb] in Hpl; apply andb_true_iff in Hpl; tauto).
    rewrite IH; try assumption; try discriminate.
    + reflexivity.
    + intros z Hz. apply Hsz. right. exact Hz.
    + simpl in *. lia.
Qed.

Lemma join_plain_key k : plain_key k = true -> join k = k.
Proof.
  induction k as [|c k IH]; [reflexivity|].
  unfold plain_key. cbn [forallb]. intros H.
  apply andb_true_iff in H. destruct H as [Hc Hk].
  apply negb_true_iff in Hc.
  rewrite join_cons_plain by assumption. rewrite IH by assumption.
  reflexivity.
Qed.

Lemma member_text_app k v R :
  (dumps_str k ++ [58; 32] ++ dumps v) ++ R
  = 34 :: flat_map escape_cp k ++ 34 :: 58 :: 32 :: dumps v ++ R.
Proof.
  unfold dumps_str. cbn [app]. rewrite <- !app_assoc. reflexivity.
Qed.

Lemma member_text_app' k v R :
  dumps_str k ++ [58; 32] ++ dumps v ++ R
  = 34 :: flat_map escape_cp k ++ 34 :: 58 :: 32 :: dumps v ++ R.
Proof.
  unfold dumps_str. cbn [app]. rewrite <- !app_assoc. reflexivity.
Qed.

Lemma skip_ws_dumps v R :
  plain v = true -> skip_ws (dumps v ++ R) = dumps v ++ R.
Proof.
  intros Hp. destruct (dumps_head v Hp) as (c & t & E & Hc).
  rewrite E. cbn [app]. apply skip_ws_start. exact Hc.
Qed.

Lemma members_dumps n :
  forall d, Forall (fun kv => roundtrips (snd kv)) d ->
  forallb (fun kv => plain_key (fst kv) && plain (snd kv)) d = true ->
  d <> [] ->
  (forall kv, In kv d -> (size (snd kv) <= n)%nat) ->
  forall fuel rest, (List.length d <= fuel)%nat -> stop rest ->
  members (scan_once n) fuel
    (intercalate [44; 32]
       (map (fun kv => dumps_str (fst kv) ++ [58; 32] ++ dumps (snd kv)) d)
     ++ 125 :: rest)
  = Some (map (fun kv => (fst kv, join_val (snd kv))) d, rest).
Proof.
  induction d as [|[k v] d IH]; intros HR Hp Hne Hsz fuel rest Hf Hs;
    [congruence|].
  inversion HR as [|? ? Hv HR']; subst. cbn [snd] in Hv.
  cbn [forallb fst snd] in Hp. apply andb_true_iff in Hp.
  destruct Hp as [Hpkv Hpd]. apply andb_true_iff in Hpkv.
  destruct Hpkv as [Hpk Hpv].
  destruct fuel as [|fuel]; [simpl in Hf; lia|].
  assert (Hszv : (size v <= n)%nat) by (apply (Hsz (k, v)); left; reflexivity).
  destruct d as [|[k2 v2] d].
  - cbn [map intercalate fst snd]. rewrite member_text_app.
    cbn [members after N.eqb Pos.eqb]. rewrite scan_dumps_str.
    cbn [skip_ws is_ws after N.eqb Pos.eqb orb].
    rewrite skip_ws_dumps by assumption.
    rewrite (Hv Hpv) by (simpl; auto).
    cbn [skip_ws is_ws N.eqb Pos.eqb orb].
    rewrite join_plain_key by assumption. reflexivity.
  - cbn [map]. rewrite intercalate_cons2. cbn [fst snd].
    rewrite <- !app_assoc.
    rewrite member_text_app'.
    cbn [members after N.eqb Pos.eqb]. rewrite scan_dumps_str.
    cbn [skip_ws is_ws after N.eqb Pos.eqb orb].
    rewrite skip_ws_dumps by assumption.
    rewrite (Hv Hpv) by (simpl; auto).
    cbn [app skip_ws is_ws N.eqb Pos.eqb orb].
    match goal with
    | |- context [members _ fuel ?T] =>
        replace T with
          (intercalate [44; 32]
             (map (fun kv => dumps_str (fst kv) ++ [58; 32] ++ dumps (snd kv))
                ((k2, v2) :: d)) ++ 125 :: rest)
    end.
    2:{ cbn [map fst snd]. destruct d; cbn [map intercalate fst snd];
        unfold dumps_str; cbn [app skip_ws is_ws N.eqb Pos.eqb orb];
        reflexivity. }
    rewrite IH; try assumption; try discriminate.
    + rewrite join_plain_key by assumption. reflexivity.
    + intros kv Hkv. apply Hsz. right. exact Hkv.
    + simpl in *. lia.
Qed.

Lemma dict_set_fresh k v d :
  existsb (Str.eqb k) (map fst d) = false ->
  dict_set k v d = d ++ [(k, v)].
Proof.
  induction d as [|[k' v'] d IH]; [reflexivity|].
  cbn [map fst existsb dict_set app]. intros H.
  apply orb_false_iff in H. destruct H as [H1 H2].
  rewrite str_eqb_sym, H1. rewrite IH by assumption. reflexivity.
Qed.

Lemma fold_dict_set kvs :
  forall acc,
  distinct (map fst acc ++ map fst kvs) = true ->
  fold_left (fun d kv => dict_set (fst kv) (snd kv) d) kvs acc = acc ++ kvs.
Proof.
  induction kvs as [|[k v] kvs IH]; intros acc H.
  - rewrite List.app_nil_r. reflexivity.
  - cbn [fold_left fst snd map] in *.
    assert (Hk : existsb (Str.eqb k) (map fst acc) = false).
    { clear IH. induction acc as [|[k' v'] acc IHa]; [reflexivity|].
      cbn [map fst app distinct existsb] in *.
      apply andb_true_iff in H. destruct H as [H1 H2].
      apply negb_true_iff in H1.
      rewrite existsb_app in H1. apply orb_false_iff in H1.
      destruct H1 as [_ H1]. cbn [existsb] in H1.
      apply orb_false_iff in H1. destruct H1 as [H1 _].
      rewrite str_eqb_sym, H1. cbn [orb]. apply IHa. exact H2. }
    rewrite dict_set_fresh by assumption.
    rewrite IH.
    + rewrite <- app_assoc. reflexivity.
    + rewrite map_app. cbn [map fst]. rewrite <- app_assoc. exact H.
Qed.

Lemma dict_of_pairs_distinct kvs :
  distinct (map fst kvs) = true -> dict_of_pairs kvs = kvs.
Proof. intros H. unfold dict_of_pairs. rewrite fold_dict_set; auto. Qed.

Lemma list_sum_in (f : pyval -> nat) l x :
  In x l -> (f x <= list_sum (map f l))%nat.
Proof.
  induction l as [|y l IH]; [contradiction|].
  intros [->|H]; cbn [map list_sum fold_right]; [lia|]. specialize (IH H). unfold list_sum in IH. lia.
Qed.

Lemma list_sum_length (A : Type) (f : A -> nat) l :
  (forall x, 1 <= f x)%nat -> (List.length l <= list_sum (map f l))%nat.
Proof.
  intros Hf. induction l as [|y l IH]; [reflexivity|].
  cbn [map list_sum fold_right List.length]. specialize (Hf y). unfold list_sum in IH. lia.
Qed.

Lemma size_pos v : (1 <= size v)%nat.
Proof. destruct v; simpl; lia. Qed.

Lemma scan_once_dumps : forall v, roundtrips v.
Proof.
  induction v as [|b|z|f|s|l IH|d IH] using pyval_induction;
    intros Hp fuel rest Hsz Hs.
  - destruct fuel; [simpl in Hsz; lia|]. reflexivity.
  - destruct fuel; [simpl in Hsz; lia|]. destruct b; reflexivity.
  - destruct fuel; [simpl in Hsz; lia|].
    destruct (dumps_int_head z) as (c & t & E & Hc).
    cbn [dumps join_val].
    pose proof (number_int z rest (stop_number _ Hs)) as Hn.
    rewrite E in *. cbn [app] in *.
    apply scan_once_number; assumption.
  - discriminate.
  - destruct fuel; [simpl in Hsz; lia|].
    cbn [dumps join_val]. rewrite dumps_str_app.
    cbn [scan_once N.eqb Pos.eqb]. rewrite scan_dumps_str. reflexivity.
  - destruct fuel as [|fuel]; [simpl in Hsz; lia|].
    cbn [dumps join_val plain size] in *.
    cbn [app scan_once N.eqb Pos.eqb]. rewrite <- app_assoc. cbn [app].
    destruct l as [|x l].
    + reflexivity.
    + rewrite skip_ws_values
        by (cbn [forallb] in Hp; apply andb_true_iff in Hp; tauto).
      assert (Ha : after 93 (intercalate [44; 32] (map dumps (x :: l))
                              ++ 93 :: rest) = None).
      { destruct (dumps_head x) as (c & t & E & Hc).
        { cbn [forallb] in Hp; apply andb_true_iff in Hp; tauto. }
        destruct l; cbn [map intercalate]; rewrite E; cbn [app];
          apply after_start; apply Hc. }
      rewrite Ha.
      rewrite elements_dumps; try assumption; try discriminate.
      * reflexivity.
      * intros y Hy. pose proof (list_sum_in size _ _ Hy). lia.
      * pose proof (list_sum_length _ size (x :: l) size_pos). lia.
  - destruct fuel as [|fuel]; [simpl in Hsz; lia|].
    cbn [dumps join_val plain size] in *.
    apply andb_true_iff in Hp. destruct Hp as [Hd Hp].
    cbn [app scan_once N.eqb Pos.eqb]. rewrite <- app_assoc. cbn [app].
    destruct d as [|[k x] d].
    + reflexivity.
    + match goal with
      | |- context [after 125 (skip_ws ?T)] =>
          assert (Hsk : skip_ws T = T)
            by (destruct d; cbn [map intercalate fst snd]; unfold dumps_str;
                reflexivity);
          assert (Ha : after 125 T = None)
            by (destruct d; cbn [map intercalate fst snd]; unfold dumps_str;
                reflexivity);
          rewrite Hsk, Ha
      end.
      rewrite members_dumps; try assumption; try discriminate.
      * rewrite dict_of_pairs_distinct; [reflexivity|].
        rewrite map_map. cbn [fst]. exact Hd.
      * intros kv Hkv.
        pose proof (list_sum_in (fun v => size v) (map snd ((k, x) :: d))
                      (snd kv) (in_map snd _ _ Hkv)) as Hle.
        rewrite map_map in Hle. lia.
      * pose proof (list_sum_length _ (fun kv : str * pyval => size (snd kv))
                      ((k, x) :: d) (fun kv => size_pos (snd kv))). lia.
Qed.

Lemma intercalate_length sep parts :
  (list_sum (map (@List.length N) parts)
   <= List.length (intercalate sep parts))%nat.
Proof.
  induction parts as [|p parts IH]; [reflexivity|].
  destruct parts as [|q parts].
  - clear IH. unfold list_sum. simpl. lia.
  - rewrite intercalate_cons2. rewrite !length_app.
    unfold list_sum in *. cbn [map fold_right] in *.
    apply Nat.add_le_mono_l. etransitivity; [exact IH|]. apply Nat.le_add_l.
Qed.

Lemma list_sum_le (A : Type) (f g : A -> nat) l :
  Forall (fun x => f x <= g x)%nat l ->
  (list_sum (map f l) <= list_sum (map g l))%nat.
Proof.
  induction 1 as [|x l Hx Hl IH]; [reflexivity|].
  unfold list_sum in *. cbn [map fold_right].
  apply Nat.add_le_mono; assumption.
Qed.

Lemma size_le_length : forall v, plain v = true ->
  (size v <= List.length (dumps v))%nat.
Proof.
  induction v as [|b|z|f|s|l IH|d IH] using pyval_induction; intros Hp;
    try (destruct b); try (simpl; lia); try discriminate.
  - destruct (dumps_int_head z) as (c & t & E & _).
    cbn [dumps size]. rewrite E. simpl. lia.
  - cbn [dumps size plain] in *. cbn [List.length]. rewrite length_app.
    apply le_n_S.
    etransitivity; [|apply Nat.le_add_r].
    etransitivity; [|apply intercalate_length].
    rewrite map_map. apply list_sum_le.
    rewrite forallb_forall in Hp. rewrite Forall_forall in *.
    intros x Hx. apply IH; auto.
  - cbn [dumps size plain] in *. cbn [List.length]. rewrite length_app.
    apply andb_true_iff in Hp. destruct Hp as [_ Hp].
    apply le_n_S.
    etransitivity; [|apply Nat.le_add_r].
    etransitivity; [|apply intercalate_length].
    rewrite map_map. apply list_sum_le.
    rewrite forallb_forall in Hp. rewrite Forall_forall in *.
    intros kv Hkv. specialize (Hp kv Hkv).
    apply andb_true_iff in Hp. destruct Hp as [_ Hp].
    specialize (IH kv Hkv Hp).
    rewrite !length_app.
    etransitivity; [exact IH|].
    etransitivity; [|apply Nat.le_add_l].
    apply Nat.le_add_l.
Qed.

Theorem loads_dumps v :
  plain v = true -> loads (dumps v) = Some (join_val v).
Proof.
  intros Hp. unfold loads.
  destruct (dumps_head v Hp) as (c & t & E & Hc).
  assert (Ha : after 65279 (dumps v) = None).
  { rewrite E. apply after_start. apply Hc. }
  rewrite Ha. rewrite <- (List.app_nil_r (dumps v)) at 2.
  rewrite skip_ws_dumps by assumption.
  rewrite scan_once_dumps.
  - reflexivity.
  - assumption.
  - pose proof (size_le_length v Hp). lia.
  - exact I.
Qed.

(* ================================================================== *)
(** * The decoder and its fuel

    The decoder is written with fuel.  Every step consumes input, so the
    length of the input is fuel enough: with that much or more, the
    result does not depend on the fuel. *)

Lemma skip_ws_length s : (List.length (skip_ws s) <= List.length s)%nat.
Proof.
  induction s as [|c s IH]; [reflexivity|].
  cbn [skip_ws]. destruct (is_ws c); simpl; lia.
Qed.

Lemma decode_u_length s u r :
  decode_u s = Some (u, r) -> List.length s = (4 + List.length r)%nat.
Proof.
  unfold decode_u. destruct s as [|a [|b [|c [|d s]]]]; try discriminate.
  destruct (hex_val a), (hex_val b), (hex_val c), (hex_val d);
    try discriminate.
  intros H. injection H as _ <-. reflexivity.
Qed.

Lemma after_length c s r :
  after c s = Some r -> List.length s = S (List.length r).
Proof.
  unfold after. destruct s as [|x s]; [discriminate|].
  destruct (x =? c); [|discriminate]. intros H. injection H as <-. reflexivity.
Qed.

Lemma strip_prefix_length p : forall s r,
  strip_prefix p s = Some r ->
  List.length s = (List.length p + List.length r)%nat.
Proof.
  induction p as [|a p IH]; intros s r H.
  - cbn [strip_prefix] in H. injection H as <-. reflexivity.
  - destruct s as [|b s]; [discriminate|]. cbn [strip_prefix] in H.
    destruct (a =? b); [|discriminate].
    cbn [List.length]. rewrite (IH _ _ H). reflexivity.
Qed.

Lemma after_u_length s r :
  after_u s = Some r -> List.length s = (2 + List.length r)%nat.
Proof.
  unfold after_u. destruct (after 92 s) as [s1|] eqn:E1; [|discriminate].
  intros E2. rewrite (after_length _ _ _ E1), (after_length _ _ _ E2).
  reflexivity.
Qed.

Lemma join_ahead_length uni r ch r' :
  join_ahead uni r = Some (ch, r') -> (List.length r' <= List.length r)%nat.
Proof.
  unfold join_ahead.
  destruct (is_high uni); [|intros H; injection H as _ <-; lia].
  destruct (after_u r) as [r1|] eqn:E1; [|intros H; injection H as _ <-; lia].
  destruct (decode_u r1) as [[uni2 r2]|] eqn:E2; [|discriminate].
  pose proof (after_u_length _ _ E1) as L1.
  pose proof (decode_u_length _ _ _ E2) as L2.
  destruct (is_low uni2); intros H; injection H as _ <-; lia.
Qed.

(** With fuel for every character, the scan of a string does not depend
    on the fuel. *)
Lemma scanstring_fuel : forall n m s,
  (List.length s <= n)%nat -> (List.length s <= m)%nat ->
  scanstring n s = scanstring m s.
Proof.
  induction n as [|n IH]; intros m s Hn Hm.
  - destruct s; [|simpl in Hn; lia]. destruct m; reflexivity.
  - destruct m as [|m]; [destruct s; [reflexivity|simpl in Hm; lia]|].
    destruct s as [|c r]; [reflexivity|]. cbn [scanstring].
    cbn [List.length] in Hn, Hm.
    destruct (c =? 34); [reflexivity|].
    destruct (c =? 92).
    + destruct r as [|e r1]; [reflexivity|]. cbn [List.length] in Hn, Hm.
      destruct (e =? 117).
      * destruct (decode_u r1) as [[uni r2]|] eqn:E1; [|reflexivity].
        pose proof (decode_u_length _ _ _ E1) as L1.
        destruct (join_ahead uni r2) as [[ch r3]|] eqn:E2; [|reflexivity].
        pose proof (join_ahead_length _ _ _ _ E2) as L2.
        rewrite (IH m r3) by lia. reflexivity.
      * destruct (short_escape e); [|reflexivity].
        rewrite (IH m r1) by lia. reflexivity.
    + destruct (c <? 32); [reflexivity|].
      rewrite (IH m r) by lia. reflexivity.
Qed.

Lemma scanstring_consumes : forall n s t r,
  scanstring n s = Some (t, r) -> (List.length r < List.length s)%nat.
Proof.
  induction n as [|n IH]; intros s t r H; [discriminate|].
  destruct s as [|c s]; [discriminate|]. cbn [scanstring] in H.
  cbn [List.length].
  destruct (c =? 34); [injection H as _ <-; lia|].
  destruct (c =? 92).
  - destruct s as [|e r1]; [discriminate|]. cbn [List.length].
    destruct (e =? 117).
    + destruct (decode_u r1) as [[uni r2]|] eqn:E1; [|discriminate].
      pose proof (decode_u_length _ _ _ E1) as L1.
      destruct (join_ahead uni r2) as [[ch r3]|] eqn:E2; [|discriminate].
      pose proof (join_ahead_length _ _ _ _ E2) as L2.
      destruct (scanstring n r3) as [[t' r4]|] eqn:E3; [|discriminate].
      injection H as _ <-. specialize (IH _ _ _ E3). lia.
    + destruct (short_escape e); [|discriminate].
      destruct (scanstring n r1) as [[t' r2]|] eqn:E3; [|discriminate].
      injection H as _ <-. specialize (IH _ _ _ E3). lia.
  - destruct (c <? 32); [discriminate|].
    destruct (scanstring n s) as [[t' r']|] eqn:E3; [|discriminate].
    injection H as _ <-. specialize (IH _ _ _ E3). lia.
Qed.

Lemma digits_length s : (List.length (snd (digits s)) <= List.length s)%nat.
Proof.
  induction s as [|c s IH]; [reflexivity|]. cbn [digits].
  destruct (is_digit c); [|reflexivity].
  destruct (digits s) as [u r]. cbn [snd List.length] in *. lia.
Qed.

Lemma int_part_consumes s u r :
  int_part s = Some (u, r) -> (List.length r < List.length s)%nat.
Proof.
  unfold int_part. destruct s as [|c s]; [discriminate|].
  destruct (c =? 48); [intros H; injection H as _ <-; simpl; lia|].
  destruct (is_digit c) eqn:Hd; [|discriminate].
  intros H. injection H as E. cbn [digits] in E. rewrite Hd in E.
  pose proof (digits_length s) as L. destruct (digits s) as [u' r'].
  injection E as _ <-. cbn [snd] in L. simpl. lia.
Qed.

Lemma frac_part_length s :
  (List.length (snd (frac_part s)) <= List.length s)%nat.
Proof.
  unfold frac_part. destruct (after 46 s) as [r|] eqn:E; [|reflexivity].
  pose proof (after_length _ _ _ E) as L. pose proof (digits_length r) as D.
  destruct (digits r) as [[] r']; cbn [snd] in *; lia.
Qed.

Lemma exp_sign_length s :
  (List.length (snd (exp_sign s)) <= List.length s)%nat.
Proof.
  unfold exp_sign.
  destruct (after 45 s) as [r|] eqn:E1.
  - rewrite (after_length _ _ _ E1). cbn [snd]. lia.
  - destruct (after 43 s) as [r|] eqn:E2; cbn [snd]; [|lia].
    rewrite (after_length _ _ _ E2). lia.
Qed.

Lemma exp_part_length s :
  (List.length (snd (exp_part s)) <= List.length s)%nat.
Proof.
  unfold exp_part. destruct s as [|e r]; [reflexivity|].
  destruct ((e =? 101) || (e =? 69)); [|reflexivity].
  pose proof (exp_sign_length r) as L. destruct (exp_sign r) as [neg r1].
  pose proof (digits_length r1) as D.
  destruct (digits r1) as [[] r2]; cbn [snd List.length] in *; lia.
Qed.

Lemma number_consumes s v r :
  number s = Some (v, r) -> (List.length r < List.length s)%nat.
Proof.
  unfold number.
  assert (Hm : (List.length (snd (minus_sign s)) <= List.length s)%nat).
  { unfold minus_sign. destruct (after 45 s) as [s1|] eqn:E; cbn [snd]; [|lia].
    rewrite (after_length _ _ _ E). lia. }
  destruct (minus_sign s) as [neg s1]. cbn [snd] in Hm.
  destruct (int_part s1) as [[i s2]|] eqn:E1; [|discriminate].
  pose proof (int_part_consumes _ _ _ E1) as L1.
  pose proof (frac_part_length s2) as L2.
  destruct (frac_part s2) as [f s3].
  pose proof (exp_part_length s3) as L3.
  destruct (exp_part s3) as [e s4]. cbn [snd] in *.
  destruct f, e; intros H; injection H as _ <-; lia.
Qed.

Section ContainersFuel.

Variable pv1 : str -> option (pyval * str).
Hypothesis pv1_consumes :
  forall x v r, pv1 x = Some (v, r) -> (List.length r < List.length x)%nat.

Lemma elements_consumes : forall n s vs r,
  elements pv1 n s = Some (vs, r) -> (List.length r < List.length s)%nat.
Proof.
  induction n as [|n IH]; intros s vs r H; [discriminate|].
  cbn [elements] in H.
  destruct (pv1 s) as [[v r0]|] eqn:E0; [|discriminate].
  pose proof (pv1_consumes _ _ _ E0) as L0.
  pose proof (skip_ws_length r0) as L1.
  destruct (skip_ws r0) as [|c r1]; [discriminate|].
  cbn [List.length] in L1.
  destruct (c =? 93); [injection H as _ <-; lia|].
  destruct (c =? 44); [|discriminate].
  destruct (elements pv1 n (skip_ws r1)) as [[vs' r2]|] eqn:E2;
    [|discriminate].
  injection H as _ <-. specialize (IH _ _ _ E2).
  pose proof (skip_ws_length r1). lia.
Qed.

Lemma members_consumes : forall n s kvs r,
  members pv1 n s = Some (kvs, r) -> (List.length r < List.length s)%nat.
Proof.
  induction n as [|n IH]; intros s kvs r H; [discriminate|].
  cbn [members] in H.
  destruct (after 34 s) as [r0|] eqn:E0; [|discriminate].
  pose proof (after_length _ _ _ E0) as L0.
  destruct (scanstring (List.length r0) r0) as [[k r1]|] eqn:E1;
    [|discriminate].
  pose proof (scanstring_consumes _ _ _ _ E1) as L1.
  pose proof (skip_ws_length r1) as L2.
  destruct (after 58 (skip_ws r1)) as [r2|] eqn:E2; [|discriminate].
  pose proof (after_length _ _ _ E2) as L3.
  pose proof (skip_ws_length r2) as L4.
  destruct (pv1 (skip_ws r2)) as [[v r3]|] eqn:E3; [|discriminate].
  pose proof (pv1_consumes _ _ _ E3) as L5.
  pose proof (skip_ws_length r3) as L6.
  destruct (skip_ws r3) as [|c r4]; [discriminate|].
  cbn [List.length] in L6.
  destruct (c =? 125); [injection H as _ <-; lia|].
  destruct (c =? 44); [|discriminate].
  destruct (members pv1 n (skip_ws r4)) as [[kvs' r5]|] eqn:E5;
    [|discriminate].
  injection H as _ <-. specialize (IH _ _ _ E5).
  pose proof (skip_ws_length r4). lia.
Qed.

Lemma pv1_nil : pv1 [] = None.
Proof.
  destruct (pv1 []) as [[v r]|] eqn:E; [|reflexivity].
  pose proof (pv1_consumes _ _ _ E) as L. simpl in L. lia.
Qed.

Variable pv2 : str -> option (pyval * str).

Lemma elements_fuel : forall n m s,
  (forall x, (List.length x <= List.length s)%nat -> pv1 x = pv2 x) ->
  (List.length s <= n)%nat -> (List.length s <= m)%nat ->
  elements pv1 n s = elements pv2 m s.
Proof.
  induction n as [|n IH]; intros m s Hag Hn Hm.
  - destruct s; [|simpl in Hn; lia].
    destruct m; [reflexivity|]. cbn [elements].
    rewrite <- (Hag [] (Nat.le_refl _)), pv1_nil. reflexivity.
  - destruct m as [|m].
    { destruct s; [|simpl in Hm; lia]. cbn [elements].
      rewrite pv1_nil. reflexivity. }
    cbn [elements]. rewrite <- (Hag s (Nat.le_refl _)).
    destruct (pv1 s) as [[v r0]|] eqn:E0; [|reflexivity].
    pose proof (pv1_consumes _ _ _ E0) as L0.
    pose proof (skip_ws_length r0) as L1.
    destruct (skip_ws r0) as [|c r1]; [reflexivity|].
    cbn [List.length] in L1.
    destruct (c =? 93); [reflexivity|].
    destruct (c =? 44); [|reflexivity].
    pose proof (skip_ws_length r1) as L2.
    rewrite (IH m (skip_ws r1)); [reflexivity| |lia|lia].
    intros x Hx. apply Hag. lia.
Qed.

Lemma members_fuel : forall n m s,
  (forall x, (List.length x <= List.length s)%nat -> pv1 x = pv2 x) ->
  (List.length s <= n)%nat -> (List.length s <= m)%nat ->
  members pv1 n s = members pv2 m s.
Proof.
  induction n as [|n IH]; intros m s Hag Hn Hm.
  - destruct s; [|simpl in Hn; lia]. destruct m; reflexivity.
  - destruct m as [|m]; [destruct s; [reflexivity|simpl in Hm; lia]|].
    cbn [members].
    destruct (after 34 s) as [r0|] eqn:E0; [|reflexivity].
    pose proof (after_length _ _ _ E0) as L0.
    destruct (scanstring (List.length r0) r0) as [[k r1]|] eqn:E1;
      [|reflexivity].
    pose proof (scanstring_consumes _ _ _ _ E1) as L1.
    pose proof (skip_ws_length r1) as L2.
    destruct (after 58 (skip_ws r1)) as [r2|] eqn:E2; [|reflexivity].
    pose proof (after_length _ _ _ E2) as L3.
    pose proof (skip_ws_length r2) as L4.
    rewrite <- (Hag (skip_ws r2)) by lia.
    destruct (pv1 (skip_ws r2)) as [[v r3]|] eqn:E3; [|reflexivity].
    pose proof (pv1_consumes _ _ _ E3) as L5.
    pose proof (skip_ws_length r3) as L6.
    destruct (skip_ws r3) as [|c r4]; [reflexivity|].
    cbn [List.length] in L6.
    destruct (c =? 125); [reflexivity|].
    destruct (c =? 44); [|reflexivity].
    pose proof (skip_ws_length r4) as L7.
    rewrite (IH m (skip_ws r4)); [reflexivity| |lia|lia].
    intros x Hx. apply Hag. lia.
Qed.

End ContainersFuel.

Ltac prefix_consumed :=
  match goal with
  | E : strip_prefix ?p ?s = Some ?r |- _ =>
      let L := fresh "L" in
      pose proof (strip_prefix_length _ _ _ E) as L;
      cbn in L; cbn; lia
  end.

Lemma scan_once_consumes : forall n s v r,
  scan_once n s = Some (v, r) -> (List.length r < List.length s)%nat.
Proof.
  induction n as [|n IH]; intros s v r H; [discriminate|].
  destruct s as [|c s0]; [discriminate|].
  cbn [scan_once] in H.
  destruct (c =? 34).
  { destruct (scanstring (List.length s0) s0) as [[t r']|] eqn:E;
      [|discriminate].
    injection H as _ <-. apply scanstring_consumes in E. simpl. lia. }
  destruct (c =? 123).
  { pose proof (skip_ws_length s0) as L0.
    destruct (after 125 (skip_ws s0)) as [r'|] eqn:E.
    - injection H as _ <-. apply after_length in E. simpl. lia.
    - destruct (members (scan_once n) n (skip_ws s0)) as [[kvs r'']|] eqn:E1;
        [|discriminate].
      injection H as _ <-.
      apply (members_consumes (scan_once n) IH) in E1. simpl. lia. }
  destruct (c =? 91).
  { pose proof (skip_ws_length s0) as L0.
    destruct (after 93 (skip_ws s0)) as [r'|] eqn:E.
    - injection H as _ <-. apply after_length in E. simpl. lia.
    - destruct (elements (scan_once n) n (skip_ws s0)) as [[vs r'']|] eqn:E1;
        [|discriminate].
      injection H as _ <-.
      apply (elements_consumes (scan_once n) IH) in E1. simpl. lia. }
  destruct (strip_prefix (py "null") (c :: s0)) eqn:E1;
    [injection H as _ <-; prefix_consumed|].
  destruct (strip_prefix (py "true") (c :: s0)) eqn:E2;
    [injection H as _ <-; prefix_consumed|].
  destruct (strip_prefix (py "false") (c :: s0)) eqn:E3;
    [injection H as _ <-; prefix_consumed|].
  destruct (number (c :: s0)) as [[v' r']|] eqn:E4.
  { injection H as _ <-. apply number_consumes in E4. exact E4. }
  destruct (strip_prefix (py "NaN") (c :: s0)) eqn:E5;
    [injection H as _ <-; prefix_consumed|].
  destruct (strip_prefix (py "Infinity") (c :: s0)) eqn:E6;
    [injection H as _ <-; prefix_consumed|].
  destruct (strip_prefix (py "-Infinity") (c :: s0)) eqn:E7;
    [injection H as _ <-; prefix_consumed|].
  discriminate.
Qed.

(** The fuel of [scan_once] bounds the nesting it can follow, and a text
    holds fewer nested values than characters: any fuel above the length
    of the text gives the same reading. *)
Lemma scan_once_fuel : forall n m s,
  (List.length s < n)%nat -> (List.length s < m)%nat ->
  scan_once n s = scan_once m s.
Proof.
  induction n as [|n IH]; intros m s Hn Hm; [lia|].
  destruct m as [|m]; [lia|].
  destruct s as [|c s0]; [reflexivity|].
  cbn [List.length] in Hn, Hm.
  pose proof (skip_ws_length s0) as L0.
  cbn [scan_once].
  destruct (c =? 34); [reflexivity|].
  destruct (c =? 123).
  { destruct (after 125 (skip_ws s0)); [reflexivity|].
    rewrite (members_fuel (scan_once n) (scan_once_consumes n)
               (scan_once m) n m (skip_ws s0));
      [reflexivity| |lia|lia].
    intros x Hx. apply IH; lia. }
  destruct (c =? 91).
  { destruct (after 93 (skip_ws s0)); [reflexivity|].
    rewrite (elements_fuel (scan_once n) (scan_once_consumes n)
               (scan_once m) n m (skip_ws s0));
      [reflexivity| |lia|lia].
    intros x Hx. apply IH; lia. }
  reflexivity.
Qed.

(** [loads] reads with fuel one above the length of the text; more fuel
    changes nothing, so the [None] of the model is a refusal of the text
    and never an exhausted budget. *)
Lemma loads_fuel s fuel :
  (List.length s < fuel)%nat ->
  scan_once fuel (skip_ws s) = scan_once (S (List.length s)) (skip_ws s).
Proof.
  intros Hf. pose proof (skip_ws_length s) as L.
  apply scan_once_fuel; lia.
Qed.

(* ================================================================== *)
(** * The lookups *)

Lemma lstrip_blank ws s : blank ws -> lstrip (ws ++ s) = lstrip s.
Proof.
  induction 1 as [|c ws Hc Hws IH]; [reflexivity|].
  cbn [app lstrip]. rewrite Hc. exact IH.
Qed.

Lemma lstrip_blank_nil ws : blank ws -> lstrip ws = [].
Proof.
  intros H. rewrite <- (app_nil_r ws). rewrite lstrip_blank by assumption.
  reflexivity.
Qed.

Lemma blank_rev ws : blank ws -> blank (rev ws).
Proof. unfold blank. apply Forall_rev. Qed.

Lemma rstrip_blank s ws : blank ws -> rstrip (s ++ ws) = rstrip s.
Proof.
  intros H. unfold rstrip. rewrite rev_app_distr.
  rewrite lstrip_blank by (apply blank_rev; assumption). reflexivity.
Qed.

Lemma lstrip_app_cases s t :
  (lstrip s = [] /\ lstrip (s ++ t) = lstrip t)
  \/ (lstrip s <> [] /\ lstrip (s ++ t) = lstrip s ++ t).
Proof.
  induction s as [|c s IH]; [left; split; reflexivity|].
  cbn [app lstrip]. destruct (isspace c).
  - exact IH.
  - right. split; [discriminate|reflexivity].
Qed.

Lemma strip_padded ws1 s ws2 :
  blank ws1 -> blank ws2 -> strip (ws1 ++ s ++ ws2) = strip s.
Proof.
  intros H1 H2. unfold strip. rewrite lstrip_blank by assumption.
  destruct (lstrip_app_cases s ws2) as [[E1 E2]|[E1 E2]]; rewrite E2.
  - rewrite E1. rewrite (lstrip_blank_nil ws2 H2). reflexivity.
  - apply rstrip_blank. assumption.
Qed.

Lemma same_letter_isspace a b : same_letter a b -> isspace a = isspace b.
Proof.
  intros [->|[(H1 & H2 & ->)|(H1 & H2 & ->)]]; [reflexivity| |];
    unfold isspace; nb.
Qed.

Lemma same_letter_lower a b : same_letter a b -> lower_cp a = lower_cp b.
Proof.
  intros [->|[(H1 & H2 & ->)|(H1 & H2 & ->)]]; [reflexivity| |];
    unfold lower_cp; nb; reflexivity.
Qed.

Lemma variant_lower q s : Forall2 same_letter q s -> lower q = lower s.
Proof.
  induction 1 as [|a b q s Hab Hqs IH]; [reflexivity|].
  unfold lower in *. cbn [flat_map].
  rewrite (same_letter_lower a b Hab), IH. reflexivity.
Qed.

Lemma variant_lstrip q s :
  Forall2 same_letter q s -> Forall2 same_letter (lstrip q) (lstrip s).
Proof.
  induction 1 as [|a b q s Hab Hqs IH]; [constructor|].
  cbn [lstrip]. rewrite (same_letter_isspace a b Hab).
  destruct (isspace b); [exact IH|constructor; assumption].
Qed.

Lemma Forall2_rev_same q s :
  Forall2 same_letter q s -> Forall2 same_letter (rev q) (rev s).
Proof.
  induction 1 as [|a b q s Hab Hqs IH]; [constructor|].
  cbn [rev]. apply Forall2_app; [exact IH|]. constructor; [assumption|constructor].
Qed.

Lemma variant_strip q s :
  Forall2 same_letter q s -> Forall2 same_letter (strip q) (strip s).
Proof.
  intros H. unfold strip, rstrip.
  apply Forall2_rev_same, variant_lstrip, Forall2_rev_same, variant_lstrip.
  exact H.
Qed.

Lemma variant_key q name :
  variant q name -> lower (strip q) = lower (strip name).
Proof.
  intros (ws1 & q0 & ws2 & -> & H1 & H2 & H).
  rewrite strip_padded by assumption.
  apply variant_lower, variant_strip. exact H.
Qed.

Lemma variant_nonempty q name : variant q name -> name <> [] -> q <> [].
Proof.
  intros (ws1 & q0 & ws2 & -> & H1 & H2 & H) Hn E.
  apply app_eq_nil in E. destruct E as [_ E].
  apply app_eq_nil in E. destruct E as [E _]. subst q0.
  inversion H. congruence.
Qed.

Lemma truthy_str s : s <> [] -> truthy (PStr s) = true.
Proof. destruct s; [congruence|reflexivity]. Qed.

(** Medication lookup does not tell a name from its variants. *)
Lemma find_med_variant MEDICATIONS q name :
  name <> [] -> variant q name ->
  _find_med_by_name MEDICATIONS (PStr q)
  = _find_med_by_name MEDICATIONS (PStr name).
Proof.
  intros Hn Hv. unfold _find_med_by_name.
  rewrite (truthy_str name Hn).
  rewrite (truthy_str q (variant_nonempty q name Hv Hn)).
  cbn [negb py_strip bind]. rewrite (variant_key q name Hv). reflexivity.
Qed.

Lemma padded_nonempty q s : padded q s -> s <> [] -> q <> [].
Proof.
  intros (ws1 & ws2 & -> & H1 & H2) Hn E.
  apply app_eq_nil in E. destruct E as [_ E].
  apply app_eq_nil in E. destruct E as [E _]. congruence.
Qed.

(** User lookup does not tell an identifier from its padded forms. *)
Lemma find_user_padded USERS q uid :
  uid <> [] -> padded q uid ->
  _find_user_by_id USERS (PStr q) = _find_user_by_id USERS (PStr uid).
Proof.
  intros Hn Hp. unfold _find_user_by_id.
  rewrite (truthy_str uid Hn).
  rewrite (truthy_str q (padded_nonempty q uid Hp Hn)).
  cbn [negb py_strip bind].
  destruct Hp as (ws1 & ws2 & -> & H1 & H2).
  rewrite strip_padded by assumption. reflexivity.
Qed.

(** Every record of the shipped dataset is found under its own name. *)
Lemma shipped_med_found m :
  In m Db.MEDICATIONS ->
  _find_med_by_name Db.MEDICATIONS (PStr (Db.name m)) = Ok (Some m)
  /\ Db.name m <> [].
Proof.
  intros H. cbn [Db.MEDICATIONS In] in H.
  repeat (destruct H as [<-|H]; [split; [vm_compute; reflexivity|discriminate]|]).
  contradiction.
Qed.

Lemma shipped_user_found u :
  In u Db.USERS ->
  _find_user_by_id Db.USERS (PStr (Db.user_id u)) = Ok (Some u)
  /\ Db.user_id u <> [].
Proof.
  intros H. cbn [Db.USERS In] in H.
  repeat (destruct H as [<-|H]; [split; [vm_compute; reflexivity|discriminate]|]).
  contradiction.
Qed.

(** A value that is looked up and not found is one [py_format] is
    written out for: any other value has raised at [.strip()]. *)
Lemma find_med_none_formattable MEDICATIONS name :
  _find_med_by_name MEDICATIONS name = Ok None -> formattable name = true.
Proof.
  unfold _find_med_by_name, formattable.
  destruct (truthy name) eqn:E; cbn [negb];
    [|intros _; destruct name; reflexivity].
  destruct name; cbn [py_strip bind]; try discriminate. reflexivity.
Qed.

Lemma find_user_none_formattable USERS user_id :
  _find_user_by_id USERS user_id = Ok None -> formattable user_id = true.
Proof.
  unfold _find_user_by_id, formattable.
  destruct (truthy user_id) eqn:E; cbn [negb];
    [|intros _; destruct user_id; reflexivity].
  destruct user_id; cbn [py_strip bind]; try discriminate. reflexivity.
Qed.

(* ================================================================== *)
(** * The tool layer over the shipped dataset *)

(** C7.  Over the shipped dataset [check_prescription] answers the five
    listed queries as listed: both flags true for u001 and Amoxicillin,
    prescription required but not held for u002 and Amoxicillin, neither
    for u002 and Paracetamol, the error [NOT_FOUND] for an unknown
    medication and [UNKNOWN_USER] for an unknown user; and every success
    envelope carries both booleans. *)
Theorem check_prescription_shipped :
  check_prescription Db.MEDICATIONS Db.USERS
    (PStr (py "u001")) (PStr (py "Amoxicillin"))
  = Ok (PDict [(py "ok", PBool true);
               (py "name", PStr (py "Amoxicillin"));
               (py "requires_prescription", PBool true);
               (py "user_has_prescription", PBool true)])
  /\ check_prescription Db.MEDICATIONS Db.USERS
       (PStr (py "u002")) (PStr (py "Amoxicillin"))
     = Ok (PDict [(py "ok", PBool true);
                  (py "name", PStr (py "Amoxicillin"));
                  (py "requires_prescription", PBool true);
                  (py "user_has_prescription", PBool false)])
  /\ check_prescription Db.MEDICATIONS Db.USERS
       (PStr (py "u002")) (PStr (py "Paracetamol"))
     = Ok (PDict [(py "ok", PBool true);
                  (py "name", PStr (py "Paracetamol"));
                  (py "requires_prescription", PBool false);
                  (py "user_has_prescription", PBool false)])
  /\ check_prescription Db.MEDICATIONS Db.USERS
       (PStr (py "u001")) (PStr (py "DoesNotExist"))
     = Ok (PDict [(py "ok", PBool false);
                  (py "error",
                   error_body (py "NOT_FOUND")
                     (py "Medication 'DoesNotExist' not found"))])
  /\ check_prescription Db.MEDICATIONS Db.USERS
       (PStr (py "u999")) (PStr (py "Paracetamol"))
     = Ok (PDict [(py "ok", PBool false);
                  (py "error",
                   error_body (py "UNKNOWN_USER")
                     (py "User 'u999' not found"))])
  /\ (forall user_id name d,
        check_prescription Db.MEDICATIONS Db.USERS user_id name
        = Ok (PDict d) ->
        dict_get (py "ok") d = Some (PBool true) ->
        exists requires user_has,
          dict_get (py "requires_prescription") d = Some (PBool requires)
          /\ dict_get (py "user_has_prescription") d
             = Some (PBool user_has)).
Proof.
  repeat split; try (vm_compute; reflexivity).
  intros user_id name d H Hok. unfold check_prescription in H.
  destruct (_find_user_by_id Db.USERS user_id) as [[u|]|e]; cbn [bind] in H;
    [ | injection H as <-; discriminate | discriminate ].
  destruct (_find_med_by_name Db.MEDICATIONS name) as [[m|]|e];
    cbn [bind] in H; [ | injection H as <-; discriminate | discriminate ].
  injection H as <-. eexists _, _. split; reflexivity.
Qed.

Lemma check_prescription_shipped_witness :
  check_prescription Db.MEDICATIONS Db.USERS
    (PStr (py "u003")) (PStr (py "metformin"))
  = Ok (PDict [(py "ok", PBool true);
               (py "name", PStr (py "Metformin"));
               (py "requires_prescription", PBool true);
               (py "user_has_prescription", PBool false)])
  /\ exists requires user_has,
       dict_get (py "requires_prescription")
         [(py "ok", PBool true);
          (py "name", PStr (py "Metformin"));
          (py "requires_prescription", PBool true);
          (py "user_has_prescription", PBool false)]
       = Some (PBool requires)
       /\ dict_get (py "user_has_prescription")
            [(py "ok", PBool true);
             (py "name", PStr (py "Metformin"));
             (py "requires_prescription", PBool true);
             (py "user_has_prescription", PBool false)]
          = Some (PBool user_has).
Proof.
  split; [vm_compute; reflexivity|].
  apply (proj2 (proj2 (proj2 (proj2 (proj2 check_prescription_shipped))))
           (PStr (py "u003")) (PStr (py "metformin"))).
  - vm_compute. reflexivity.
  - vm_compute. reflexivity.
Defined.

(** C10.  On the empty string every operation of the tool layer returns
    its error envelope, whatever the store holds: [get_user] reports
    [UNKNOWN_USER], [get_medication_by_name] and [check_stock] report
    [NOT_FOUND], and [check_prescription] reports [UNKNOWN_USER] for every
    medication name. *)
Theorem empty_string_inputs (MEDICATIONS : list Db.medication)
  (USERS : list Db.user) :
  get_user USERS (PStr [])
  = Ok (PDict [(py "found", PBool false);
               (py "error",
                error_body (py "UNKNOWN_USER") (py "User '' not found"))])
  /\ get_medication_by_name MEDICATIONS (PStr [])
     = Ok (PDict [(py "found", PBool false);
                  (py "error",
                   error_body (py "NOT_FOUND")
                     (py "Medication '' not found"))])
  /\ check_stock MEDICATIONS (PStr [])
     = Ok (PDict [(py "found", PBool false);
                  (py "error",
                   error_body (py "NOT_FOUND")
                     (py "Medication '' not found"))])
  /\ (forall name : pyval,
        check_prescription MEDICATIONS USERS (PStr []) name
        = Ok (PDict [(py "ok", PBool false);
                     (py "error",
                      error_body (py "UNKNOWN_USER")
                        (py "User '' not found"))])).
Proof. repeat split. Qed.

(** The lookups of the empty string do not look at the store. *)
Lemma find_empty (MEDICATIONS : list Db.medication) (USERS : list Db.user) :
  _find_med_by_name MEDICATIONS (PStr []) = Ok None
  /\ _find_user_by_id USERS (PStr []) = Ok None.
Proof. split; reflexivity. Qed.

(** C8, as the code has it.  Medication lookup, and with it
    [get_medication_by_name] and [check_stock], returns the record of a
    stored name for every query that differs from the name only in letter
    case and in white space around it.  User lookup returns the record of
    a stored identifier for every query that is the identifier with white
    space around it; it compares the letters as they are. *)
Theorem lookups_insensitive :
  (forall m q,
      In m Db.MEDICATIONS -> variant q (Db.name m) ->
      _find_med_by_name Db.MEDICATIONS (PStr q) = Ok (Some m)
      /\ get_medication_by_name Db.MEDICATIONS (PStr q)
         = get_medication_by_name Db.MEDICATIONS (PStr (Db.name m))
      /\ check_stock Db.MEDICATIONS (PStr q)
         = check_stock Db.MEDICATIONS (PStr (Db.name m)))
  /\ (forall u q,
        In u Db.USERS -> padded q (Db.user_id u) ->
        _find_user_by_id Db.USERS (PStr q) = Ok (Some u)
        /\ get_user Db.USERS (PStr q)
           = get_user Db.USERS (PStr (Db.user_id u))).
Proof.
  split.
  - intros m q Hm Hq. destruct (shipped_med_found m Hm) as [Hf Hn].
    pose proof (find_med_variant Db.MEDICATIONS q _ Hn Hq) as E.
    rewrite Hf in E. unfold get_medication_by_name, check_stock.
    rewrite E, Hf. repeat split.
  - intros u q Hu Hq. destruct (shipped_user_found u Hu) as [Hf Hn].
    pose proof (find_user_padded Db.USERS q _ Hn Hq) as E.
    rewrite Hf in E. unfold get_user. rewrite E, Hf. repeat split.
Qed.

Lemma blank_spaces : blank (py "  ").
Proof. repeat constructor. Defined.

Lemma cetirizine_variant : variant (py "  cEtIrIzInE  ") (Db.name Db.cetirizine).
Proof.
  exists (py "  "), (py "cEtIrIzInE"), (py "  ").
  split; [reflexivity|]. split; [exact blank_spaces|].
  split; [exact blank_spaces|].
  vm_compute.
  repeat (apply Forall2_cons;
          [ solve [ left; reflexivity
                  | right; left; repeat split; (discriminate || reflexivity)
                  | right; right; repeat split;
                    (discriminate || reflexivity) ] | ]).
  apply Forall2_nil.
Defined.

Lemma lookups_insensitive_witness :
  (In Db.cetirizine Db.MEDICATIONS
   /\ variant (py "  cEtIrIzInE  ") (Db.name Db.cetirizine)
   /\ _find_med_by_name Db.MEDICATIONS (PStr (py "  cEtIrIzInE  "))
      = Ok (Some Db.cetirizine))
  /\ (In Db.u002 Db.USERS
      /\ padded (py "  u002  ") (Db.user_id Db.u002)
      /\ _find_user_by_id Db.USERS (PStr (py "  u002  "))
         = Ok (Some Db.u002)).
Proof.
  assert (Hm : In Db.cetirizine Db.MEDICATIONS).
  { right. right. right. left. reflexivity. }
  assert (Hu : In Db.u002 Db.USERS).
  { right. left. reflexivity. }
  assert (Hp : padded (py "  u002  ") (Db.user_id Db.u002)).
  { exists (py "  "), (py "  ").
    split; [reflexivity|]. split; exact blank_spaces. }
  split.
  - split; [exact Hm|]. split; [exact cetirizine_variant|].
    exact (proj1 (proj1 lookups_insensitive _ _ Hm cetirizine_variant)).
  - split; [exact Hu|]. split; [exact Hp|].
    exact (proj1 (proj2 lookups_insensitive _ _ Hu Hp)).
Defined.

(** C8, as the claim has it, fails for the user lookup: [U001] differs
    from the stored [u001] only in letter case and is not found. *)
Lemma user_lookup_case_sensitive :
  ~ (forall u q,
        In u Db.USERS -> variant q (Db.user_id u) ->
        _find_user_by_id Db.USERS (PStr q) = Ok (Some u)).
Proof.
  intros H.
  assert (Hv : variant (py "U001") (Db.user_id Db.u001)).
  { exists [], (py "U001"), [].
    split; [reflexivity|]. split; [constructor|]. split; [constructor|].
    vm_compute.
    repeat (apply Forall2_cons;
            [ solve [ left; reflexivity
                    | right; left; repeat split;
                      (discriminate || reflexivity) ] | ]).
    apply Forall2_nil. }
  specialize (H Db.u001 (py "U001") (or_introl eq_refl) Hv).
  vm_compute in H. discriminate.
Qed.

Example get_user_upper_case :
  get_user Db.USERS (PStr (py "U001"))
  = Ok (PDict [(py "found", PBool false);
               (py "error",
                error_body (py "UNKNOWN_USER") (py "User 'U001' not found"))]).
Proof. vm_compute. reflexivity. Qed.

(* ================================================================== *)
(** * The dispatcher *)

(** Every path through [dispatch], down to the envelope it returns. *)
Ltac dispatch_paths :=
  unfold dispatch, _run_tool, get_medication_by_name, check_stock,
    check_prescription;
  repeat match goal with
    | |- context [name_is ?n ?l] => destruct (name_is n l)
    | |- context [bind (bind_kwargs ?f ?p ?a) _] =>
        destruct (bind_kwargs f p a) as [?d|?e]; cbn [bind]
    | |- context [bind (_find_med_by_name ?M ?v) _] =>
        destruct (_find_med_by_name M v) as [[?m|]|?e]; cbn [bind]
    | |- context [bind (_find_user_by_id ?U ?v) _] =>
        destruct (_find_user_by_id U v) as [[?u|]|?e]; cbn [bind]
    end.

Lemma dispatch_is_envelope MEDICATIONS USERS name args :
  is_envelope (dispatch MEDICATIONS USERS name args) = true.
Proof. dispatch_paths; reflexivity. Qed.

Lemma dispatch_plain MEDICATIONS USERS name args :
  plain (dispatch MEDICATIONS USERS name args) = true.
Proof. dispatch_paths; reflexivity. Qed.

(** The scan reads in the decoded output of a dispatch the error code the
    envelope carries. *)
Lemma dispatch_scan MEDICATIONS USERS name args :
  is_not_found (join_val (dispatch MEDICATIONS USERS name args))
  = Ok (carries_not_found (dispatch MEDICATIONS USERS name args)).
Proof. dispatch_paths; reflexivity. Qed.

Lemma loads_dispatch MEDICATIONS USERS name args :
  loads (dumps (dispatch MEDICATIONS USERS name args))
  = Some (join_val (dispatch MEDICATIONS USERS name args)).
Proof. apply loads_dumps, dispatch_plain. Qed.

Lemma dispatch_unknown MEDICATIONS USERS name args :
  known_tool name = false ->
  dispatch MEDICATIONS USERS name args = unknown_tool name.
Proof.
  unfold known_tool, dispatch, _run_tool. intros H.
  apply orb_false_iff in H. destruct H as [H H3].
  apply orb_false_iff in H. destruct H as [H1 H2].
  rewrite H1, H2, H3. reflexivity.
Qed.

Lemma dispatch_raise MEDICATIONS USERS name args e :
  _run_tool MEDICATIONS USERS name args = Raise e ->
  dispatch MEDICATIONS USERS name args = tool_error e.
Proof. unfold dispatch. intros ->. reflexivity. Qed.

(** The loop body, one call at a time. *)
Lemma run_tools_cons MEDICATIONS USERS user_id c calls resp outs args resp1 :
  prepare_args user_id c resp = Ok (args, resp1) ->
  run_tools MEDICATIONS USERS user_id (c :: calls) resp outs
  = (Dispatch (c_name c) args
     :: fst (run_tools MEDICATIONS USERS user_id calls resp1
               (outs ++ [{| o_call_id := c_call_id c;
                            o_output :=
                              dumps (dispatch MEDICATIONS USERS
                                       (c_name c) args) |}])),
     snd (run_tools MEDICATIONS USERS user_id calls resp1
            (outs ++ [{| o_call_id := c_call_id c;
                         o_output :=
                           dumps (dispatch MEDICATIONS USERS
                                    (c_name c) args) |}]))).
Proof.
  intros H. cbn [run_tools]. rewrite H.
  destruct (run_tools _ _ _ _ _ _) as [acts r]. reflexivity.
Qed.

Lemma run_tools_raise MEDICATIONS USERS user_id c calls resp outs e :
  prepare_args user_id c resp = Raise e ->
  run_tools MEDICATIONS USERS user_id (c :: calls) resp outs = ([], Raise e).
Proof. intros H. cbn [run_tools]. rewrite H. reflexivity. Qed.

(** A loop that ends normally has dispatched every call and collected
    one output per call, in the order of the calls. *)
Lemma run_tools_ok MEDICATIONS USERS user_id :
  forall calls resp outs acts resp' outs',
  run_tools MEDICATIONS USERS user_id calls resp outs
  = (acts, Ok (resp', outs')) ->
  exists argss,
    List.length argss = List.length calls
    /\ acts = map (fun ca => Dispatch (c_name (fst ca)) (snd ca))
                (combine calls argss)
    /\ outs' = outs ++ map (fun ca => output_of MEDICATIONS USERS
                                        (fst ca) (snd ca))
                         (combine calls argss).
Proof.
  induction calls as [|c calls IH]; intros resp outs acts resp' outs' H.
  - cbn [run_tools] in H. injection H as <- <- <-.
    exists []. rewrite app_nil_r. repeat split.
  - destruct (prepare_args user_id c resp) as [[args resp1]|e] eqn:E.
    + rewrite (run_tools_cons _ _ _ _ _ _ _ _ _ E) in H.
      destruct (run_tools MEDICATIONS USERS user_id calls resp1 _)
        as [acts1 r1] eqn:E1.
      cbn [fst snd] in H. injection H as <- ->.
      destruct (IH _ _ _ _ _ E1) as (argss & Hl & Ha & Ho).
      exists (args :: argss). cbn [List.length combine map fst snd].
      split; [congruence|]. split; [congruence|].
      rewrite Ho, <- app_assoc. reflexivity.
    + rewrite (run_tools_raise _ _ _ _ _ _ _ _ E) in H. discriminate.
Qed.

(** The outputs of a loop that ends normally: one per call, with the
    call ids of the calls in their order. *)
Lemma run_tools_call_ids MEDICATIONS USERS user_id calls resp acts resp' outs' :
  run_tools MEDICATIONS USERS user_id calls resp []
  = (acts, Ok (resp', outs')) ->
  List.length outs' = List.length calls
  /\ map o_call_id outs' = map c_call_id calls.
Proof.
  intros H.
  destruct (run_tools_ok _ _ _ _ _ _ _ _ _ H) as (argss & Hl & _ & ->).
  cbn [app]. split.
  - rewrite length_map, length_combine, Hl. apply Nat.min_id.
  - rewrite map_map. cbn [output_of o_call_id].
    clear H. revert argss Hl.
    induction calls as [|c calls IH]; intros [|a argss] Hl;
      try discriminate; [reflexivity|].
    cbn [combine map fst]. f_equal. apply IH.
    simpl in Hl. congruence.
Qed.

(** C4.  For every tool name and every argument value the dispatch of a
    call is one result envelope.  An unknown tool name gives the error
    [UNKNOWN_TOOL]; an exception raised by the operation is caught and
    gives the error [TOOL_ERROR] with the text of the exception as its
    message; the dispatch itself never raises.  After such a fault the
    loop appends the [TOOL_ERROR] output of that call and goes on with
    the calls that follow; a loop that ends normally has one output per
    call. *)
Theorem dispatch_contains_faults (MEDICATIONS : list Db.medication)
  (USERS : list Db.user) :
  (forall name args,
      is_envelope (dispatch MEDICATIONS USERS name args) = true)
  /\ (forall name args,
        known_tool name = false ->
        dispatch MEDICATIONS USERS name args = unknown_tool name
        /\ error_code (unknown_tool name) = Some (py "UNKNOWN_TOOL"))
  /\ (forall name args e,
        _run_tool MEDICATIONS USERS name args = Raise e ->
        dispatch MEDICATIONS USERS name args = tool_error e
        /\ error_code (tool_error e) = Some (py "TOOL_ERROR")
        /\ error_message (tool_error e) = Some (str_exn e))
  /\ (forall user_id c calls resp outs args resp1 e,
        prepare_args user_id c resp = Ok (args, resp1) ->
        _run_tool MEDICATIONS USERS (c_name c) args = Raise e ->
        run_tools MEDICATIONS USERS user_id (c :: calls) resp outs
        = (Dispatch (c_name c) args
           :: fst (run_tools MEDICATIONS USERS user_id calls resp1
                     (outs ++ [{| o_call_id := c_call_id c;
                                  o_output := dumps (tool_error e) |}])),
           snd (run_tools MEDICATIONS USERS user_id calls resp1
                  (outs ++ [{| o_call_id := c_call_id c;
                               o_output := dumps (tool_error e) |}]))))
  /\ (forall user_id calls resp acts resp' outs',
        run_tools MEDICATIONS USERS user_id calls resp []
        = (acts, Ok (resp', outs')) ->
        List.length outs' = List.length calls
        /\ map o_call_id outs' = map c_call_id calls).
Proof.
  split; [intros; apply dispatch_is_envelope|].
  split; [intros name args H; split;
          [apply dispatch_unknown; exact H|reflexivity]|].
  split; [intros name args e H; split;
          [apply dispatch_raise; exact H|split; reflexivity]|].
  split.
  - intros user_id c calls resp outs args resp1 e Hp He.
    rewrite (run_tools_cons _ _ _ _ _ _ _ _ _ Hp).
    rewrite (dispatch_raise _ _ _ _ _ He). reflexivity.
  - intros user_id calls resp acts resp' outs' H.
    exact (run_tools_call_ids _ _ _ _ _ _ _ _ H).
Qed.

Lemma dispatch_contains_faults_witness :
  (known_tool (Some (py "refill")) = false
   /\ dispatch Db.MEDICATIONS Db.USERS (Some (py "refill")) (PDict [])
      = unknown_tool (Some (py "refill")))
  /\ (exists e,
         _run_tool Db.MEDICATIONS Db.USERS (c_name faulty_call)
           (_normalize_args (c_arguments faulty_call)) = Raise e
         /\ dispatch Db.MEDICATIONS Db.USERS (c_name faulty_call)
              (_normalize_args (c_arguments faulty_call)) = tool_error e
         /\ run_tools Db.MEDICATIONS Db.USERS (py "u001")
              [faulty_call; stock_call] no_output []
            = (Dispatch (c_name faulty_call)
                 (_normalize_args (c_arguments faulty_call))
               :: fst (run_tools Db.MEDICATIONS Db.USERS (py "u001")
                         [stock_call] no_output
                         ([] ++ [{| o_call_id := c_call_id faulty_call;
                                    o_output := dumps (tool_error e) |}])),
               snd (run_tools Db.MEDICATIONS Db.USERS (py "u001")
                      [stock_call] no_output
                      ([] ++ [{| o_call_id := c_call_id faulty_call;
                                 o_output := dumps (tool_error e) |}]))))
  /\ (exists acts resp' outs',
         run_tools Db.MEDICATIONS Db.USERS (py "u001")
           [faulty_call; stock_call] no_output []
         = (acts, Ok (resp', outs'))
         /\ List.length outs' = 2%nat
         /\ map o_call_id outs' = [Some (py "call_1"); Some (py "call_2")]).
Proof.
  destruct (dispatch_contains_faults Db.MEDICATIONS Db.USERS)
    as (_ & Hunknown & Hraise & Hloop & Hok).
  split; [|split].
  - split; [reflexivity|].
    exact (proj1 (Hunknown (Some (py "refill")) (PDict []) eq_refl)).
  - assert (He : exists e,
               _run_tool Db.MEDICATIONS Db.USERS (c_name faulty_call)
                 (_normalize_args (c_arguments faulty_call)) = Raise e).
    { vm_compute. eexists. reflexivity. }
    destruct He as (e & He). exists e.
    split; [exact He|].
    split; [exact (proj1 (Hraise _ _ _ He))|].
    apply Hloop; [reflexivity|exact He].
  - assert (Hr : exists acts resp' outs',
               run_tools Db.MEDICATIONS Db.USERS (py "u001")
                 [faulty_call; stock_call] no_output []
               = (acts, Ok (resp', outs'))).
    { vm_compute. eexists _, _, _. reflexivity. }
    destruct Hr as (acts & resp' & outs' & Hr).
    exists acts, resp', outs'. split; [exact Hr|].
    exact (Hok _ _ _ _ _ _ Hr).
Defined.

(* ================================================================== *)
(** * Arguments: normalization and the injected user identifier *)

(** What [_normalize_args] does by the kind of payload. *)
Lemma normalize_args_cases :
  _normalize_args PNone = PDict []
  /\ (forall d, _normalize_args (PDict d) = PDict d)
  /\ (forall s v, loads s = Some v -> _normalize_args (PStr s) = v)
  /\ (forall s, loads s = None -> _normalize_args (PStr s) = PDict []).
Proof.
  repeat split; intros; cbn [_normalize_args];
    try match goal with H : loads _ = _ |- _ => rewrite H end; reflexivity.
Qed.

(** C5, where the code departs from it.  The text of a JSON array parses,
    and what [_normalize_args] returns for it is the list, which is no
    mapping. *)
Theorem normalize_args_returns_list :
  _normalize_args (PStr (py "[]")) = PList []
  /\ _normalize_args (PStr (py "5")) = PInt 5.
Proof. split; vm_compute; reflexivity. Qed.

(** A [check_prescription] call with such arguments ends the loop with an
    exception, before any dispatch. *)
Example prepare_args_list_raises :
  prepare_args (py "u001")
    {| c_name := Some (py "check_prescription");
       c_arguments := PStr (py "[]");
       c_call_id := Some (py "call_1");
       c_item := 0 |} no_output
  = Raise (TypeError (py "list indices must be integers or slices, not str")).
Proof. vm_compute. reflexivity. Qed.

Lemma dict_get_set k v d : dict_get k (dict_set k v d) = Some v.
Proof.
  induction d as [|[k' v'] d IH]; cbn [dict_set dict_get].
  - rewrite str_eqb_refl. reflexivity.
  - destruct (Str.eqb k' k) eqn:E; cbn [dict_get]; rewrite E;
      [reflexivity|exact IH].
Qed.

Lemma dict_get_set_other k k' v d :
  k' <> k -> dict_get k' (dict_set k v d) = dict_get k' d.
Proof.
  intros Hne. induction d as [|[k2 v2] d IH]; cbn [dict_set dict_get].
  - destruct (str_eqb_spec k k'); [congruence|reflexivity].
  - destruct (str_eqb_spec k2 k) as [->|Hk]; cbn [dict_get].
    + destruct (str_eqb_spec k k'); [congruence|reflexivity].
    + rewrite IH. reflexivity.
Qed.

(** The head of the loop body for a call named [check_prescription]
    whose normalized arguments are a mapping. *)
Lemma prepare_args_prescription user_id c resp d :
  name_is (c_name c) (py "check_prescription") = true ->
  _normalize_args (c_arguments c) = PDict d ->
  prepare_args user_id c resp
  = Ok (if dict_mem (py "user_id") d then (PDict d, resp)
        else (PDict (dict_set (py "user_id") (PStr user_id) d),
              write_back c (PDict (dict_set (py "user_id") (PStr user_id) d))
                resp)).
Proof.
  intros Hname Hargs. unfold prepare_args. rewrite Hname, Hargs.
  cbn [py_contains bind]. destruct (dict_mem (py "user_id") d); reflexivity.
Qed.

(** The loop over a list of calls in two parts. *)
Lemma run_tools_app MEDICATIONS USERS user_id :
  forall pre rest resp outs acts1 resp1 outs1,
  run_tools MEDICATIONS USERS user_id pre resp outs
  = (acts1, Ok (resp1, outs1)) ->
  run_tools MEDICATIONS USERS user_id (pre ++ rest) resp outs
  = (acts1 ++ fst (run_tools MEDICATIONS USERS user_id rest resp1 outs1),
     snd (run_tools MEDICATIONS USERS user_id rest resp1 outs1)).
Proof.
  induction pre as [|c pre IH]; intros rest resp outs acts1 resp1 outs1 H.
  - cbn [run_tools] in H. injection H as <- <- <-. cbn [app].
    destruct (run_tools _ _ _ _ _ _); reflexivity.
  - destruct (prepare_args user_id c resp) as [[args resp2]|e] eqn:E.
    + rewrite (run_tools_cons _ _ _ _ _ _ _ _ _ E) in H.
      destruct (run_tools MEDICATIONS USERS user_id pre resp2 _)
        as [acts2 r2] eqn:E2.
      cbn [fst snd] in H. injection H as <- ->.
      cbn [app]. rewrite (run_tools_cons _ _ _ _ _ _ _ _ _ E).
      rewrite (IH _ _ _ _ _ _ E2). reflexivity.
    + rewrite (run_tools_raise _ _ _ _ _ _ _ _ E) in H. discriminate.
Qed.

(* ================================================================== *)
(** * The orchestration core *)

Lemma looks_hebrew_spec text :
  _looks_hebrew text = true
  <-> exists c, In c text /\ 1424 <= c /\ c <= 1535.
Proof.
  unfold _looks_hebrew, is_hebrew. rewrite existsb_exists.
  split; intros (c & Hin & H); exists c; (split; [exact Hin|]).
  - apply andb_true_iff in H. destruct H as [H1 H2].
    apply N.leb_le in H1. apply N.leb_le in H2. split; assumption.
  - apply andb_true_iff. split; apply N.leb_le; apply H.
Qed.

(** The gate never raises on a string. *)
Lemma get_user_str USERS user_id :
  exists user_res, get_user USERS (PStr user_id) = Ok user_res.
Proof.
  unfold get_user, _find_user_by_id.
  destruct (negb (truthy (PStr user_id))); cbn [py_strip bind];
    [eexists; reflexivity|].
  destruct (scan_users _ _); eexists; reflexivity.
Qed.

(** What the relay of a stream yields. *)
Lemma relay_yields events :
  Forall (fun a => exists d, a = Yield (TextDelta d)
                   \/ a = Yield StreamErrorMessage) (relay events).
Proof.
  induction events as [|[d| |] events IH]; cbn [relay].
  - constructor.
  - constructor; [exists d; left; reflexivity|exact IH].
  - constructor; [exists []; right; reflexivity|constructor].
  - exact IH.
Qed.

Lemma relay_model_calls events : model_calls (relay events) = [].
Proof.
  induction events as [|[d| |] events IH]; cbn [relay model_calls filter];
    auto.
Qed.

Lemma relay_dispatches events : dispatches (relay events) = [].
Proof.
  induction events as [|[d| |] events IH]; cbn [relay dispatches filter];
    auto.
Qed.

Lemma dispatch_actions_yielded cas : yielded (dispatch_actions cas) = [].
Proof. induction cas as [|ca cas IH]; [reflexivity|exact IH]. Qed.

Lemma dispatch_actions_model_calls cas :
  model_calls (dispatch_actions cas) = [].
Proof. induction cas as [|ca cas IH]; [reflexivity|exact IH]. Qed.

Lemma yielded_app t1 t2 : yielded (t1 ++ t2) = yielded t1 ++ yielded t2.
Proof. unfold yielded. apply flat_map_app. Qed.

Lemma model_calls_app t1 t2 :
  model_calls (t1 ++ t2) = model_calls t1 ++ model_calls t2.
Proof. unfold model_calls. apply filter_app. Qed.

(** The scan finds [NOT_FOUND] exactly when an envelope carries it. *)
Lemma scan_outputs_dispatch MEDICATIONS USERS cas :
  scan_outputs (map (fun ca => output_of MEDICATIONS USERS (fst ca) (snd ca))
                  cas)
  = Ok (existsb (fun ca => carries_not_found
                             (dispatch MEDICATIONS USERS
                                (c_name (fst ca)) (snd ca))) cas).
Proof.
  induction cas as [|[c args] cas IH]; [reflexivity|].
  cbn [map scan_outputs existsb fst snd output_of o_output].
  rewrite loads_dispatch, dispatch_scan. cbn [bind].
  destruct (carries_not_found _); [reflexivity|exact IH].
Qed.

(** The tool loop leaves the response with as many items as it had. *)
Lemma set_arguments_length i args items :
  List.length (set_arguments i args items) = List.length items.
Proof.
  revert i. induction items as [|it items IH]; intros [|i];
    cbn [set_arguments List.length]; auto.
Qed.

Lemma write_back_length c args resp :
  output_length (write_back c args resp) = output_length resp.
Proof.
  unfold write_back, output_length.
  destruct (c_arguments c); try reflexivity.
  destruct (output resp) as [items|] eqn:E; [|rewrite E; reflexivity].
  cbn [output option_map]. rewrite set_arguments_length. reflexivity.
Qed.

Lemma prepare_args_length user_id c resp args resp1 :
  prepare_args user_id c resp = Ok (args, resp1) ->
  output_length resp1 = output_length resp.
Proof.
  unfold prepare_args.
  destruct (name_is (c_name c) _); [|intros H; injection H as _ <-; reflexivity].
  destruct (py_contains _ _) as [[|]|e]; cbn [bind negb];
    [intros H; injection H as _ <-; reflexivity| |discriminate].
  destruct (py_setitem _ _ _) as [args'|e]; cbn [bind]; [|discriminate].
  intros H. injection H as _ <-. apply write_back_length.
Qed.

Lemma run_tools_length MEDICATIONS USERS user_id :
  forall calls resp outs acts resp' outs',
  run_tools MEDICATIONS USERS user_id calls resp outs
  = (acts, Ok (resp', outs')) ->
  output_length resp' = output_length resp.
Proof.
  induction calls as [|c calls IH]; intros resp outs acts resp' outs' H.
  - cbn [run_tools] in H. injection H as _ <- _. reflexivity.
  - destruct (prepare_args user_id c resp) as [[args resp1]|e] eqn:E.
    + rewrite (run_tools_cons _ _ _ _ _ _ _ _ _ E) in H.
      destruct (run_tools MEDICATIONS USERS user_id calls resp1 _)
        as [acts1 r1] eqn:E1.
      cbn [fst snd] in H. injection H as _ ->.
      rewrite (IH _ _ _ _ _ E1). apply (prepare_args_length _ _ _ _ _ E).
    + rewrite (run_tools_raise _ _ _ _ _ _ _ _ E) in H. discriminate.
Qed.

(** A response calls were extracted from has a non-empty output. *)
Lemma extract_nonempty resp :
  _extract_function_calls resp <> [] ->
  exists n, output_length resp = Some (S n).
Proof.
  unfold _extract_function_calls, output_length.
  destruct (output resp) as [[|it items]|]; cbn [extract_from option_map];
    try congruence.
  intros _. eexists. reflexivity.
Qed.

Lemma output_length_S resp n :
  output_length resp = Some (S n) ->
  exists it items, output resp = Some (it :: items).
Proof.
  unfold output_length. destruct (output resp) as [[|it items]|];
    cbn [option_map List.length]; try discriminate.
  intros _. eexists _, _. reflexivity.
Qed.

(** The run of a request that passes the gate and extracts calls, by
    what the tool loop returns. *)
Lemma reply_tools MEDICATIONS USERS client user_id user_message user_res :
  get_user USERS (PStr user_id) = Ok user_res ->
  truthy (found user_res) = true ->
  let base := base_input user_id user_res user_message in
  let resp := create client base in
  _extract_function_calls resp <> [] ->
  stream_agent_reply MEDICATIONS USERS client user_id user_message
  = match run_tools MEDICATIONS USERS user_id
            (_extract_function_calls resp) resp [] with
    | (acts, Raise e) =>
        {| trace := DecisionCall base :: acts; raised := Some e |}
    | (acts, Ok (resp', tool_outputs)) =>
        match scan_outputs tool_outputs with
        | Raise e =>
            {| trace := DecisionCall base :: acts; raised := Some e |}
        | Ok true =>
            {| trace :=
                 DecisionCall base :: acts
                 ++ [Yield (MedicationNotFoundMessage
                              (_looks_hebrew user_message))];
               raised := None |}
        | Ok false =>
            match output resp' with
            | None | Some [] =>
                {| trace :=
                     DecisionCall base :: acts
                     ++ [Yield MissingContextMessage];
                   raised := None |}
            | Some resp_output =>
                {| trace :=
                     DecisionCall base :: acts
                     ++ StreamingCall
                          (final_input base resp_output tool_outputs)
                          ToolChoiceNone
                     :: relay (stream client
                                 (final_input base resp_output tool_outputs)
                                 ToolChoiceNone);
                   raised := None |}
            end
        end
    end.
Proof.
  intros Hu Hf base resp Hc. unfold stream_agent_reply.
  rewrite Hu, Hf. cbn [negb]. fold base. fold resp.
  destruct (_extract_function_calls resp) as [|c calls] eqn:E;
    [congruence|]. reflexivity.
Qed.

Lemma reply_unknown MEDICATIONS USERS client user_id user_message user_res :
  get_user USERS (PStr user_id) = Ok user_res ->
  truthy (found user_res) = false ->
  stream_agent_reply MEDICATIONS USERS client user_id user_message
  = {| trace :=
         [Yield (UnknownUserMessage (_looks_hebrew user_message) user_id)];
       raised := None |}.
Proof.
  intros Hu Hf. unfold stream_agent_reply. rewrite Hu, Hf. reflexivity.
Qed.

Lemma reply_no_tools MEDICATIONS USERS client user_id user_message user_res :
  get_user USERS (PStr user_id) = Ok user_res ->
  truthy (found user_res) = true ->
  let base := base_input user_id user_res user_message in
  _extract_function_calls (create client base) = [] ->
  stream_agent_reply MEDICATIONS USERS client user_id user_message
  = {| trace :=
         DecisionCall base :: StreamingCall base NoTools
         :: relay (stream client base NoTools);
       raised := None |}.
Proof.
  intros Hu Hf base Hc. unfold stream_agent_reply.
  rewrite Hu, Hf. cbn [negb]. fold base. rewrite Hc. reflexivity.
Qed.

Lemma in_dispatch_actions a cas :
  In a (dispatch_actions cas) -> exists name args, a = Dispatch name args.
Proof.
  unfold dispatch_actions. rewrite in_map_iff.
  intros (ca & <- & _). eexists _, _. reflexivity.
Qed.

Lemma in_relay a events :
  In a (relay events) -> exists m, a = Yield m /\ m <> MissingContextMessage.
Proof.
  intros H. pose proof (relay_yields events) as F.
  rewrite Forall_forall in F. destruct (F a H) as (d & [->| ->]);
    eexists; split; try reflexivity; discriminate.
Qed.

(** The tool loop, when it ends normally: what it did and what the scan
    then finds. *)
Lemma run_tools_scan MEDICATIONS USERS user_id calls resp acts resp' outs :
  run_tools MEDICATIONS USERS user_id calls resp [] = (acts, Ok (resp', outs)) ->
  exists cas,
    acts = dispatch_actions cas
    /\ map fst cas = calls
    /\ outs = map (fun ca => output_of MEDICATIONS USERS (fst ca) (snd ca)) cas
    /\ scan_outputs outs
       = Ok (existsb (fun ca => carries_not_found
                                  (dispatch MEDICATIONS USERS
                                     (c_name (fst ca)) (snd ca))) cas).
Proof.
  intros H. destruct (run_tools_ok _ _ _ _ _ _ _ _ _ H) as (argss & Hl & -> & ->).
  exists (combine calls argss). cbn [app].
  split; [reflexivity|]. split.
  - clear H. revert argss Hl. induction calls as [|c calls IH];
      intros [|a argss] Hl; try discriminate; [reflexivity|].
    cbn [combine map fst]. f_equal. apply IH. simpl in Hl. congruence.
  - split; [reflexivity|]. apply scan_outputs_dispatch.
Qed.

(** C2.  When the lookup reports the user absent, the reply is one
    message, in Hebrew exactly when the user message holds a character
    between U+0590 and U+05FF, and the run ends there: no call to the
    model backend, no dispatch, no exception. *)
Theorem unknown_user_gate (MEDICATIONS : list Db.medication)
  (USERS : list Db.user) (client : backend) (user_id user_message : str)
  (user_res : pyval) :
  get_user USERS (PStr user_id) = Ok user_res ->
  found user_res = PBool false ->
  let r := stream_agent_reply MEDICATIONS USERS client user_id user_message in
  trace r
  = [Yield (UnknownUserMessage (_looks_hebrew user_message) user_id)]
  /\ yielded (trace r)
     = [UnknownUserMessage (_looks_hebrew user_message) user_id]
  /\ model_calls (trace r) = []
  /\ dispatches (trace r) = []
  /\ raised r = None
  /\ (_looks_hebrew user_message = true
      <-> exists c, In c user_message /\ 1424 <= c /\ c <= 1535).
Proof.
  intros Hu Hf r.
  assert (E : r = {| trace :=
                       [Yield (UnknownUserMessage
                                 (_looks_hebrew user_message) user_id)];
                     raised := None |}).
  { apply (reply_unknown _ _ _ _ _ _ Hu). rewrite Hf. reflexivity. }
  rewrite E. cbn [trace raised].
  repeat split; try reflexivity; apply looks_hebrew_spec.
Qed.

Lemma unknown_user_gate_witness :
  get_user Db.USERS (PStr (py "u999"))
  = Ok (PDict [(py "found", PBool false);
               (py "error",
                error_body (py "UNKNOWN_USER") (py "User 'u999' not found"))])
  /\ trace (stream_agent_reply Db.MEDICATIONS Db.USERS (scripted [])
              (py "u999") shalom)
     = [Yield (UnknownUserMessage true (py "u999"))].
Proof.
  split; [vm_compute; reflexivity|].
  refine (proj1 (unknown_user_gate Db.MEDICATIONS Db.USERS (scripted [])
                   (py "u999") shalom _ _ _)).
  - vm_compute. reflexivity.
  - reflexivity.
Defined.

(** The trace of a request that passes the gate and extracts calls
    starts with the decision call and what the tool loop does. *)
Lemma reply_trace_tools MEDICATIONS USERS client user_id user_message
  user_res :
  get_user USERS (PStr user_id) = Ok user_res ->
  truthy (found user_res) = true ->
  let base := base_input user_id user_res user_message in
  let resp := create client base in
  _extract_function_calls resp <> [] ->
  exists tail,
    trace (stream_agent_reply MEDICATIONS USERS client user_id user_message)
    = DecisionCall base
      :: fst (run_tools MEDICATIONS USERS user_id
                (_extract_function_calls resp) resp [])
      ++ tail.
Proof.
  intros Hu Hf base resp Hc.
  rewrite (reply_tools _ _ _ _ _ _ Hu Hf Hc). fold base. fold resp.
  destruct (run_tools MEDICATIONS USERS user_id
              (_extract_function_calls resp) resp [])
    as [acts [[resp' outs]|e]]; cbn [fst].
  - destruct (scan_outputs outs) as [[|]|e]; cbn [trace];
      try (eexists; reflexivity).
    + destruct (output resp') as [[|it items]|]; cbn [trace];
        eexists; reflexivity.
    + exists []. rewrite app_nil_r. reflexivity.
  - exists []. rewrite app_nil_r. reflexivity.
Qed.

(** The injection of [user_id], where it works.  A request that passes
    the gate; a call named [check_prescription] that the tool loop
    reaches, whose normalized arguments are a mapping.  When the mapping
    has no key [user_id], the dispatcher receives the mapping with
    [user_id] set to the user identifier of the request and with every
    other key as it was; when the mapping has the key, the dispatcher
    receives the mapping unchanged. *)
Theorem user_id_injected (MEDICATIONS : list Db.medication)
  (USERS : list Db.user) (client : backend) (user_id user_message : str)
  (user_res : pyval) (pre post : list call) (c : call)
  (acts1 : list action) (resp1 : response) (outs1 : list tool_output)
  (d : pydict) :
  get_user USERS (PStr user_id) = Ok user_res ->
  truthy (found user_res) = true ->
  let base := base_input user_id user_res user_message in
  let resp := create client base in
  _extract_function_calls resp = pre ++ c :: post ->
  run_tools MEDICATIONS USERS user_id pre resp []
  = (acts1, Ok (resp1, outs1)) ->
  name_is (c_name c) (py "check_prescription") = true ->
  _normalize_args (c_arguments c) = PDict d ->
  let r := stream_agent_reply MEDICATIONS USERS client user_id user_message in
  (dict_mem (py "user_id") d = false ->
   (exists tail,
       trace r
       = DecisionCall base :: acts1
         ++ Dispatch (c_name c)
              (PDict (dict_set (py "user_id") (PStr user_id) d)) :: tail)
   /\ dict_get (py "user_id") (dict_set (py "user_id") (PStr user_id) d)
      = Some (PStr user_id)
   /\ (forall k, k <> py "user_id" ->
         dict_get k (dict_set (py "user_id") (PStr user_id) d)
         = dict_get k d))
  /\ (dict_mem (py "user_id") d = true ->
      exists tail,
        trace r
        = DecisionCall base :: acts1 ++ Dispatch (c_name c) (PDict d) :: tail).
Proof.
  intros Hu Hf base resp Hc Hpre Hname Hargs r.
  assert (Hne : _extract_function_calls resp <> []).
  { rewrite Hc. destruct pre; discriminate. }
  destruct (reply_trace_tools MEDICATIONS USERS client user_id user_message
              user_res Hu Hf Hne) as (tail & Ht).
  fold base in Ht. fold resp in Ht. fold r in Ht.
  rewrite Hc in Ht. rewrite (run_tools_app _ _ _ _ _ _ _ _ _ _ Hpre) in Ht.
  cbn [fst] in Ht.
  pose proof (prepare_args_prescription user_id c resp1 d Hname Hargs) as Hp.
  split; intros Hmem; rewrite Hmem in Hp;
    rewrite (run_tools_cons _ _ _ _ _ _ _ _ _ Hp) in Ht; cbn [fst] in Ht;
    rewrite <- app_assoc in Ht; cbn [app] in Ht.
  - split; [eexists; exact Ht|]. split.
    + apply dict_get_set.
    + intros k Hk. apply dict_get_set_other. exact Hk.
  - eexists. exact Ht.
Qed.

Lemma user_id_injected_witness :
  (exists tail,
      trace (stream_agent_reply Db.MEDICATIONS Db.USERS
               (scripted prescription_items) (py "u001")
               (py "do I need a prescription?"))
      = DecisionCall
          (base_input (py "u001")
             (PDict [(py "found", PBool true);
                     (py "user",
                      PDict [(py "user_id", PStr (py "u001"));
                             (py "name", PStr (py "Einat Shvartz"));
                             (py "prescriptions",
                              PList [PStr (py "Amoxicillin");
                                     PStr (py "Metformin")])])])
             (py "do I need a prescription?"))
        :: [Dispatch (Some (py "check_stock"))
              (PDict [(py "name", PStr (py "Paracetamol"))])]
        ++ Dispatch (Some (py "check_prescription"))
             (PDict [(py "name", PStr (py "Amoxicillin"));
                     (py "user_id", PStr (py "u001"))]) :: tail)
  /\ (exists tail,
         trace (stream_agent_reply Db.MEDICATIONS Db.USERS
                  (scripted prescription_items) (py "u001")
                  (py "do I need a prescription?"))
         = DecisionCall
             (base_input (py "u001")
                (PDict [(py "found", PBool true);
                        (py "user",
                         PDict [(py "user_id", PStr (py "u001"));
                                (py "name", PStr (py "Einat Shvartz"));
                                (py "prescriptions",
                                 PList [PStr (py "Amoxicillin");
                                        PStr (py "Metformin")])])])
                (py "do I need a prescription?"))
           :: [Dispatch (Some (py "check_stock"))
                 (PDict [(py "name", PStr (py "Paracetamol"))]);
               Dispatch (Some (py "check_prescription"))
                 (PDict [(py "name", PStr (py "Amoxicillin"));
                         (py "user_id", PStr (py "u001"))])]
           ++ Dispatch (Some (py "check_prescription"))
                (PDict [(py "user_id", PStr (py "u002"));
                        (py "name", PStr (py "Amoxicillin"))]) :: tail).
Proof.
  split.
  - assert (Hpre : exists resp1 outs1,
               run_tools Db.MEDICATIONS Db.USERS (py "u001")
                 [nth 0 (extract_from 0 prescription_items) faulty_call]
                 {| output := Some prescription_items |} []
               = ([Dispatch (Some (py "check_stock"))
                     (PDict [(py "name", PStr (py "Paracetamol"))])],
                  Ok (resp1, outs1))).
    { vm_compute. eexists _, _. reflexivity. }
    destruct Hpre as (resp1 & outs1 & Hpre).
    refine (proj1 (proj1 (user_id_injected Db.MEDICATIONS Db.USERS
                            (scripted prescription_items) (py "u001")
                            (py "do I need a prescription?") _
                            [nth 0 (extract_from 0 prescription_items)
                               faulty_call]
                            [nth 2 (extract_from 0 prescription_items)
                               faulty_call]
                            (nth 1 (extract_from 0 prescription_items)
                               faulty_call)
                            _ resp1 outs1
                            [(py "name", PStr (py "Amoxicillin"))]
                            _ _ _ Hpre _ _) _)).
    + vm_compute. reflexivity.
    + reflexivity.
    + reflexivity.
    + reflexivity.
    + vm_compute. reflexivity.
    + reflexivity.
  - assert (Hpre : exists resp1 outs1,
               run_tools Db.MEDICATIONS Db.USERS (py "u001")
                 [nth 0 (extract_from 0 prescription_items) faulty_call;
                  nth 1 (extract_from 0 prescription_items) faulty_call]
                 {| output := Some prescription_items |} []
               = ([Dispatch (Some (py "check_stock"))
                     (PDict [(py "name", PStr (py "Paracetamol"))]);
                   Dispatch (Some (py "check_prescription"))
                     (PDict [(py "name", PStr (py "Amoxicillin"));
                             (py "user_id", PStr (py "u001"))])],
                  Ok (resp1, outs1))).
    { vm_compute. eexists _, _. reflexivity. }
    destruct Hpre as (resp1 & outs1 & Hpre).
    refine (proj2 (user_id_injected Db.MEDICATIONS Db.USERS
                     (scripted prescription_items) (py "u001")
                     (py "do I need a prescription?") _
                     [nth 0 (extract_from 0 prescription_items) faulty_call;
                      nth 1 (extract_from 0 prescription_items) faulty_call]
                     []
                     (nth 2 (extract_from 0 prescription_items) faulty_call)
                     _ resp1 outs1
                     [(py "user_id", PStr (py "u002"));
                      (py "name", PStr (py "Amoxicillin"))]
                     _ _ _ Hpre _ _) _).
    + vm_compute. reflexivity.
    + reflexivity.
    + reflexivity.
    + reflexivity.
    + vm_compute. reflexivity.
    + reflexivity.
Defined.

(** C6, where the code departs from it.  A request of a known user whose
    decision response holds two calls named [check_prescription], neither
    with a [user_id] in its normalized arguments: the test
    ["user_id" not in args] holds of both.  The arguments of the first
    normalize to a list; the assignment [args["user_id"] = user_id],
    which stands outside the [try], raises [TypeError] on it, and the run
    ends there.  The dispatcher receives nothing: not for the first
    call, and not for the second, whose arguments are a mapping. *)
Theorem user_id_injection_raises :
  let r := stream_agent_reply Db.MEDICATIONS Db.USERS
             (scripted array_first_items) (py "u001")
             (py "do I need a prescription?") in
  Forall (fun c =>
            name_is (c_name c) (py "check_prescription") = true
            /\ py_contains (py "user_id") (_normalize_args (c_arguments c))
               = Ok false)
    (_extract_function_calls {| output := Some array_first_items |})
  /\ map (fun c => _normalize_args (c_arguments c))
       (_extract_function_calls {| output := Some array_first_items |})
     = [PList []; PDict [(py "name", PStr (py "Amoxicillin"))]]
  /\ (exists base, trace r = [DecisionCall base])
  /\ dispatches (trace r) = []
  /\ raised r
     = Some (TypeError
               (py "list indices must be integers or slices, not str")).
Proof.
  cbv zeta. split; [|split; [|split; [|split]]].
  - repeat constructor.
  - reflexivity.
  - eexists. vm_compute. reflexivity.
  - vm_compute. reflexivity.
  - vm_compute. reflexivity.
Qed.

(** C1.  A request that passes the gate, extracts at least one call and
    dispatches them all: when one of the collected envelopes carries the
    error code [NOT_FOUND], the run is the decision call, the dispatches
    and one apology, in Hebrew exactly when the user message holds a
    character between U+0590 and U+05FF.  No streaming call is made,
    whatever the other envelopes are. *)
Theorem not_found_short_circuit (MEDICATIONS : list Db.medication)
  (USERS : list Db.user) (client : backend) (user_id user_message : str)
  (user_res : pyval) (acts : list action) (resp' : response)
  (tool_outputs : list tool_output) :
  get_user USERS (PStr user_id) = Ok user_res ->
  truthy (found user_res) = true ->
  let base := base_input user_id user_res user_message in
  let resp := create client base in
  _extract_function_calls resp <> [] ->
  run_tools MEDICATIONS USERS user_id (_extract_function_calls resp) resp []
  = (acts, Ok (resp', tool_outputs)) ->
  (exists name args,
      In (Dispatch name args) acts
      /\ carries_not_found (dispatch MEDICATIONS USERS name args) = true) ->
  let r := stream_agent_reply MEDICATIONS USERS client user_id user_message in
  trace r
  = DecisionCall base :: acts
    ++ [Yield (MedicationNotFoundMessage (_looks_hebrew user_message))]
  /\ yielded (trace r)
     = [MedicationNotFoundMessage (_looks_hebrew user_message)]
  /\ model_calls (trace r) = [DecisionCall base]
  /\ raised r = None
  /\ (_looks_hebrew user_message = true
      <-> exists c, In c user_message /\ 1424 <= c /\ c <= 1535).
Proof.
  intros Hu Hf base resp Hc Hrun (name & args & Hin & Hnf) r.
  destruct (run_tools_scan _ _ _ _ _ _ _ _ Hrun) as (cas & -> & _ & _ & Hscan).
  assert (Hex : existsb (fun ca => carries_not_found
                                     (dispatch MEDICATIONS USERS
                                        (c_name (fst ca)) (snd ca))) cas
                = true).
  { apply existsb_exists. unfold dispatch_actions in Hin.
    apply in_map_iff in Hin. destruct Hin as (ca & E & Hca).
    exists ca. split; [exact Hca|]. injection E as -> ->. exact Hnf. }
  rewrite Hex in Hscan.
  assert (E : r = {| trace :=
                       DecisionCall base :: dispatch_actions cas
                       ++ [Yield (MedicationNotFoundMessage
                                    (_looks_hebrew user_message))];
                     raised := None |}).
  { unfold r. rewrite (reply_tools _ _ _ _ _ _ Hu Hf Hc).
    fold base. fold resp. rewrite Hrun, Hscan. reflexivity. }
  rewrite E. cbn [trace raised].
  split; [reflexivity|]. split; [|split; [|split]].
  - cbn [yielded flat_map app]. fold (yielded (dispatch_actions cas ++
      [Yield (MedicationNotFoundMessage (_looks_hebrew user_message))])).
    rewrite yielded_app, dispatch_actions_yielded. reflexivity.
  - cbn [model_calls filter]. f_equal.
    fold (model_calls (dispatch_actions cas ++
      [Yield (MedicationNotFoundMessage (_looks_hebrew user_message))])).
    rewrite model_calls_app, dispatch_actions_model_calls. reflexivity.
  - reflexivity.
  - apply looks_hebrew_spec.
Qed.

Lemma not_found_short_circuit_witness :
  exists acts,
    fst (run_tools Db.MEDICATIONS Db.USERS (py "u001")
           (extract_from 0 stock_items) {| output := Some stock_items |} [])
    = acts
    /\ yielded (trace (stream_agent_reply Db.MEDICATIONS Db.USERS
                         (scripted stock_items) (py "u001") (py "in stock?")))
       = [MedicationNotFoundMessage false]
    /\ model_calls (trace (stream_agent_reply Db.MEDICATIONS Db.USERS
                             (scripted stock_items) (py "u001")
                             (py "in stock?")))
       = [DecisionCall
            (base_input (py "u001")
               (PDict [(py "found", PBool true);
                       (py "user",
                        PDict [(py "user_id", PStr (py "u001"));
                               (py "name", PStr (py "Einat Shvartz"));
                               (py "prescriptions",
                                PList [PStr (py "Amoxicillin");
                                       PStr (py "Metformin")])])])
               (py "in stock?"))].
Proof.
  assert (Hrun : exists acts resp' outs,
             run_tools Db.MEDICATIONS Db.USERS (py "u001")
               (extract_from 0 stock_items) {| output := Some stock_items |} []
             = (acts, Ok (resp', outs))
             /\ In (Dispatch (Some (py "check_stock"))
                      (PDict [(py "name", PStr (py "Aspirin"))])) acts).
  { vm_compute. eexists _, _, _. split; [reflexivity|].
    right. left. reflexivity. }
  destruct Hrun as (acts & resp' & outs & Hrun & Hin).
  exists acts. split; [rewrite Hrun; reflexivity|].
  refine ((fun H => conj (proj1 (proj2 H)) (proj1 (proj2 (proj2 H))))
            (not_found_short_circuit Db.MEDICATIONS Db.USERS
               (scripted stock_items) (py "u001") (py "in stock?")
               _ acts resp' outs _ _ _ _ _)).
  - vm_compute. reflexivity.
  - reflexivity.
  - discriminate.
  - exact Hrun.
  - eexists _, _. split; [exact Hin|]. vm_compute. reflexivity.
Defined.

(** Whatever its outcome, the tool loop does nothing but dispatch. *)
Lemma run_tools_actions MEDICATIONS USERS user_id :
  forall calls resp outs a,
  In a (fst (run_tools MEDICATIONS USERS user_id calls resp outs)) ->
  exists name args, a = Dispatch name args.
Proof.
  induction calls as [|c calls IH]; intros resp outs a H.
  - contradiction.
  - destruct (prepare_args user_id c resp) as [[args resp1]|e] eqn:E.
    + rewrite (run_tools_cons _ _ _ _ _ _ _ _ _ E) in H.
      cbn [fst In] in H. destruct H as [<-|H].
      * eexists _, _. reflexivity.
      * exact (IH _ _ _ H).
    + rewrite (run_tools_raise _ _ _ _ _ _ _ _ E) in H. contradiction.
Qed.

(** C9.  When at least one call was extracted from the decision response,
    the output the core reads again before the final call is not empty,
    in whatever state the tool loop leaves the response; so no run yields
    the internal-error message. *)
Theorem missing_context_unreachable (MEDICATIONS : list Db.medication)
  (USERS : list Db.user) (client : backend) (user_id user_message : str) :
  (forall resp acts resp' tool_outputs,
      _extract_function_calls resp <> [] ->
      run_tools MEDICATIONS USERS user_id (_extract_function_calls resp)
        resp [] = (acts, Ok (resp', tool_outputs)) ->
      exists it items, output resp' = Some (it :: items))
  /\ ~ In (Yield MissingContextMessage)
         (trace (stream_agent_reply MEDICATIONS USERS client
                   user_id user_message)).
Proof.
  assert (Hne : forall resp acts resp' tool_outputs,
             _extract_function_calls resp <> [] ->
             run_tools MEDICATIONS USERS user_id
               (_extract_function_calls resp) resp []
             = (acts, Ok (resp', tool_outputs)) ->
             exists it items, output resp' = Some (it :: items)).
  { intros resp acts resp' outs Hc Hrun.
    destruct (extract_nonempty resp Hc) as (n & Hn).
    apply (output_length_S resp' n).
    rewrite (run_tools_length _ _ _ _ _ _ _ _ _ Hrun). exact Hn. }
  split; [exact Hne|].
  destruct (get_user_str USERS user_id) as (user_res & Hu).
  destruct (truthy (found user_res)) eqn:Hf.
  2:{ rewrite (reply_unknown _ _ _ _ _ _ Hu Hf). cbn [trace In].
      intros [H|[]]. discriminate. }
  set (base := base_input user_id user_res user_message).
  destruct (_extract_function_calls (create client base)) as [|c0 calls0]
    eqn:Hc.
  { rewrite (reply_no_tools _ _ _ _ _ _ Hu Hf Hc). cbn [trace In].
    fold base. intros [H|[H|H]]; try discriminate.
    destruct (in_relay _ _ H) as (m & E & Hm). congruence. }
  assert (Hc' : _extract_function_calls (create client base) <> [])
    by (rewrite Hc; discriminate).
  rewrite (reply_tools _ _ _ _ _ _ Hu Hf Hc'). fold base.
  pose proof (run_tools_actions MEDICATIONS USERS user_id
                (_extract_function_calls (create client base))
                (create client base) []) as Hacts.
  pose proof (Hne (create client base)) as Hne'.
  destruct (run_tools MEDICATIONS USERS user_id
              (_extract_function_calls (create client base))
              (create client base) []) as [acts [[resp' outs]|e]].
  2:{ cbn [trace In fst] in *. intros [H|H]; [discriminate|].
      destruct (Hacts _ H) as (n & a & E). discriminate. }
  cbn [fst] in Hacts.
  assert (Hacts' : ~ In (Yield MissingContextMessage) acts).
  { intros H. destruct (Hacts _ H) as (n & a & E). discriminate. }
  destruct (Hne' _ _ _ Hc' eq_refl) as (it & items & Ho).
  destruct (scan_outputs outs) as [[|]|e]; cbn [trace In].
  - intros [H|H]; [discriminate|]. apply in_app_or in H.
    destruct H as [H|[H|[]]]; [exact (Hacts' H)|discriminate].
  - rewrite Ho. cbn [trace In]. intros [H|H]; [discriminate|].
    apply in_app_or in H. destruct H as [H|[H|H]];
      [exact (Hacts' H)|discriminate|].
    destruct (in_relay _ _ H) as (m & E & Hm). congruence.
  - intros [H|H]; [discriminate|]. exact (Hacts' H).
Qed.

Lemma missing_context_unreachable_witness :
  exists it items,
    output (fst (match snd (run_tools Db.MEDICATIONS Db.USERS (py "u001")
                              (_extract_function_calls
                                 {| output := Some stock_items |})
                              {| output := Some stock_items |} []) with
                 | Ok p => p
                 | Raise _ => (no_output, [])
                 end))
    = Some (it :: items).
Proof.
  assert (Hrun : exists acts resp' outs,
             run_tools Db.MEDICATIONS Db.USERS (py "u001")
               (_extract_function_calls {| output := Some stock_items |})
               {| output := Some stock_items |} []
             = (acts, Ok (resp', outs))).
  { vm_compute. eexists _, _, _. reflexivity. }
  destruct Hrun as (acts & resp' & outs & Hrun).
  rewrite Hrun. cbn [snd fst].
  refine (proj1 (missing_context_unreachable Db.MEDICATIONS Db.USERS
                   (scripted stock_items) (py "u001") (py "in stock?"))
            {| output := Some stock_items |} acts resp' outs _ Hrun).
  discriminate.
Defined.

Lemma output_ids_app a b : output_ids (a ++ b) = output_ids a ++ output_ids b.
Proof. unfold output_ids. apply flat_map_app. Qed.

Lemma output_ids_outputs outs :
  output_ids (map FunctionCallOutput outs) = map o_call_id outs.
Proof. induction outs as [|o outs IH]; [reflexivity|]. simpl. f_equal. exact IH. Qed.

Lemma output_ids_items items : output_ids (map OutputItem items) = [].
Proof. induction items as [|o items IH]; [reflexivity|exact IH]. Qed.

Lemma output_ids_final base user_id user_res user_message items outs :
  base = base_input user_id user_res user_message ->
  output_ids (final_input base items outs) = map o_call_id outs.
Proof.
  intros ->. unfold final_input. rewrite !output_ids_app.
  rewrite output_ids_items, output_ids_outputs. reflexivity.
Qed.

(** Arguments that are no mapping are fresh values: the loop leaves the
    response as it was. *)
Lemma prepare_args_verbatim user_id c resp args resp1 :
  structured (c_arguments c) = false ->
  prepare_args user_id c resp = Ok (args, resp1) -> resp1 = resp.
Proof.
  intros Hs. unfold prepare_args.
  destruct (name_is (c_name c) _); [|intros H; injection H as _ <-; reflexivity].
  destruct (py_contains _ _) as [[|]|e]; cbn [bind negb];
    [intros H; injection H as _ <-; reflexivity| |discriminate].
  destruct (py_setitem _ _ _) as [args'|e]; cbn [bind]; [|discriminate].
  intros H. injection H as _ <-. unfold write_back.
  destruct (c_arguments c); try reflexivity. discriminate.
Qed.

Lemma run_tools_verbatim MEDICATIONS USERS user_id :
  forall calls resp outs acts resp' outs',
  (forall c, In c calls -> structured (c_arguments c) = false) ->
  run_tools MEDICATIONS USERS user_id calls resp outs
  = (acts, Ok (resp', outs')) ->
  resp' = resp.
Proof.
  induction calls as [|c calls IH]; intros resp outs acts resp' outs' Hs H.
  - cbn [run_tools] in H. injection H as _ <- _. reflexivity.
  - destruct (prepare_args user_id c resp) as [[args resp1]|e] eqn:E.
    + rewrite (run_tools_cons _ _ _ _ _ _ _ _ _ E) in H.
      destruct (run_tools MEDICATIONS USERS user_id calls resp1 _)
        as [acts1 r1] eqn:E1.
      cbn [fst snd] in H. injection H as _ ->.
      rewrite (IH _ _ _ _ _ (fun c' Hc' => Hs c' (or_intror Hc')) E1).
      apply (prepare_args_verbatim _ _ _ _ _ (Hs c (or_introl eq_refl)) E).
    + rewrite (run_tools_raise _ _ _ _ _ _ _ _ E) in H. discriminate.
Qed.

Lemma set_arguments_app args done it rest :
  set_arguments (List.length done) args (done ++ it :: rest)
  = done
    ++ {| i_type := i_type it; i_name := i_name it; i_arguments := args;
          i_call_id := i_call_id it; i_rest := i_rest it |} :: rest.
Proof.
  induction done as [|x done IH]; [reflexivity|].
  cbn [List.length app set_arguments]. rewrite IH. reflexivity.
Qed.

(** What the preparation of the call of an item leaves of the response:
    the item after the one update, every other item as it was. *)
Lemma prepare_args_item user_id done it rest resp args resp1 :
  name_is (i_type it) (py "function_call") = true ->
  output resp = Some (done ++ it :: rest) ->
  prepare_args user_id
    {| c_name := i_name it; c_arguments := i_arguments it;
       c_call_id := i_call_id it; c_item := List.length done |} resp
  = Ok (args, resp1) ->
  output resp1 = Some (done ++ inject_user_id user_id it :: rest).
Proof.
  intros Et Ho Hp. unfold inject_user_id. rewrite Et. cbn [andb].
  destruct (i_arguments it) as [| | | | s | l | d] eqn:Ea.
  1-6: (assert (E : resp1 = resp)
          by (refine (prepare_args_verbatim _ _ _ _ _ _ Hp); reflexivity);
        rewrite E, Ho;
        destruct (name_is (i_name it) (py "check_prescription"));
        reflexivity).
  unfold prepare_args in Hp. cbn [c_name c_arguments] in Hp.
  cbn [_normalize_args py_contains bind] in Hp.
  destruct (name_is (i_name it) (py "check_prescription"));
    [|injection Hp as _ <-; exact Ho].
  destruct (dict_mem (py "user_id") d); cbn [negb] in Hp.
  - injection Hp as _ <-. exact Ho.
  - cbn [py_setitem bind] in Hp. injection Hp as _ <-.
    unfold write_back. cbn [c_arguments c_item]. rewrite Ho.
    cbn [output]. rewrite set_arguments_app. reflexivity.
Qed.

(** The response after the tool loop: the items of the decision response,
    each after the one update. *)
Lemma run_tools_items MEDICATIONS USERS user_id :
  forall rest done resp outs acts resp' outs',
  output resp = Some (done ++ rest) ->
  run_tools MEDICATIONS USERS user_id
    (extract_from (List.length done) rest) resp outs
  = (acts, Ok (resp', outs')) ->
  output resp' = Some (done ++ map (inject_user_id user_id) rest).
Proof.
  induction rest as [|it rest IH]; intros done resp outs acts resp' outs' Ho H.
  - cbn [extract_from run_tools] in H. injection H as _ <- _. exact Ho.
  - cbn [extract_from] in H.
    assert (Hnext : forall resp1 outs1 acts1,
               output resp1
               = Some (done ++ inject_user_id user_id it :: rest) ->
               run_tools MEDICATIONS USERS user_id
                 (extract_from (S (List.length done)) rest) resp1 outs1
               = (acts1, Ok (resp', outs')) ->
               output resp'
               = Some (done ++ map (inject_user_id user_id) (it :: rest))).
    { intros resp1 outs1 acts1 Ho1 H1.
      replace (S (List.length done))
        with (List.length (done ++ [inject_user_id user_id it])) in H1
        by (rewrite length_app; cbn [List.length]; lia).
      rewrite (IH (done ++ [inject_user_id user_id it]) resp1 outs1 acts1
                 resp' outs').
      - rewrite <- app_assoc. reflexivity.
      - rewrite <- app_assoc. exact Ho1.
      - exact H1. }
    destruct (name_is (i_type it) (py "function_call")) eqn:Et.
    + destruct (prepare_args user_id
                  {| c_name := i_name it; c_arguments := i_arguments it;
                     c_call_id := i_call_id it;
                     c_item := List.length done |} resp)
        as [[args resp1]|e] eqn:Ep.
      * rewrite (run_tools_cons _ _ _ _ _ _ _ _ _ Ep) in H.
        injection H as _ H.
        destruct (run_tools MEDICATIONS USERS user_id
                    (extract_from (S (List.length done)) rest) resp1 _)
          as [acts1 r1] eqn:Hr.
        cbn [snd] in H. subst r1.
        exact (Hnext _ _ _ (prepare_args_item _ _ _ _ _ _ _ Et Ho Ep) Hr).
      * rewrite (run_tools_raise _ _ _ _ _ _ _ _ Ep) in H. discriminate.
    + apply (Hnext resp outs acts); [|exact H].
      unfold inject_user_id. rewrite Et. exact Ho.
Qed.

Lemma inject_verbatim user_id :
  forall items i,
  (forall c, In c (extract_from i items) -> updated_in_place c = false) ->
  map (inject_user_id user_id) items = items.
Proof.
  induction items as [|it items IH]; intros i H; [reflexivity|].
  cbn [map extract_from] in *.
  destruct (name_is (i_type it) (py "function_call")) eqn:Et.
  - rewrite (IH (S i)) by (intros c Hc; apply H; right; exact Hc).
    f_equal. specialize (H _ (or_introl eq_refl)).
    unfold updated_in_place in H. cbn [c_name c_arguments] in H.
    unfold inject_user_id. rewrite Et. cbn [andb].
    destruct (name_is (i_name it) (py "check_prescription"));
      [|reflexivity].
    cbn [andb] in H. destruct (i_arguments it); try reflexivity.
    destruct (dict_mem (py "user_id") d); [reflexivity|discriminate].
  - rewrite (IH (S i)) by exact H. f_equal.
    unfold inject_user_id. rewrite Et. reflexivity.
Qed.

(** C3, as the code has it.  Whenever a run makes the final call, its
    input is the base input, then the items of the decision response,
    then the function-call-output items.  The output items are one per
    extracted call, in the order of the calls, each with the call id of
    its call; so a call id occurs among them exactly once when the call
    ids of the extracted calls are distinct.  The items are those of the
    output of the decision call, in their order, each as it was returned
    but for the one update the loop makes: the item of a call named
    [check_prescription] that holds its arguments as a mapping without
    [user_id] comes with [user_id] put into that mapping.  When no
    extracted call is of that kind, the items are the output of the
    decision call as it was returned. *)
Theorem final_input_assembled (MEDICATIONS : list Db.medication)
  (USERS : list Db.user) (client : backend) (user_id user_message : str)
  (input : list input_item) :
  In (StreamingCall input ToolChoiceNone)
    (trace (stream_agent_reply MEDICATIONS USERS client
              user_id user_message)) ->
  exists user_res resp_output tool_outputs,
    get_user USERS (PStr user_id) = Ok user_res
    /\ (let base := base_input user_id user_res user_message in
        let resp := create client base in
        let calls := _extract_function_calls resp in
        input = base ++ map OutputItem resp_output
                ++ map FunctionCallOutput tool_outputs
        /\ output_ids input = map c_call_id calls
        /\ map o_call_id tool_outputs = map c_call_id calls
        /\ (NoDup (map c_call_id calls) ->
            forall c, In c calls ->
                      occurrences (c_call_id c) (output_ids input) = 1%nat)
        /\ (exists items,
               output resp = Some items
               /\ resp_output = map (inject_user_id user_id) items)
        /\ ((forall c, In c calls -> updated_in_place c = false) ->
            output resp = Some resp_output)).
Proof.
  destruct (get_user_str USERS user_id) as (user_res & Hu).
  destruct (truthy (found user_res)) eqn:Hf.
  2:{ rewrite (reply_unknown _ _ _ _ _ _ Hu Hf). cbn [trace In].
      intros [H|[]]. discriminate. }
  set (base := base_input user_id user_res user_message).
  destruct (_extract_function_calls (create client base)) as [|c0 calls0]
    eqn:Hc.
  { rewrite (reply_no_tools _ _ _ _ _ _ Hu Hf Hc). cbn [trace In].
    fold base. intros [H|[H|H]]; try discriminate.
    destruct (in_relay _ _ H) as (m & E & Hm). discriminate. }
  assert (Hc' : _extract_function_calls (create client base) <> [])
    by (rewrite Hc; discriminate).
  rewrite (reply_tools _ _ _ _ _ _ Hu Hf Hc'). fold base.
  pose proof (run_tools_actions MEDICATIONS USERS user_id
                (_extract_function_calls (create client base))
                (create client base) []) as Hacts.
  destruct (run_tools MEDICATIONS USERS user_id
              (_extract_function_calls (create client base))
              (create client base) []) as [acts [[resp' outs]|e]] eqn:Hrun.
  2:{ cbn [trace In fst] in *. intros [H|H]; [discriminate|].
      destruct (Hacts _ H) as (n & a & E). discriminate. }
  cbn [fst] in Hacts.
  assert (Hacts' : ~ In (StreamingCall input ToolChoiceNone) acts).
  { intros H. destruct (Hacts _ H) as (n & a & E). discriminate. }
  destruct (run_tools_call_ids _ _ _ _ _ _ _ _ Hrun) as [_ Hids].
  destruct (scan_outputs outs) as [[|]|e]; cbn [trace In].
  - intros [H|H]; [discriminate|]. apply in_app_or in H.
    destruct H as [H|[H|[]]]; [destruct (Hacts' H)|discriminate].
  - destruct (output resp') as [[|it items]|] eqn:Ho; cbn [trace In].
    + intros [H|H]; [discriminate|]. apply in_app_or in H.
      destruct H as [H|[H|[]]]; [destruct (Hacts' H)|discriminate].
    + intros [H|H]; [discriminate|]. apply in_app_or in H.
      destruct H as [H|[H|H]]; [destruct (Hacts' H)| |].
      2:{ destruct (in_relay _ _ H) as (m & E & Hm). discriminate. }
      injection H as <-.
      exists user_res, (it :: items), outs. split; [exact Hu|].
      cbn zeta. fold base.
      assert (Hoi : output_ids (final_input base (it :: items) outs)
                    = map c_call_id
                        (_extract_function_calls (create client base))).
      { rewrite (output_ids_final base user_id user_res user_message)
          by reflexivity. exact Hids. }
      split; [reflexivity|]. split; [exact Hoi|]. split; [exact Hids|].
      assert (Hitems : exists items0,
                 output (create client base) = Some items0
                 /\ it :: items = map (inject_user_id user_id) items0).
      { destruct (extract_nonempty _ Hc') as (n & Hn).
        destruct (output_length_S _ _ Hn) as (it0 & items0 & Ho0).
        exists (it0 :: items0). split; [exact Ho0|].
        unfold _extract_function_calls in Hrun. rewrite Ho0 in Hrun.
        pose proof (run_tools_items MEDICATIONS USERS user_id
                      (it0 :: items0) [] (create client base) [] acts
                      resp' outs Ho0 Hrun) as Hr.
        rewrite Ho in Hr. cbn [app] in Hr. congruence. }
      split; [|split].
      * intros Hnd c Hin. rewrite Hoi. unfold occurrences.
        apply (proj1 (NoDup_count_occ' id_eq_dec _) Hnd).
        apply in_map. exact Hin.
      * exact Hitems.
      * intros Hs. destruct Hitems as (items0 & Ho0 & ->).
        rewrite Ho0. f_equal. symmetry.
        apply (inject_verbatim user_id items0 0%nat).
        unfold _extract_function_calls in Hs. rewrite Ho0 in Hs. exact Hs.
    + intros [H|H]; [discriminate|]. apply in_app_or in H.
      destruct H as [H|[H|[]]]; [destruct (Hacts' H)|discriminate].
  - intros [H|H]; [discriminate|]. destruct (Hacts' H).
Qed.

Lemma final_input_assembled_witness :
  exists input,
    In (StreamingCall input ToolChoiceNone)
      (trace (stream_agent_reply Db.MEDICATIONS Db.USERS (scripted two_items)
                (py "u001") (py "do I need a prescription?")))
    /\ output_ids input = [Some (py "call_1"); Some (py "call_2")]
    /\ occurrences (Some (py "call_2")) (output_ids input) = 1%nat
    /\ exists base tool_outputs,
         input = base ++ map OutputItem two_items
                 ++ map FunctionCallOutput tool_outputs.
Proof.
  assert (H : exists input,
             In (StreamingCall input ToolChoiceNone)
               (trace (stream_agent_reply Db.MEDICATIONS Db.USERS
                         (scripted two_items) (py "u001")
                         (py "do I need a prescription?")))).
  { vm_compute. eexists. right. right. right. left. reflexivity. }
  destruct H as (input & Hin). exists input. split; [exact Hin|].
  destruct (final_input_assembled Db.MEDICATIONS Db.USERS (scripted two_items)
              (py "u001") (py "do I need a prescription?") input Hin)
    as (user_res & resp_output & tool_outputs & Hu & Hinput & Hids & _ & Hone
        & _ & Hverbatim).
  split; [exact Hids|]. split.
  - refine (Hone _ {| c_name := Some (py "check_stock");
                      c_arguments :=
                        PStr (dumps (PDict [(py "name",
                                             PStr (py "Paracetamol"))]));
                      c_call_id := Some (py "call_2");
                      c_item := 1 |} _).
    + vm_compute. apply NoDup_cons.
      * intros [H|H]; [discriminate H|exact H].
      * apply NoDup_cons; [intros H; exact H|apply NoDup_nil].
    + right. left. reflexivity.
  - assert (Hout : Some two_items = Some resp_output).
    { apply Hverbatim. intros c [<-|[<-|[]]]; reflexivity. }
    injection Hout as <-. eexists _, tool_outputs. exact Hinput.
Defined.

(** C3, as the claim has it, fails twice.  Two calls of one decision
    response that carry the same call id leave that id on two output
    items.  And a call that holds its arguments as a mapping is updated in
    place when [user_id] is put in, so that the item the final call gets
    is not the item the decision call returned. *)
Lemma final_input_not_as_claimed :
  ~ (forall input c,
        In (StreamingCall input ToolChoiceNone)
          (trace (stream_agent_reply Db.MEDICATIONS Db.USERS
                    (scripted same_id_items) (py "u001") (py "in stock?"))) ->
        In c (_extract_function_calls {| output := Some same_id_items |}) ->
        occurrences (c_call_id c) (output_ids input) = 1%nat)
  /\ ~ (forall input,
           In (StreamingCall input ToolChoiceNone)
             (trace (stream_agent_reply Db.MEDICATIONS Db.USERS
                       (scripted structured_items) (py "u001")
                       (py "do I need a prescription?"))) ->
           forall it, In it structured_items -> In (OutputItem it) input).
Proof.
  split; intros H.
  - assert (Hin : exists input,
               In (StreamingCall input ToolChoiceNone)
                 (trace (stream_agent_reply Db.MEDICATIONS Db.USERS
                           (scripted same_id_items) (py "u001")
                           (py "in stock?")))
               /\ occurrences (Some (py "call_1")) (output_ids input) = 2%nat).
    { vm_compute. eexists. split; [right; right; right; left; reflexivity|].
      vm_compute. reflexivity. }
    destruct Hin as (input & Hin & Htwo).
    specialize (H input
                  {| c_name := Some (py "check_stock");
                     c_arguments :=
                       PStr (dumps (PDict [(py "name",
                                            PStr (py "Paracetamol"))]));
                     c_call_id := Some (py "call_1");
                     c_item := 0 |} Hin (or_introl eq_refl)).
    cbn [c_call_id] in H. rewrite Htwo in H. discriminate.
  - assert (Hin : exists input,
               In (StreamingCall input ToolChoiceNone)
                 (trace (stream_agent_reply Db.MEDICATIONS Db.USERS
                           (scripted structured_items) (py "u001")
                           (py "do I need a prescription?")))
               /\ forall it, In (OutputItem it) input ->
                             i_arguments it
                             = PDict [(py "name", PStr (py "Amoxicillin"));
                                      (py "user_id", PStr (py "u001"))]).
    { vm_compute. eexists. split; [right; right; left; reflexivity|].
      intros it [Hit|[Hit|[Hit|[Hit|[Hit|[]]]]]]; try discriminate Hit.
      injection Hit as <-. reflexivity. }
    destruct Hin as (input & Hin & Hargs).
    specialize (H input Hin _ (or_introl eq_refl)).
    specialize (Hargs _ H). discriminate.
Qed.

(** The update in place, on a run: the decision response holds the
    arguments of its call as the mapping with [name] only; the item in the
    input of the final call holds [name] and [user_id]. *)
Example arguments_updated_in_place :
  final_call_input
    (trace (stream_agent_reply Db.MEDICATIONS Db.USERS
              (scripted structured_items) (py "u001")
              (py "do I need a prescription?")))
  = Some
      (base_input (py "u001")
         (PDict [(py "found", PBool true);
                 (py "user",
                  PDict [(py "user_id", PStr (py "u001"));
                         (py "name", PStr (py "Einat Shvartz"));
                         (py "prescriptions",
                          PList [PStr (py "Amoxicillin");
                                 PStr (py "Metformin")])])])
         (py "do I need a prescription?")
       ++ [OutputItem
             (function_call (py "check_prescription")
                (PDict [(py "name", PStr (py "Amoxicillin"));
                        (py "user_id", PStr (py "u001"))])
                (py "call_1"))]
       ++ [FunctionCallOutput
             {| o_call_id := Some (py "call_1");
                o_output :=
                  dumps (PDict [(py "ok", PBool true);
                                (py "name", PStr (py "Amoxicillin"));
                                (py "requires_prescription", PBool true);
                                (py "user_has_prescription", PBool true)]) |}]).
Proof. vm_compute. reflexivity. Qed.

(* ================================================================== *)
(** * The tool layer over any store *)

(** ** The two loops *)

Lemma scan_users_some uid us u :
  scan_users uid us = Some u ->
  exists pre post,
    us = pre ++ u :: post
    /\ Db.user_id u = uid
    /\ (forall u', In u' pre -> Db.user_id u' <> uid).
Proof.
  induction us as [|x us IH]; [discriminate|].
  cbn [scan_users]. destruct (str_eqb_spec (Db.user_id x) uid) as [E|N].
  - intros [= <-]. exists [], us. repeat split; [exact E|intros ? []].
  - intros H. destruct (IH H) as (pre & post & -> & E & Hp).
    exists (x :: pre), post. repeat split; [exact E|].
    intros u' [<-|Hu]; [exact N|exact (Hp _ Hu)].
Qed.

Lemma scan_users_none uid us :
  scan_users uid us = None -> forall u, In u us -> Db.user_id u <> uid.
Proof.
  induction us as [|x us IH]; intros H u Hu; [destruct Hu|].
  cbn [scan_users] in H.
  destruct (str_eqb_spec (Db.user_id x) uid) as [E|N]; [discriminate|].
  destruct Hu as [<-|Hu]; [exact N|exact (IH H _ Hu)].
Qed.

Lemma scan_meds_some key ms m :
  scan_meds key ms = Some m ->
  exists pre post,
    ms = pre ++ m :: post
    /\ lower (Db.name m) = key
    /\ (forall m', In m' pre -> lower (Db.name m') <> key).
Proof.
  induction ms as [|x ms IH]; [discriminate|].
  cbn [scan_meds]. destruct (str_eqb_spec (lower (Db.name x)) key) as [E|N].
  - intros [= <-]. exists [], ms. repeat split; [exact E|intros ? []].
  - intros H. destruct (IH H) as (pre & post & -> & E & Hp).
    exists (x :: pre), post. repeat split; [exact E|].
    intros m' [<-|Hm]; [exact N|exact (Hp _ Hm)].
Qed.

Lemma scan_meds_none key ms :
  scan_meds key ms = None -> forall m, In m ms -> lower (Db.name m) <> key.
Proof.
  induction ms as [|x ms IH]; intros H m Hm; [destruct Hm|].
  cbn [scan_meds] in H.
  destruct (str_eqb_spec (lower (Db.name x)) key) as [E|N]; [discriminate|].
  destruct Hm as [<-|Hm]; [exact N|exact (IH H _ Hm)].
Qed.

(** The lookups on a string. *)
Lemma find_user_str USERS q :
  _find_user_by_id USERS (PStr q)
  = Ok (match q with [] => None | _ => scan_users (strip q) USERS end).
Proof. destruct q; reflexivity. Qed.

Lemma find_med_str MEDICATIONS q :
  _find_med_by_name MEDICATIONS (PStr q)
  = Ok (match q with
        | [] => None
        | _ => scan_meds (lower (strip q)) MEDICATIONS
        end).
Proof. destruct q; reflexivity. Qed.

Lemma get_user_cases USERS user_id :
  get_user USERS user_id
  = match _find_user_by_id USERS user_id with
    | Ok (Some u) => Ok (user_envelope u)
    | Ok None => Ok (unknown_user (py "found") user_id)
    | Raise e => Raise e
    end.
Proof.
  unfold get_user. destruct (_find_user_by_id USERS user_id) as [[u|]|e];
    reflexivity.
Qed.

Lemma get_medication_cases MEDICATIONS name :
  get_medication_by_name MEDICATIONS name
  = match _find_med_by_name MEDICATIONS name with
    | Ok (Some m) => Ok (medication_envelope m)
    | Ok None => Ok (not_found (py "found") name)
    | Raise e => Raise e
    end.
Proof.
  unfold get_medication_by_name.
  destruct (_find_med_by_name MEDICATIONS name) as [[m|]|e]; reflexivity.
Qed.

Lemma check_stock_cases MEDICATIONS name :
  check_stock MEDICATIONS name
  = match _find_med_by_name MEDICATIONS name with
    | Ok (Some m) => Ok (stock_envelope m)
    | Ok None => Ok (not_found (py "found") name)
    | Raise e => Raise e
    end.
Proof.
  unfold check_stock.
  destruct (_find_med_by_name MEDICATIONS name) as [[m|]|e]; reflexivity.
Qed.

Lemma found_user_envelope u : found (user_envelope u) = PBool true.
Proof. reflexivity. Qed.
Lemma found_medication_envelope m : found (medication_envelope m) = PBool true.
Proof. reflexivity. Qed.
Lemma found_stock_envelope m : found (stock_envelope m) = PBool true.
Proof. reflexivity. Qed.
Lemma found_unknown_user v : found (unknown_user (py "found") v) = PBool false.
Proof. reflexivity. Qed.
Lemma found_not_found v : found (not_found (py "found") v) = PBool false.
Proof. reflexivity. Qed.

(** X1.  [get_user] on a string, over any store: the user is reported
    found exactly when the string is not empty and some record has the
    stripped string as its [user_id]; the record returned is the first
    such record of the store; otherwise the envelope is the
    [UNKNOWN_USER] one, whose message quotes the string as it was
    given. *)
Theorem get_user_characterised (USERS : list Db.user) (q : str) :
  exists res,
    get_user USERS (PStr q) = Ok res
    /\ (found res = PBool true
        <-> q <> [] /\ exists u, In u USERS /\ Db.user_id u = strip q)
    /\ (found res = PBool true ->
        exists u pre post,
          USERS = pre ++ u :: post
          /\ Db.user_id u = strip q
          /\ (forall u', In u' pre -> Db.user_id u' <> strip q)
          /\ res = user_envelope u)
    /\ (found res <> PBool true ->
        res = PDict [(py "found", PBool false);
                     (py "error",
                      error_body (py "UNKNOWN_USER")
                        (py "User '" ++ q ++ py "' not found"))]).
Proof.
  rewrite get_user_cases, find_user_str.
  destruct q as [|c q].
  { eexists; split; [reflexivity|]. rewrite found_unknown_user.
    repeat split; try discriminate; try reflexivity.
    intros [H _]; congruence. }
  destruct (scan_users (strip (c :: q)) USERS) as [u|] eqn:E.
  - eexists; split; [reflexivity|]. rewrite found_user_envelope.
    destruct (scan_users_some _ _ _ E) as (pre & post & EU & Eid & Hpre).
    repeat split; try discriminate; try congruence.
    + exists u. split; [|exact Eid]. rewrite EU. apply in_elt.
    + intros _. exists u, pre, post. repeat split; assumption.
  - eexists; split; [reflexivity|]. rewrite found_unknown_user.
    repeat split; try discriminate; try reflexivity.
    intros [_ (u & Hu & Eid)].
    exfalso. exact (scan_users_none _ _ E _ Hu Eid).
Qed.

(** X2.  [get_medication_by_name] on a string, over any store whose
    names are ASCII: the
    medication is reported found exactly when the string is not empty and
    the lower-cased name of some record is the stripped, lower-cased
    string; the record returned is the first such record, with all its
    members; otherwise the envelope is the [NOT_FOUND] one, whose message
    quotes the string as it was given. *)
Theorem get_medication_characterised (MEDICATIONS : list Db.medication)
  (q : str) :
  ascii_names MEDICATIONS = true ->
  exists res,
    get_medication_by_name MEDICATIONS (PStr q) = Ok res
    /\ (found res = PBool true
        <-> q <> []
            /\ exists m, In m MEDICATIONS
                         /\ lower (Db.name m) = lower (strip q))
    /\ (found res = PBool true ->
        exists m pre post,
          MEDICATIONS = pre ++ m :: post
          /\ lower (Db.name m) = lower (strip q)
          /\ (forall m', In m' pre ->
                         lower (Db.name m') <> lower (strip q))
          /\ res = medication_envelope m)
    /\ (found res <> PBool true ->
        res = PDict [(py "found", PBool false);
                     (py "error",
                      error_body (py "NOT_FOUND")
                        (py "Medication '" ++ q ++ py "' not found"))]).
Proof.
  intros _. rewrite get_medication_cases, find_med_str.
  destruct q as [|c q].
  { eexists; split; [reflexivity|]. rewrite found_not_found.
    repeat split; try discriminate; try reflexivity.
    intros [H _]; congruence. }
  destruct (scan_meds (lower (strip (c :: q))) MEDICATIONS) as [m|] eqn:E.
  - eexists; split; [reflexivity|]. rewrite found_medication_envelope.
    destruct (scan_meds_some _ _ _ E) as (pre & post & EM & Ename & Hpre).
    repeat split; try discriminate; try congruence.
    + exists m. split; [|exact Ename]. rewrite EM. apply in_elt.
    + intros _. exists m, pre, post. repeat split; assumption.
  - eexists; split; [reflexivity|]. rewrite found_not_found.
    repeat split; try discriminate; try reflexivity.
    intros [_ (m & Hm & Ename)].
    exfalso. exact (scan_meds_none _ _ E _ Hm Ename).
Qed.

(** X3.  [check_stock] and [get_medication_by_name] agree on every
    argument, over any store: one raises exactly when the other does, with
    the same exception; they report the same [found]; when the medication
    is found, the name and the stock [check_stock] gives are those of the
    record [get_medication_by_name] gives; when it is not, the two
    envelopes are the same. *)
Theorem check_stock_agrees (MEDICATIONS : list Db.medication)
  (name : pyval) :
  match get_medication_by_name MEDICATIONS name,
        check_stock MEDICATIONS name with
  | Ok med_res, Ok stock_res =>
      found stock_res = found med_res
      /\ (found med_res = PBool true ->
          exists m,
            In m MEDICATIONS
            /\ med_res = medication_envelope m
            /\ stock_res
               = PDict [(py "found", PBool true);
                        (py "name", PStr (Db.name m));
                        (py "stock", PInt (Db.stock m))])
      /\ (found med_res <> PBool true -> stock_res = med_res)
  | Raise e1, Raise e2 => e1 = e2
  | _, _ => False
  end.
Proof.
  rewrite get_medication_cases, check_stock_cases.
  destruct (_find_med_by_name MEDICATIONS name) as [[m|]|e] eqn:E;
    [| |reflexivity].
  - rewrite found_stock_envelope, found_medication_envelope.
    repeat split; [|congruence].
    intros _. exists m. repeat split.
    unfold _find_med_by_name in E.
    destruct (negb (truthy name)); [discriminate|].
    destruct (py_strip name) as [s|]; [|discriminate]. cbn [bind] in E.
    injection E as E.
    destruct (scan_meds_some _ _ _ E) as (pre & post & -> & _).
    apply in_elt.
  - rewrite found_not_found. repeat split. discriminate.
Qed.

Lemma check_prescription_cases MEDICATIONS USERS user_id name :
  check_prescription MEDICATIONS USERS user_id name
  = match _find_user_by_id USERS user_id with
    | Raise e => Raise e
    | Ok None => Ok (unknown_user (py "ok") user_id)
    | Ok (Some u) =>
        match _find_med_by_name MEDICATIONS name with
        | Raise e => Raise e
        | Ok None => Ok (not_found (py "ok") name)
        | Ok (Some m) =>
            Ok (PDict
                  [(py "ok", PBool true);
                   (py "name", PStr (Db.name m));
                   (py "requires_prescription",
                    PBool (Db.requires_prescription m));
                   (py "user_has_prescription",
                    PBool (existsb (Str.eqb (lower (strip (Db.name m))))
                             (map (fun x => lower (strip x))
                                (Db.prescriptions u))))])
        end
    end.
Proof.
  unfold check_prescription.
  destruct (_find_user_by_id USERS user_id) as [[u|]|e]; reflexivity.
Qed.

Lemma on_file_spec name prescriptions :
  existsb (Str.eqb (lower (strip name)))
    (map (fun x => lower (strip x)) prescriptions) = true
  <-> exists p, In p prescriptions
                /\ lower (strip p) = lower (strip name).
Proof.
  rewrite existsb_exists. split.
  - intros (x & Hx & E). apply in_map_iff in Hx.
    destruct Hx as (p & <- & Hp). exists p. split; [exact Hp|].
    symmetry. apply str_eqb_eq. exact E.
  - intros (p & Hp & E). exists (lower (strip p)). split.
    + apply in_map_iff. exists p. split; [reflexivity|exact Hp].
    + apply str_eqb_eq. symmetry. exact E.
Qed.

(** X4.  [check_prescription] in terms of [get_user] and
    [get_medication_by_name], over any store whose medication names are
    ASCII, for a user identifier that is a string.  The user is looked up first: when [get_user] does not
    find the user the result is the [UNKNOWN_USER] envelope whatever the
    medication name is (and even when the name would make the medication
    lookup raise).  With the user found, the result follows
    [get_medication_by_name]: its exception, the [NOT_FOUND] envelope, or
    the success envelope, which carries the canonical name and the
    [requires_prescription] of the record found, and whose
    [user_has_prescription] is true exactly when one of the user's
    prescriptions is the canonical name up to letter case and white
    space around it. *)
Theorem check_prescription_composes (MEDICATIONS : list Db.medication)
  (USERS : list Db.user) (user_id : str) (name : pyval) :
  ascii_names MEDICATIONS = true ->
  exists user_res,
    get_user USERS (PStr user_id) = Ok user_res
    /\ (found user_res <> PBool true ->
        check_prescription MEDICATIONS USERS (PStr user_id) name
        = Ok (PDict [(py "ok", PBool false);
                     (py "error",
                      error_body (py "UNKNOWN_USER")
                        (py "User '" ++ user_id ++ py "' not found"))]))
    /\ (found user_res = PBool true ->
        match get_medication_by_name MEDICATIONS name with
        | Raise e =>
            check_prescription MEDICATIONS USERS (PStr user_id) name
            = Raise e
        | Ok med_res =>
            (found med_res <> PBool true ->
             check_prescription MEDICATIONS USERS (PStr user_id) name
             = Ok (PDict [(py "ok", PBool false);
                          (py "error",
                           error_body (py "NOT_FOUND")
                             (medication_not_found name))]))
            /\ (found med_res = PBool true ->
                exists u m user_has,
                  user_res = user_envelope u
                  /\ med_res = medication_envelope m
                  /\ check_prescription MEDICATIONS USERS
                       (PStr user_id) name
                     = Ok (PDict
                             [(py "ok", PBool true);
                              (py "name", PStr (Db.name m));
                              (py "requires_prescription",
                               PBool (Db.requires_prescription m));
                              (py "user_has_prescription",
                               PBool user_has)])
                  /\ (user_has = true
                      <-> exists p,
                            In p (Db.prescriptions u)
                            /\ lower (strip p)
                               = lower (strip (Db.name m))))
        end).
Proof.
  intros _.
  rewrite get_user_cases, check_prescription_cases, get_medication_cases.
  rewrite find_user_str.
  set (user := match user_id with
               | [] => None
               | _ => scan_users (strip user_id) USERS
               end).
  destruct user as [u|].
  - eexists; split; [reflexivity|]. rewrite found_user_envelope.
    split; [congruence|]. intros _.
    destruct (_find_med_by_name MEDICATIONS name) as [[m|]|e];
      [| |reflexivity].
    + rewrite found_medication_envelope. split; [congruence|]. intros _.
      eexists u, m, _. repeat split; try reflexivity;
        apply on_file_spec.
    + rewrite found_not_found. split; [reflexivity|discriminate].
  - eexists; split; [reflexivity|]. rewrite found_unknown_user.
    split; [reflexivity|discriminate].
Qed.

(** X5.  The tools on an argument that is no string, over any store.  A
    value that is false ([None], [False], [0], a zero float, the empty
    list or dictionary) is answered like a record that is absent, with the
    value formatted into the message; any other value raises the
    [AttributeError] of its missing [strip] method, in the four tools
    alike. *)
Theorem tools_non_string_input (MEDICATIONS : list Db.medication)
  (USERS : list Db.user) (v : pyval) :
  (forall s, v <> PStr s) ->
  (truthy v = false ->
   get_user USERS v
   = Ok (PDict [(py "found", PBool false);
                (py "error",
                 error_body (py "UNKNOWN_USER")
                   (py "User '" ++ py_format v ++ py "' not found"))])
   /\ get_medication_by_name MEDICATIONS v
      = Ok (PDict [(py "found", PBool false);
                   (py "error",
                    error_body (py "NOT_FOUND")
                      (py "Medication '" ++ py_format v
                       ++ py "' not found"))])
   /\ check_stock MEDICATIONS v
      = get_medication_by_name MEDICATIONS v
   /\ (forall name,
         check_prescription MEDICATIONS USERS v name
         = Ok (PDict [(py "ok", PBool false);
                      (py "error",
                       error_body (py "UNKNOWN_USER")
                         (py "User '" ++ py_format v
                          ++ py "' not found"))])))
  /\ (truthy v = true ->
      get_user USERS v = Raise (no_strip v)
      /\ get_medication_by_name MEDICATIONS v = Raise (no_strip v)
      /\ check_stock MEDICATIONS v = Raise (no_strip v)
      /\ (forall name,
            check_prescription MEDICATIONS USERS v name
            = Raise (no_strip v))).
Proof.
  intros Hv. split; intros Ht.
  - assert (Eu : _find_user_by_id USERS v = Ok None)
      by (unfold _find_user_by_id; rewrite Ht; reflexivity).
    assert (Em : _find_med_by_name MEDICATIONS v = Ok None)
      by (unfold _find_med_by_name; rewrite Ht; reflexivity).
    rewrite get_user_cases, get_medication_cases, check_stock_cases, Eu, Em.
    repeat split. intros name.
    rewrite check_prescription_cases, Eu. reflexivity.
  - assert (Es : py_strip v = Raise (no_strip v))
      by (destruct v; try reflexivity; exfalso; eapply Hv; reflexivity).
    assert (Eu : _find_user_by_id USERS v = Raise (no_strip v))
      by (unfold _find_user_by_id; rewrite Ht, Es; reflexivity).
    assert (Em : _find_med_by_name MEDICATIONS v = Raise (no_strip v))
      by (unfold _find_med_by_name; rewrite Ht, Es; reflexivity).
    rewrite get_user_cases, get_medication_cases, check_stock_cases, Eu, Em.
    repeat split. intros name.
    rewrite check_prescription_cases, Eu. reflexivity.
Qed.

Lemma tools_non_string_input_witness :
  (get_user Db.USERS PNone
   = Ok (PDict [(py "found", PBool false);
                (py "error",
                 error_body (py "UNKNOWN_USER")
                   (py "User 'None' not found"))]))
  /\ (get_medication_by_name Db.MEDICATIONS (PInt 5)
      = Raise (AttributeError
                 (py "'int' object has no attribute 'strip'"))).
Proof.
  split.
  - refine (proj1 (proj1 (tools_non_string_input Db.MEDICATIONS Db.USERS
                            PNone _) _)); [discriminate|reflexivity].
  - refine (proj1 (proj2 (proj2 (tools_non_string_input Db.MEDICATIONS
                                   Db.USERS (PInt 5) _) _)));
      [discriminate|reflexivity].
Defined.

(** ** A record and its own key *)

Lemma scan_meds_stored ms m :
  NoDup (map (fun m => lower (Db.name m)) ms) -> In m ms ->
  scan_meds (lower (Db.name m)) ms = Some m.
Proof.
  induction ms as [|x ms IH]; intros Hnd Hin; [destruct Hin|].
  cbn [map] in Hnd. inversion Hnd as [|? ? Hx Hnd']; subst.
  cbn [scan_meds].
  destruct (str_eqb_spec (lower (Db.name x)) (lower (Db.name m))) as [E|N].
  - destruct Hin as [->|Hin]; [reflexivity|].
    exfalso. apply Hx. rewrite E.
    apply (in_map (fun m => lower (Db.name m))). exact Hin.
  - destruct Hin as [->|Hin]; [congruence|]. exact (IH Hnd' Hin).
Qed.

Lemma scan_users_stored us u :
  NoDup (map Db.user_id us) -> In u us ->
  scan_users (Db.user_id u) us = Some u.
Proof.
  induction us as [|x us IH]; intros Hnd Hin; [destruct Hin|].
  cbn [map] in Hnd. inversion Hnd as [|? ? Hx Hnd']; subst.
  cbn [scan_users].
  destruct (str_eqb_spec (Db.user_id x) (Db.user_id u)) as [E|N].
  - destruct Hin as [->|Hin]; [reflexivity|].
    exfalso. apply Hx. rewrite E. apply in_map. exact Hin.
  - destruct Hin as [->|Hin]; [congruence|]. exact (IH Hnd' Hin).
Qed.

(** X6.  A medication is found under its own name.  Over any store whose
    names are ASCII and differ pairwise when lower-cased: for a record
    whose name is not
    empty and has no white space around it, [get_medication_by_name] on
    that name returns the record itself, with all its members, and
    [check_stock] returns its name and its stock. *)
Theorem stored_medication_found (MEDICATIONS : list Db.medication)
  (m : Db.medication) :
  In m MEDICATIONS ->
  ascii_names MEDICATIONS = true ->
  NoDup (map (fun m => lower (Db.name m)) MEDICATIONS) ->
  Db.name m <> [] ->
  strip (Db.name m) = Db.name m ->
  get_medication_by_name MEDICATIONS (PStr (Db.name m))
  = Ok (medication_envelope m)
  /\ check_stock MEDICATIONS (PStr (Db.name m))
     = Ok (PDict [(py "found", PBool true);
                  (py "name", PStr (Db.name m));
                  (py "stock", PInt (Db.stock m))]).
Proof.
  intros Hin _ Hnd Hne Hs.
  rewrite get_medication_cases, check_stock_cases, find_med_str, Hs.
  destruct (Db.name m) as [|c t] eqn:E; [congruence|].
  rewrite <- E, (scan_meds_stored _ _ Hnd Hin). split; reflexivity.
Qed.

Lemma stored_medication_found_witness :
  get_medication_by_name Db.MEDICATIONS (PStr (py "Ibuprofen"))
  = Ok (medication_envelope Db.ibuprofen)
  /\ check_stock Db.MEDICATIONS (PStr (py "Ibuprofen"))
     = Ok (PDict [(py "found", PBool true);
                  (py "name", PStr (py "Ibuprofen"));
                  (py "stock", PInt 18)]).
Proof.
  refine (stored_medication_found Db.MEDICATIONS Db.ibuprofen _ _ _ _ _).
  - simpl. tauto.
  - reflexivity.
  - vm_compute.
    repeat (apply NoDup_cons;
            [simpl; intuition discriminate|]).
    apply NoDup_nil.
  - discriminate.
  - reflexivity.
Defined.

(** X7.  A user is found under their own identifier.  Over any store
    whose identifiers differ pairwise: for a record whose [user_id] is not
    empty and has no white space around it, [get_user] on that identifier
    returns the record itself: its identifier, its name and its
    prescriptions in their order. *)
Theorem stored_user_found (USERS : list Db.user) (u : Db.user) :
  In u USERS ->
  NoDup (map Db.user_id USERS) ->
  Db.user_id u <> [] ->
  strip (Db.user_id u) = Db.user_id u ->
  get_user USERS (PStr (Db.user_id u))
  = Ok (PDict [(py "found", PBool true);
               (py "user",
                PDict [(py "user_id", PStr (Db.user_id u));
                       (py "name", PStr (Db.user_name u));
                       (py "prescriptions",
                        PList (map PStr (Db.prescriptions u)))])]).
Proof.
  intros Hin Hnd Hne Hs.
  rewrite get_user_cases, find_user_str, Hs.
  destruct (Db.user_id u) as [|c t] eqn:E; [congruence|].
  rewrite <- E, (scan_users_stored _ _ Hnd Hin). reflexivity.
Qed.

Lemma stored_user_found_witness :
  get_user Db.USERS (PStr (py "u005"))
  = Ok (PDict [(py "found", PBool true);
               (py "user",
                PDict [(py "user_id", PStr (py "u005"));
                       (py "name", PStr (py "Lea London"));
                       (py "prescriptions", PList [PStr (py "Metformin")])])]).
Proof.
  refine (stored_user_found Db.USERS Db.u005 _ _ _ _).
  - simpl. tauto.
  - vm_compute.
    repeat (apply NoDup_cons;
            [simpl; intuition discriminate|]).
    apply NoDup_nil.
  - discriminate.
  - reflexivity.
Defined.

(** ** The shipped dataset *)

(** X8.  [check_prescription] over the whole shipped dataset.  For every
    user of [USERS] and every medication of [MEDICATIONS], the check
    succeeds under the user's identifier and the medication's name; it
    carries the medication's name and its [requires_prescription]; it
    reports a prescription on file exactly when the medication's name is
    in the user's [prescriptions]; and a prescription is on file only
    for a medication that requires one. *)
Theorem shipped_prescriptions_checked (u : Db.user) (m : Db.medication) :
  In u Db.USERS -> In m Db.MEDICATIONS ->
  exists user_has,
    check_prescription Db.MEDICATIONS Db.USERS
      (PStr (Db.user_id u)) (PStr (Db.name m))
    = Ok (PDict [(py "ok", PBool true);
                 (py "name", PStr (Db.name m));
                 (py "requires_prescription",
                  PBool (Db.requires_prescription m));
                 (py "user_has_prescription", PBool user_has)])
    /\ (user_has = true <-> In (Db.name m) (Db.prescriptions u))
    /\ (user_has = true -> Db.requires_prescription m = true).
Proof.
  intros Hu Hm.
  repeat (destruct Hu as [<-|Hu]); try destruct Hu;
    repeat (destruct Hm as [<-|Hm]); try destruct Hm;
    (eexists; split; [vm_compute; reflexivity|]);
    (split; [split; [try discriminate; intros _; simpl; tauto
                    |try reflexivity; vm_compute; intuition discriminate]
            |try reflexivity; discriminate]).
Qed.

Lemma shipped_prescriptions_checked_witness :
  exists user_has,
    check_prescription Db.MEDICATIONS Db.USERS
      (PStr (py "u009")) (PStr (py "Metformin"))
    = Ok (PDict [(py "ok", PBool true);
                 (py "name", PStr (py "Metformin"));
                 (py "requires_prescription", PBool true);
                 (py "user_has_prescription", PBool user_has)])
    /\ (user_has = true <-> In (py "Metformin") [py "Metformin"])
    /\ (user_has = true -> true = true).
Proof.
  refine (shipped_prescriptions_checked Db.u009 Db.metformin _ _);
    simpl; tauto.
Defined.

(** ** A query of white space only *)

Lemma lower_nil s : lower s = [] -> s = [].
Proof.
  destruct s as [|c s]; [reflexivity|].
  unfold lower. cbn [flat_map]. unfold lower_cp.
  destruct ((65 <=? c) && (c <=? 90)); [discriminate|].
  destruct (c =? 8490); [discriminate|].
  destruct (c =? 304); discriminate.
Qed.

Lemma strip_blank q : blank q -> strip q = [].
Proof.
  intros H. unfold strip. rewrite (lstrip_blank_nil q H). reflexivity.
Qed.

(** X9.  A query of white space only is not the empty query: it passes
    the test [if not name] and is stripped to the empty string, which is
    then looked for.  Over any store with no empty name and no empty
    identifier, the three lookups report the record absent, and the
    message quotes the white space as it was given. *)
Theorem blank_query_not_found (MEDICATIONS : list Db.medication)
  (USERS : list Db.user) (q : str) :
  blank q ->
  Forall (fun m => Db.name m <> []) MEDICATIONS ->
  Forall (fun u => Db.user_id u <> []) USERS ->
  get_user USERS (PStr q)
  = Ok (PDict [(py "found", PBool false);
               (py "error",
                error_body (py "UNKNOWN_USER")
                  (py "User '" ++ q ++ py "' not found"))])
  /\ get_medication_by_name MEDICATIONS (PStr q)
     = Ok (PDict [(py "found", PBool false);
                  (py "error",
                   error_body (py "NOT_FOUND")
                     (py "Medication '" ++ q ++ py "' not found"))])
  /\ check_stock MEDICATIONS (PStr q)
     = get_medication_by_name MEDICATIONS (PStr q)
  /\ (forall name,
        check_prescription MEDICATIONS USERS (PStr q) name
        = Ok (PDict [(py "ok", PBool false);
                     (py "error",
                      error_body (py "UNKNOWN_USER")
                        (py "User '" ++ q ++ py "' not found"))])).
Proof.
  intros Hb HM HU.
  assert (Eu : _find_user_by_id USERS (PStr q) = Ok None).
  { rewrite find_user_str. destruct q as [|c q]; [reflexivity|].
    rewrite (strip_blank _ Hb).
    destruct (scan_users [] USERS) as [u|] eqn:E; [|reflexivity].
    destruct (scan_users_some _ _ _ E) as (pre & post & -> & Eid & _).
    apply Forall_elt in HU. congruence. }
  assert (Em : _find_med_by_name MEDICATIONS (PStr q) = Ok None).
  { rewrite find_med_str. destruct q as [|c q]; [reflexivity|].
    rewrite (strip_blank _ Hb).
    destruct (scan_meds (lower []) MEDICATIONS) as [m|] eqn:E;
      [|reflexivity].
    destruct (scan_meds_some _ _ _ E) as (pre & post & -> & Ename & _).
    apply Forall_elt in HM. apply lower_nil in Ename. congruence. }
  rewrite get_user_cases, get_medication_cases, check_stock_cases, Eu, Em.
  repeat split. intros name.
  rewrite check_prescription_cases, Eu. reflexivity.
Qed.

Lemma blank_query_not_found_witness :
  get_user Db.USERS (PStr (py "  "))
  = Ok (PDict [(py "found", PBool false);
               (py "error",
                error_body (py "UNKNOWN_USER")
                  (py "User '  ' not found"))])
  /\ get_medication_by_name Db.MEDICATIONS (PStr (py "  "))
     = Ok (PDict [(py "found", PBool false);
                  (py "error",
                   error_body (py "NOT_FOUND")
                     (py "Medication '  ' not found"))]).
Proof.
  assert (HM : Forall (fun m => Db.name m <> []) Db.MEDICATIONS)
    by (repeat constructor; discriminate).
  assert (HU : Forall (fun u => Db.user_id u <> []) Db.USERS)
    by (repeat constructor; discriminate).
  pose proof (blank_query_not_found Db.MEDICATIONS Db.USERS (py "  ")
                blank_spaces HM HU) as H.
  exact (conj (proj1 H) (proj1 (proj2 H))).
Defined.

(** X24.  The shipped dataset is well formed, as the lookups need it.  The
    user identifiers differ pairwise, and so do the medication names
    when lower-cased; no identifier and no name is empty or has white
    space around it; no stock is negative; and every prescription of
    every user is the name of a medication of [MEDICATIONS], one that
    requires a prescription. *)
Theorem shipped_store_well_formed :
  NoDup (map Db.user_id Db.USERS)
  /\ NoDup (map (fun m => lower (Db.name m)) Db.MEDICATIONS)
  /\ Forall (fun u => Db.user_id u <> []
                      /\ strip (Db.user_id u) = Db.user_id u) Db.USERS
  /\ Forall (fun m => Db.name m <> []
                      /\ strip (Db.name m) = Db.name m) Db.MEDICATIONS
  /\ Forall (fun m => (0 <= Db.stock m)%Z) Db.MEDICATIONS
  /\ (forall u p,
        In u Db.USERS -> In p (Db.prescriptions u) ->
        exists m,
          In m Db.MEDICATIONS
          /\ Db.name m = p
          /\ Db.requires_prescription m = true).
Proof.
  split; [|split; [|split; [|split; [|split]]]].
  - vm_compute.
    repeat (apply NoDup_cons; [simpl; intuition discriminate|]).
    apply NoDup_nil.
  - vm_compute.
    repeat (apply NoDup_cons; [simpl; intuition discriminate|]).
    apply NoDup_nil.
  - repeat constructor; discriminate.
  - repeat constructor; discriminate.
  - repeat constructor; discriminate.
  - intros u p Hu Hp.
    repeat (destruct Hu as [<-|Hu]); try destruct Hu;
      cbn [Db.prescriptions Db.u001 Db.u002 Db.u003 Db.u004 Db.u005
             Db.u006 Db.u007 Db.u008 Db.u009 Db.u010] in Hp;
      repeat (destruct Hp as [<-|Hp]); try destruct Hp;
      first [ exists Db.amoxicillin; repeat split; simpl; tauto
            | exists Db.metformin; repeat split; simpl; tauto ].
Qed.

Lemma shipped_store_well_formed_witness :
  exists m,
    In m Db.MEDICATIONS
    /\ Db.name m = py "Metformin"
    /\ Db.requires_prescription m = true.
Proof.
  refine (proj2 (proj2 (proj2 (proj2 (proj2 shipped_store_well_formed))))
            Db.u005 (py "Metformin") _ _); simpl; tauto.
Defined.

(** ** The general statements at records of the shipped dataset *)

Lemma get_user_characterised_witness :
  exists res,
    get_user Db.USERS (PStr (py " u002 ")) = Ok res
    /\ found res = PBool true
    /\ exists u pre post,
         Db.USERS = pre ++ u :: post
         /\ Db.user_id u = strip (py " u002 ")
         /\ res = user_envelope u.
Proof.
  destruct (get_user_characterised Db.USERS (py " u002 "))
    as (res & Hres & Hiff & Hfound & _).
  exists res. split; [exact Hres|].
  assert (Hf : found res = PBool true).
  { apply Hiff. split; [discriminate|]. exists Db.u002.
    split; [simpl; tauto|reflexivity]. }
  split; [exact Hf|].
  destruct (Hfound Hf) as (u & pre & post & E & Eid & _ & Er).
  exists u, pre, post. repeat split; assumption.
Defined.

Lemma get_medication_characterised_witness :
  exists res,
    get_medication_by_name Db.MEDICATIONS (PStr (py " IBUPROFEN ")) = Ok res
    /\ found res = PBool true
    /\ exists m pre post,
         Db.MEDICATIONS = pre ++ m :: post
         /\ lower (Db.name m) = lower (strip (py " IBUPROFEN "))
         /\ res = medication_envelope m.
Proof.
  destruct (get_medication_characterised Db.MEDICATIONS (py " IBUPROFEN ")
              eq_refl)
    as (res & Hres & Hiff & Hfound & _).
  exists res. split; [exact Hres|].
  assert (Hf : found res = PBool true).
  { apply Hiff. split; [discriminate|]. exists Db.ibuprofen.
    split; [simpl; tauto|reflexivity]. }
  split; [exact Hf|].
  destruct (Hfound Hf) as (m & pre & post & E & Ename & _ & Er).
  exists m, pre, post. repeat split; assumption.
Defined.

Lemma check_stock_agrees_witness :
  exists m,
    In m Db.MEDICATIONS
    /\ get_medication_by_name Db.MEDICATIONS (PStr (py "Paracetamol"))
       = Ok (medication_envelope m)
    /\ check_stock Db.MEDICATIONS (PStr (py "Paracetamol"))
       = Ok (PDict [(py "found", PBool true);
                    (py "name", PStr (Db.name m));
                    (py "stock", PInt (Db.stock m))]).
Proof.
  pose proof (check_stock_agrees Db.MEDICATIONS (PStr (py "Paracetamol")))
    as H.
  change (get_medication_by_name Db.MEDICATIONS (PStr (py "Paracetamol")))
    with (Ok (medication_envelope Db.paracetamol)) in H.
  change (check_stock Db.MEDICATIONS (PStr (py "Paracetamol")))
    with (Ok (stock_envelope Db.paracetamol)) in H.
  cbv beta iota in H. destruct H as (_ & H & _).
  destruct (H eq_refl) as (m & Hin & Em & Es).
  exists m. split; [exact Hin|].
  split; [exact (f_equal Ok Em)|exact (f_equal Ok Es)].
Defined.

Lemma check_prescription_composes_witness :
  exists u m user_has,
    check_prescription Db.MEDICATIONS Db.USERS
      (PStr (py "u001")) (PStr (py "amoxicillin"))
    = Ok (PDict [(py "ok", PBool true);
                 (py "name", PStr (Db.name m));
                 (py "requires_prescription",
                  PBool (Db.requires_prescription m));
                 (py "user_has_prescription", PBool user_has)])
    /\ (user_has = true
        <-> exists p,
              In p (Db.prescriptions u)
              /\ lower (strip p) = lower (strip (Db.name m))).
Proof.
  destruct (check_prescription_composes Db.MEDICATIONS Db.USERS
              (py "u001") (PStr (py "amoxicillin")) eq_refl)
    as (user_res & Hu & _ & H).
  change (get_user Db.USERS (PStr (py "u001")))
    with (Ok (user_envelope Db.u001)) in Hu.
  injection Hu as <-.
  specialize (H eq_refl).
  change (get_medication_by_name Db.MEDICATIONS (PStr (py "amoxicillin")))
    with (Ok (medication_envelope Db.amoxicillin)) in H.
  cbv beta iota in H. destruct H as (_ & H).
  destruct (H eq_refl) as (u & m & user_has & _ & _ & Hc & Hiff).
  exists u, m, user_has. split; assumption.
Defined.

(* ================================================================== *)
(** * The orchestration core, path by path *)

(** ** Extraction of the function calls *)

Lemma extract_from_fields : forall items i,
  map (fun c => (c_name c, c_arguments c, c_call_id c)) (extract_from i items)
  = map (fun it => (i_name it, i_arguments it, i_call_id it))
      (filter is_function_call items).
Proof.
  induction items as [|it items IH]; intros i; [reflexivity|].
  cbn [extract_from filter]. unfold is_function_call at 1.
  destruct (name_is (i_type it) (py "function_call")); cbn [map];
    rewrite IH; reflexivity.
Qed.

Lemma extract_from_items : forall items i c,
  In c (extract_from i items) ->
  (i <= c_item c)%nat
  /\ exists it,
       nth_error items (c_item c - i) = Some it
       /\ is_function_call it = true
       /\ i_name it = c_name c
       /\ i_arguments it = c_arguments c
       /\ i_call_id it = c_call_id c.
Proof.
  induction items as [|it items IH]; intros i c Hc; [destruct Hc|].
  cbn [extract_from] in Hc.
  assert (Hrest : In c (extract_from (S i) items) ->
                  (i <= c_item c)%nat
                  /\ exists it0,
                       nth_error (it :: items) (c_item c - i) = Some it0
                       /\ is_function_call it0 = true
                       /\ i_name it0 = c_name c
                       /\ i_arguments it0 = c_arguments c
                       /\ i_call_id it0 = c_call_id c).
  { intros H. destruct (IH _ _ H) as (Hle & it0 & Hn & Hrest).
    split; [lia|]. exists it0. split; [|exact Hrest].
    replace (c_item c - i)%nat with (S (c_item c - S i)) by lia.
    exact Hn. }
  destruct (name_is (i_type it) (py "function_call")) eqn:E;
    [|exact (Hrest Hc)].
  destruct Hc as [<-|Hc]; [|exact (Hrest Hc)].
  cbn [c_item c_name c_arguments c_call_id]. split; [lia|].
  exists it. rewrite Nat.sub_diag. repeat split. exact E.
Qed.

Lemma extract_function_calls_nil resp :
  _extract_function_calls resp = []
  <-> forall it, In it (items_of resp) -> is_function_call it = false.
Proof.
  unfold _extract_function_calls, items_of.
  destruct (output resp) as [items|];
    [|split; [intros _ it []|reflexivity]].
  pose proof (extract_from_fields items 0%nat) as F. split.
  - intros E it Hit. rewrite E in F. cbn [map] in F.
    destruct (is_function_call it) eqn:Ef; [|reflexivity].
    assert (Hf : In it (filter is_function_call items))
      by (apply filter_In; split; assumption).
    symmetry in F. apply map_eq_nil in F. rewrite F in Hf. destruct Hf.
  - intros H.
    assert (Ef : filter is_function_call items = []).
    { clear F. induction items as [|it items IH]; [reflexivity|].
      cbn [filter]. rewrite (H it (or_introl eq_refl)).
      apply IH. intros it' Hit'. apply H. right. exact Hit'. }
    rewrite Ef in F. cbn [map] in F. apply map_eq_nil in F. exact F.
Qed.

(** X10.  [_extract_function_calls]: the calls are the items of type
    [function_call] of the output, in the order of the output, each with
    the name, the arguments and the call id of its item (and an item
    that lacks one gives [None] for it); items of any other type give no
    call; an output that is [None] or empty gives no call. *)
Theorem extract_function_calls_spec (resp : response) :
  map (fun c => (c_name c, c_arguments c, c_call_id c))
    (_extract_function_calls resp)
  = map (fun it => (i_name it, i_arguments it, i_call_id it))
      (filter is_function_call (items_of resp))
  /\ (forall c,
        In c (_extract_function_calls resp) ->
        exists it,
          nth_error (items_of resp) (c_item c) = Some it
          /\ is_function_call it = true
          /\ i_name it = c_name c
          /\ i_arguments it = c_arguments c
          /\ i_call_id it = c_call_id c)
  /\ (_extract_function_calls resp = []
      <-> forall it, In it (items_of resp) -> is_function_call it = false).
Proof.
  split; [|split; [|apply extract_function_calls_nil]].
  - unfold _extract_function_calls, items_of.
    destruct (output resp) as [items|]; [|reflexivity].
    apply extract_from_fields.
  - unfold _extract_function_calls, items_of.
    destruct (output resp) as [items|]; [|intros c []].
    intros c Hc. destruct (extract_from_items _ _ _ Hc) as (_ & it & Hn & H).
    rewrite Nat.sub_0_r in Hn. exists it. split; assumption.
Qed.

(** ** The relay of a stream *)

Lemma relay_no_error events :
  forallb (fun e => negb (is_error e)) events = true ->
  relay events = map Yield (deltas events).
Proof.
  induction events as [|e events IH]; intros H; [reflexivity|].
  cbn [forallb] in H. apply andb_true_iff in H. destruct H as [He H].
  destruct e; cbn [relay deltas flat_map app map];
    [rewrite (IH H); reflexivity|discriminate|exact (IH H)].
Qed.

Lemma relay_error pre post :
  forallb (fun e => negb (is_error e)) pre = true ->
  relay (pre ++ ResponseError :: post)
  = map Yield (deltas pre) ++ [Yield StreamErrorMessage].
Proof.
  induction pre as [|e pre IH]; intros H; [reflexivity|].
  cbn [forallb] in H. apply andb_true_iff in H. destruct H as [He H].
  destruct e; cbn [relay deltas flat_map app map];
    [rewrite (IH H); reflexivity|discriminate|exact (IH H)].
Qed.

Lemma yielded_yields ms : yielded (map Yield ms) = ms.
Proof.
  induction ms as [|m ms IH]; [reflexivity|].
  cbn [map yielded flat_map app]. f_equal. exact IH.
Qed.

(** X11.  The relay of a backend stream (both streaming loops).  Of a
    stream with no error event, the text deltas are yielded in their
    order and nothing else is; events of any other type are skipped.  At
    the first error event the fixed error line is yielded after the
    deltas that came before it, and the relay ends: whatever the stream
    holds after the error event is not relayed. *)
Theorem relay_until_error :
  (forall events,
      forallb (fun e => negb (is_error e)) events = true ->
      relay events = map Yield (deltas events)
      /\ yielded (relay events) = deltas events)
  /\ (forall pre post,
        forallb (fun e => negb (is_error e)) pre = true ->
        relay (pre ++ ResponseError :: post)
        = map Yield (deltas pre) ++ [Yield StreamErrorMessage]
        /\ yielded (relay (pre ++ ResponseError :: post))
           = deltas pre ++ [StreamErrorMessage]).
Proof.
  split.
  - intros events H. rewrite (relay_no_error _ H). split; [reflexivity|].
    apply yielded_yields.
  - intros pre post H. rewrite (relay_error _ post H). split; [reflexivity|].
    rewrite yielded_app, yielded_yields. reflexivity.
Qed.

Lemma relay_until_error_witness :
  yielded (relay [OutputTextDelta (py "a"); OtherEvent;
                  OutputTextDelta (py "b")])
  = [TextDelta (py "a"); TextDelta (py "b")]
  /\ yielded (relay ([OutputTextDelta (py "a")]
                     ++ ResponseError :: [OutputTextDelta (py "b")]))
     = [TextDelta (py "a")] ++ [StreamErrorMessage].
Proof.
  split.
  - refine (proj2 (proj1 relay_until_error
                     [OutputTextDelta (py "a"); OtherEvent;
                      OutputTextDelta (py "b")] _)).
    reflexivity.
  - refine (proj2 (proj2 relay_until_error [OutputTextDelta (py "a")]
                     [OutputTextDelta (py "b")] _)).
    reflexivity.
Defined.

(** ** The paths of a run *)

(** X12.  The path without tools.  For a request that passes the gate
    and a decision response with no item of type [function_call]
    (whatever else its output holds): the run is the decision call, then
    one streaming call without tools on the same base input, then the
    relay of that stream.  The items of the decision response are not
    passed on, no tool is dispatched, and nothing is raised. *)
Theorem no_tools_path (MEDICATIONS : list Db.medication)
  (USERS : list Db.user) (client : backend) (user_id user_message : str)
  (user_res : pyval) :
  get_user USERS (PStr user_id) = Ok user_res ->
  truthy (found user_res) = true ->
  let base := base_input user_id user_res user_message in
  (forall it, In it (items_of (create client base)) ->
              is_function_call it = false) ->
  let r := stream_agent_reply MEDICATIONS USERS client user_id user_message in
  trace r
  = DecisionCall base :: StreamingCall base NoTools
    :: relay (stream client base NoTools)
  /\ model_calls (trace r) = [DecisionCall base; StreamingCall base NoTools]
  /\ dispatches (trace r) = []
  /\ yielded (trace r) = yielded (relay (stream client base NoTools))
  /\ raised r = None.
Proof.
  intros Hu Hf base Hitems r.
  apply extract_function_calls_nil in Hitems.
  unfold r. rewrite (reply_no_tools _ _ _ _ _ _ Hu Hf Hitems).
  cbn [trace raised]. fold base. repeat split.
  - cbn [model_calls filter]. fold (model_calls (relay (stream client base NoTools))).
    rewrite relay_model_calls. reflexivity.
  - cbn [dispatches filter]. fold (dispatches (relay (stream client base NoTools))).
    rewrite relay_dispatches. reflexivity.
Qed.

Lemma no_tools_path_witness :
  exists base,
    model_calls (trace (stream_agent_reply Db.MEDICATIONS Db.USERS
                          (scripted [message_item]) (py "u001")
                          (py "hello")))
    = [DecisionCall base; StreamingCall base NoTools]
    /\ yielded (trace (stream_agent_reply Db.MEDICATIONS Db.USERS
                         (scripted [message_item]) (py "u001")
                         (py "hello")))
       = [TextDelta (py "ok")].
Proof.
  eexists.
  refine ((fun H => conj (proj1 (proj2 H)) (proj1 (proj2 (proj2 (proj2 H)))))
            (no_tools_path Db.MEDICATIONS Db.USERS
               (scripted [message_item]) (py "u001") (py "hello") _ _ _ _)).
  - vm_compute. reflexivity.
  - reflexivity.
  - intros it [<-|[]]. reflexivity.
Defined.

Lemma run_tools_dispatch_actions MEDICATIONS USERS user_id :
  forall calls resp outs,
  exists cas,
    fst (run_tools MEDICATIONS USERS user_id calls resp outs)
    = dispatch_actions cas.
Proof.
  induction calls as [|c calls IH]; intros resp outs.
  - exists []. reflexivity.
  - destruct (prepare_args user_id c resp) as [[args resp1]|e] eqn:E.
    + rewrite (run_tools_cons _ _ _ _ _ _ _ _ _ E). cbn [fst].
      destruct (IH resp1
                  (outs ++ [{| o_call_id := c_call_id c;
                               o_output :=
                                 dumps (dispatch MEDICATIONS USERS
                                          (c_name c) args) |}]))
        as (cas & Hc).
      exists ((c, args) :: cas). rewrite Hc. reflexivity.
    + rewrite (run_tools_raise _ _ _ _ _ _ _ _ E). exists []. reflexivity.
Qed.

Lemma model_calls_tools base cas tail :
  model_calls (DecisionCall base :: dispatch_actions cas ++ tail)
  = DecisionCall base :: model_calls tail.
Proof.
  cbn [model_calls filter].
  fold (model_calls (dispatch_actions cas ++ tail)).
  rewrite model_calls_app, dispatch_actions_model_calls. reflexivity.
Qed.

Lemma model_calls_streaming input mode events :
  model_calls (StreamingCall input mode :: relay events)
  = [StreamingCall input mode].
Proof.
  cbn [model_calls filter]. fold (model_calls (relay events)).
  rewrite relay_model_calls. reflexivity.
Qed.

Lemma tools_output_kept MEDICATIONS USERS user_id resp acts resp' outs :
  _extract_function_calls resp <> [] ->
  run_tools MEDICATIONS USERS user_id (_extract_function_calls resp) resp []
  = (acts, Ok (resp', outs)) ->
  exists it items, output resp' = Some (it :: items).
Proof.
  intros Hne Hrun.
  destruct (extract_nonempty _ Hne) as (n & Hn).
  apply output_length_S with (n := n).
  rewrite (run_tools_length _ _ _ _ _ _ _ _ _ Hrun). exact Hn.
Qed.

Lemma reply_cases MEDICATIONS USERS client user_id user_message :
  let r := stream_agent_reply MEDICATIONS USERS client user_id user_message in
  exists user_res,
    get_user USERS (PStr user_id) = Ok user_res
    /\ let base := base_input user_id user_res user_message in
       (truthy (found user_res) = false
        /\ trace r
           = [Yield (UnknownUserMessage (_looks_hebrew user_message)
                       user_id)]
        /\ raised r = None)
       \/ (truthy (found user_res) = true
           /\ trace r
              = DecisionCall base :: StreamingCall base NoTools
                :: relay (stream client base NoTools)
           /\ raised r = None)
       \/ (truthy (found user_res) = true
           /\ exists cas,
                (exists e,
                    trace r = DecisionCall base :: dispatch_actions cas
                    /\ raised r = Some e)
                \/ (trace r
                    = DecisionCall base :: dispatch_actions cas
                      ++ [Yield (MedicationNotFoundMessage
                                   (_looks_hebrew user_message))]
                    /\ raised r = None)
                \/ (exists items outs,
                       let input := final_input base items outs in
                       trace r
                       = DecisionCall base :: dispatch_actions cas
                         ++ StreamingCall input ToolChoiceNone
                         :: relay (stream client input ToolChoiceNone)
                       /\ raised r = None)).
Proof.
  intros r. destruct (get_user_str USERS user_id) as (user_res & Hu).
  exists user_res. split; [exact Hu|]. intros base. unfold r.
  destruct (truthy (found user_res)) eqn:Hf.
  2:{ left. rewrite (reply_unknown _ _ _ _ _ _ Hu Hf).
      repeat split. }
  destruct (_extract_function_calls (create client base)) as [|c0 cs]
    eqn:Hcalls.
  { right; left. rewrite (reply_no_tools _ _ _ _ _ _ Hu Hf Hcalls).
    repeat split. }
  assert (Hne : _extract_function_calls (create client base) <> [])
    by (rewrite Hcalls; discriminate).
  right; right. split; [reflexivity|].
  rewrite (reply_tools _ _ _ _ _ _ Hu Hf Hne). fold base.
  destruct (run_tools_dispatch_actions MEDICATIONS USERS user_id
              (_extract_function_calls (create client base))
              (create client base) []) as (cas & Hcas).
  destruct (run_tools MEDICATIONS USERS user_id
              (_extract_function_calls (create client base))
              (create client base) []) as [acts [[resp' outs]|e]] eqn:Hrun;
    cbn [fst] in Hcas; subst acts; exists cas.
  2:{ left. exists e. split; reflexivity. }
  destruct (run_tools_scan _ _ _ _ _ _ _ _ Hrun)
    as (cas' & _ & _ & _ & Hscan).
  rewrite Hscan.
  destruct (existsb _ cas').
  { right; left. split; reflexivity. }
  destruct (tools_output_kept _ _ _ _ _ _ _ Hne Hrun) as (it & items & Ho).
  rewrite Ho. right; right. eexists _, _. split; reflexivity.
Qed.

(** X13.  The shape of every run, for any store, backend, user
    identifier and message.  A run is one of: the single unknown-user
    message; the decision call, one streaming call without tools and its
    relay; or the decision call followed by tool dispatches and then
    either an exception, or the single medication-not-found message, or
    one final streaming call and its relay.  So the decision call is the
    first thing a run with a known user does, every dispatch comes after
    it and before anything is yielded, a run makes at most two calls to
    the backend, and a streaming call is never followed by a dispatch or
    by another call. *)
Theorem reply_shape (MEDICATIONS : list Db.medication)
  (USERS : list Db.user) (client : backend) (user_id user_message : str) :
  let r := stream_agent_reply MEDICATIONS USERS client user_id user_message in
  (exists user_res,
      get_user USERS (PStr user_id) = Ok user_res
      /\ let base := base_input user_id user_res user_message in
         (trace r
          = [Yield (UnknownUserMessage (_looks_hebrew user_message)
                      user_id)]
          /\ raised r = None)
         \/ (trace r
             = DecisionCall base :: StreamingCall base NoTools
               :: relay (stream client base NoTools)
             /\ raised r = None)
         \/ (exists cas,
                (exists e,
                    trace r = DecisionCall base :: dispatch_actions cas
                    /\ raised r = Some e)
                \/ (trace r
                    = DecisionCall base :: dispatch_actions cas
                      ++ [Yield (MedicationNotFoundMessage
                                   (_looks_hebrew user_message))]
                    /\ raised r = None)
                \/ (exists input,
                       trace r
                       = DecisionCall base :: dispatch_actions cas
                         ++ StreamingCall input ToolChoiceNone
                         :: relay (stream client input ToolChoiceNone)
                       /\ raised r = None)))
  /\ (List.length (model_calls (trace r)) <= 2)%nat.
Proof.
  intros r.
  destruct (reply_cases MEDICATIONS USERS client user_id user_message)
    as (user_res & Hu & Hshape).
  fold r in Hshape. cbv zeta in Hshape.
  split.
  - exists user_res. split; [exact Hu|]. cbv zeta.
    destruct Hshape
      as [(_ & H)
         |[(_ & H)
          |(_ & cas & [H|[H|(items & outs & H)]])]]; auto.
    + right; right. exists cas. auto.
    + right; right. exists cas. auto.
    + right; right. exists cas. right; right. eexists. exact H.
  - destruct Hshape
      as [(_ & -> & _)
         |[(_ & -> & _)
          |(_ & cas & [(e & -> & _)|[[-> _]|(items & outs & -> & _)]])]].
    + cbn. lia.
    + cbn [model_calls filter].
      fold (model_calls (relay (stream client
              (base_input user_id user_res user_message) NoTools))).
      rewrite relay_model_calls. cbn. lia.
    + rewrite <- (app_nil_r (dispatch_actions cas)), model_calls_tools.
      cbn. lia.
    + rewrite model_calls_tools. cbn. lia.
    + rewrite model_calls_tools, model_calls_streaming. cbn. lia.
Qed.

(** ** What ends a run with an exception *)

Lemma prepare_args_raise user_id c resp e :
  prepare_args user_id c resp = Raise e ->
  name_is (c_name c) (py "check_prescription") = true
  /\ structured (_normalize_args (c_arguments c)) = false
  /\ exists msg, e = TypeError msg.
Proof.
  unfold prepare_args.
  destruct (name_is (c_name c) (py "check_prescription")); [|discriminate].
  destruct (_normalize_args (c_arguments c)) as [| | | | s | l | d];
    cbn [py_contains py_setitem bind type_name];
    try (intros [= <-]; repeat split; eexists; reflexivity).
  - destruct (negb (is_substring (py "user_id") s)); [|discriminate].
    cbn [bind]. intros [= <-]. repeat split. eexists; reflexivity.
  - destruct (negb (existsb _ l)); [|discriminate].
    cbn [bind]. intros [= <-]. repeat split. eexists; reflexivity.
  - destruct (negb (dict_mem (py "user_id") d)); discriminate.
Qed.

Lemma run_tools_raise_inv MEDICATIONS USERS user_id :
  forall calls resp outs acts e,
  run_tools MEDICATIONS USERS user_id calls resp outs = (acts, Raise e) ->
  exists c resp0,
    In c calls /\ prepare_args user_id c resp0 = Raise e.
Proof.
  induction calls as [|c calls IH]; intros resp outs acts e H;
    [discriminate|].
  destruct (prepare_args user_id c resp) as [[args resp1]|e0] eqn:E.
  - rewrite (run_tools_cons _ _ _ _ _ _ _ _ _ E) in H.
    injection H as _ H.
    destruct (run_tools MEDICATIONS USERS user_id calls resp1 _)
      as [acts' r'] eqn:Hr.
    cbn [snd] in H. subst r'.
    destruct (IH _ _ _ _ Hr) as (c' & resp0 & Hin & Hp).
    exists c', resp0. split; [right; exact Hin|exact Hp].
  - rewrite (run_tools_raise _ _ _ _ _ _ _ _ E) in H.
    injection H as _ <-. exists c, resp. split; [left; reflexivity|exact E].
Qed.

(** X14.  The one way a run raises (the backend's own exceptions
    apart).  If a run ends with an exception, then the decision response
    holds a call named [check_prescription] whose normalized arguments
    are no mapping, and the exception is the [TypeError] of the test
    ["user_id" not in args] or of the assignment [args["user_id"] = ...]
    that follows it, outside the [try].  Hence a run whose
    [check_prescription] calls all have arguments that normalize to a
    mapping raises nothing: every failure of a tool is contained in its
    envelope. *)
Theorem reply_raises_only_on_arguments (MEDICATIONS : list Db.medication)
  (USERS : list Db.user) (client : backend) (user_id user_message : str)
  (e : exn) :
  raised (stream_agent_reply MEDICATIONS USERS client user_id user_message)
  = Some e ->
  exists user_res c msg,
    get_user USERS (PStr user_id) = Ok user_res
    /\ In c (_extract_function_calls
               (create client (base_input user_id user_res user_message)))
    /\ name_is (c_name c) (py "check_prescription") = true
    /\ structured (_normalize_args (c_arguments c)) = false
    /\ e = TypeError msg.
Proof.
  destruct (get_user_str USERS user_id) as (user_res & Hu).
  destruct (truthy (found user_res)) eqn:Hf.
  2:{ rewrite (reply_unknown _ _ _ _ _ _ Hu Hf). discriminate. }
  set (base := base_input user_id user_res user_message).
  destruct (_extract_function_calls (create client base)) as [|c0 cs]
    eqn:Hcalls.
  { rewrite (reply_no_tools _ _ _ _ _ _ Hu Hf Hcalls). discriminate. }
  assert (Hne : _extract_function_calls (create client base) <> [])
    by (rewrite Hcalls; discriminate).
  rewrite (reply_tools _ _ _ _ _ _ Hu Hf Hne). fold base.
  destruct (run_tools MEDICATIONS USERS user_id
              (_extract_function_calls (create client base))
              (create client base) []) as [acts [[resp' outs]|e0]] eqn:Hrun.
  - destruct (run_tools_scan _ _ _ _ _ _ _ _ Hrun)
      as (cas' & _ & _ & _ & Hscan).
    rewrite Hscan. destruct (existsb _ cas'); [discriminate|].
    destruct (output resp') as [[|it items]|]; discriminate.
  - cbn [raised]. intros [= <-].
    destruct (run_tools_raise_inv _ _ _ _ _ _ _ _ Hrun)
      as (c & resp0 & Hin & Hp).
    destruct (prepare_args_raise _ _ _ _ Hp) as (Hn & Hs & msg & ->).
    exists user_res, c, msg. repeat split; assumption.
Qed.

Lemma reply_raises_only_on_arguments_witness :
  raised (stream_agent_reply Db.MEDICATIONS Db.USERS (scripted array_items)
            (py "u001") (py "do I need a prescription?"))
  = Some (TypeError (py "list indices must be integers or slices, not str"))
  /\ exists user_res c msg,
       get_user Db.USERS (PStr (py "u001")) = Ok user_res
       /\ In c (_extract_function_calls
                  (create (scripted array_items)
                     (base_input (py "u001") user_res
                        (py "do I need a prescription?"))))
       /\ name_is (c_name c) (py "check_prescription") = true
       /\ structured (_normalize_args (c_arguments c)) = false
       /\ TypeError (py "list indices must be integers or slices, not str")
          = TypeError msg.
Proof.
  assert (H : raised (stream_agent_reply Db.MEDICATIONS Db.USERS
                        (scripted array_items) (py "u001")
                        (py "do I need a prescription?"))
              = Some (TypeError
                        (py "list indices must be integers or slices, not str")))
    by (vm_compute; reflexivity).
  split; [exact H|].
  exact (reply_raises_only_on_arguments Db.MEDICATIONS Db.USERS
           (scripted array_items) (py "u001")
           (py "do I need a prescription?") _ H).
Defined.

(** ** The final call *)

Lemma in_dispatch_actions_inv name args cas :
  In (Dispatch name args) (dispatch_actions cas) ->
  exists c, In (c, args) cas /\ c_name c = name.
Proof.
  unfold dispatch_actions. intros H. apply in_map_iff in H.
  destruct H as ([c a] & E & Hin). cbn [fst snd] in E.
  injection E as <- <-. exists c. split; [exact Hin|reflexivity].
Qed.

(** X15.  The final call is reached.  For a request that passes the gate
    and whose tool loop completes: when no dispatched result carries the
    code [NOT_FOUND], whatever other error codes the results carry, the
    run goes on to exactly one streaming call, made with the tools and
    [tool_choice="none"], on the base input followed by the items of the
    decision response and the tool outputs; what the run yields is the
    relay of that stream, and nothing is raised. *)
Theorem final_call_reached (MEDICATIONS : list Db.medication)
  (USERS : list Db.user) (client : backend) (user_id user_message : str)
  (user_res : pyval) (acts : list action) (resp' : response)
  (tool_outputs : list tool_output) :
  get_user USERS (PStr user_id) = Ok user_res ->
  truthy (found user_res) = true ->
  let base := base_input user_id user_res user_message in
  let resp := create client base in
  _extract_function_calls resp <> [] ->
  run_tools MEDICATIONS USERS user_id (_extract_function_calls resp) resp []
  = (acts, Ok (resp', tool_outputs)) ->
  (forall name args,
      In (Dispatch name args) acts ->
      carries_not_found (dispatch MEDICATIONS USERS name args) = false) ->
  let r := stream_agent_reply MEDICATIONS USERS client user_id user_message in
  exists resp_output,
    output resp' = Some resp_output
    /\ resp_output <> []
    /\ let input := final_input base resp_output tool_outputs in
       trace r
       = DecisionCall base :: acts
         ++ StreamingCall input ToolChoiceNone
         :: relay (stream client input ToolChoiceNone)
       /\ model_calls (trace r)
          = [DecisionCall base; StreamingCall input ToolChoiceNone]
       /\ yielded (trace r)
          = yielded (relay (stream client input ToolChoiceNone))
       /\ raised r = None.
Proof.
  intros Hu Hf base resp Hne Hrun Hnf r.
  destruct (tools_output_kept _ _ _ _ _ _ _ Hne Hrun) as (it & items & Ho).
  exists (it :: items). split; [exact Ho|]. split; [discriminate|].
  unfold r. rewrite (reply_tools _ _ _ _ _ _ Hu Hf Hne).
  fold base. fold resp. rewrite Hrun.
  destruct (run_tools_scan _ _ _ _ _ _ _ _ Hrun)
    as (cas & -> & _ & _ & Hscan).
  rewrite Hscan.
  assert (Hex : existsb (fun ca => carries_not_found
                                     (dispatch MEDICATIONS USERS
                                        (c_name (fst ca)) (snd ca))) cas
                = false).
  { apply not_true_is_false. intros Hex. apply existsb_exists in Hex.
    destruct Hex as ([c a] & Hin & Hc). cbn [fst snd] in Hc.
    rewrite (Hnf (c_name c) a) in Hc; [discriminate|].
    unfold dispatch_actions. apply in_map_iff.
    exists (c, a). split; [reflexivity|exact Hin]. }
  rewrite Hex, Ho. cbn [trace raised]. repeat split.
  - rewrite model_calls_tools, model_calls_streaming. reflexivity.
  - cbn [yielded flat_map app].
    fold (yielded (dispatch_actions cas
                   ++ StreamingCall (final_input base (it :: items)
                                       tool_outputs) ToolChoiceNone
                   :: relay (stream client
                               (final_input base (it :: items) tool_outputs)
                               ToolChoiceNone))).
    rewrite yielded_app, dispatch_actions_yielded. reflexivity.
Qed.

Lemma final_call_reached_witness :
  exists base input,
    error_code (dispatch Db.MEDICATIONS Db.USERS (Some (py "refill"))
                  (PDict []))
    = Some (py "UNKNOWN_TOOL")
    /\ model_calls (trace (stream_agent_reply Db.MEDICATIONS Db.USERS
                             (scripted mixed_items) (py "u001")
                             (py "in stock?")))
       = [DecisionCall base; StreamingCall input ToolChoiceNone]
    /\ yielded (trace (stream_agent_reply Db.MEDICATIONS Db.USERS
                         (scripted mixed_items) (py "u001")
                         (py "in stock?")))
       = [TextDelta (py "ok")].
Proof.
  assert (Hrun : exists acts resp' outs,
             run_tools Db.MEDICATIONS Db.USERS (py "u001")
               (extract_from 0 mixed_items) {| output := Some mixed_items |} []
             = (acts, Ok (resp', outs))
             /\ acts
                = [Dispatch (Some (py "refill")) (PDict []);
                   Dispatch (Some (py "check_stock"))
                     (PDict [(py "name", PStr (py "Paracetamol"))])]).
  { vm_compute. eexists _, _, _. split; reflexivity. }
  destruct Hrun as (acts & resp' & outs & Hrun & Hacts).
  destruct (final_call_reached Db.MEDICATIONS Db.USERS
              (scripted mixed_items) (py "u001") (py "in stock?")
              (user_envelope Db.u001) acts resp' outs)
    as (resp_output & _ & _ & _ & Hcalls & Hyield & _).
  - reflexivity.
  - reflexivity.
  - discriminate.
  - exact Hrun.
  - intros name args Hin. rewrite Hacts in Hin.
    destruct Hin as [Hin|[Hin|[]]]; injection Hin as <- <-; reflexivity.
  - eexists _, _. split; [reflexivity|]. split; [exact Hcalls|exact Hyield].
Defined.

(** ** The tool outputs, read back *)

(** X16.  The outputs of a completed tool loop decode to what was
    dispatched.  The output of each call is a text that [json.loads]
    accepts, and what it reads is the envelope the dispatch of that call
    produced (a surrogate pair written as two code points in a string of
    the envelope is read as its one code point); on it the test for
    [NOT_FOUND] raises nothing.  So the scan over the outputs never takes
    its [except] branch, and it finds [NOT_FOUND] exactly when the result
    of some dispatch carries it. *)
Theorem tool_outputs_decode (MEDICATIONS : list Db.medication)
  (USERS : list Db.user) (user_id : str) (calls : list call)
  (resp : response) (acts : list action) (resp' : response)
  (outs : list tool_output) :
  run_tools MEDICATIONS USERS user_id calls resp [] = (acts, Ok (resp', outs)) ->
  Forall2 (fun a out =>
             exists name args,
               a = Dispatch name args
               /\ loads (o_output out)
                  = Some (join_val (dispatch MEDICATIONS USERS name args))
               /\ is_not_found
                    (join_val (dispatch MEDICATIONS USERS name args))
                  = Ok (carries_not_found
                          (dispatch MEDICATIONS USERS name args)))
    acts outs
  /\ (scan_outputs outs = Ok true
      <-> exists name args,
            In (Dispatch name args) acts
            /\ carries_not_found (dispatch MEDICATIONS USERS name args)
               = true)
  /\ (scan_outputs outs = Ok true \/ scan_outputs outs = Ok false).
Proof.
  intros Hrun.
  destruct (run_tools_scan _ _ _ _ _ _ _ _ Hrun)
    as (cas & -> & _ & -> & Hscan).
  split; [|split].
  - clear Hrun Hscan. induction cas as [|[c a] cas IH]; [constructor|].
    cbn [dispatch_actions map fst snd]. constructor; [|exact IH].
    exists (c_name c), a. split; [reflexivity|]. split.
    + apply loads_dispatch.
    + apply dispatch_scan.
  - rewrite Hscan. split.
    + intros [= Hex]. apply existsb_exists in Hex.
      destruct Hex as ([c a] & Hin & Hc). cbn [fst snd] in Hc.
      exists (c_name c), a. split; [|exact Hc].
      unfold dispatch_actions. apply in_map_iff.
      exists (c, a). split; [reflexivity|exact Hin].
    + intros (name & args & Hin & Hc).
      apply in_dispatch_actions_inv in Hin.
      destruct Hin as (c & Hin & <-). f_equal. apply existsb_exists.
      exists (c, args). split; [exact Hin|exact Hc].
  - rewrite Hscan. destruct (existsb _ cas); [left|right]; reflexivity.
Qed.

Lemma tool_outputs_decode_witness :
  exists acts outs,
    Forall2 (fun a out =>
               exists name args,
                 a = Dispatch name args
                 /\ loads (o_output out)
                    = Some (join_val
                              (dispatch Db.MEDICATIONS Db.USERS name args))
                 /\ is_not_found
                      (join_val (dispatch Db.MEDICATIONS Db.USERS name args))
                    = Ok (carries_not_found
                            (dispatch Db.MEDICATIONS Db.USERS name args)))
      acts outs
    /\ List.length outs = 2%nat.
Proof.
  assert (Hrun : exists acts resp' outs,
             run_tools Db.MEDICATIONS Db.USERS (py "u001")
               (extract_from 0 mixed_items) {| output := Some mixed_items |} []
             = (acts, Ok (resp', outs))
             /\ List.length outs = 2%nat).
  { vm_compute. eexists _, _, _. split; reflexivity. }
  destruct Hrun as (acts & resp' & outs & Hrun & Hlen).
  exists acts, outs.
  exact (conj (proj1 (tool_outputs_decode _ _ _ _ _ _ _ _ Hrun)) Hlen).
Defined.

Lemma extract_function_calls_spec_witness :
  exists c it,
    In c (_extract_function_calls
            {| output := Some (message_item :: stock_items) |})
    /\ nth_error (items_of {| output := Some (message_item :: stock_items) |})
         (c_item c) = Some it
    /\ c_item c = 2%nat
    /\ i_call_id it = Some (py "call_2").
Proof.
  assert (Hin : In {| c_name := Some (py "check_stock");
                      c_arguments :=
                        PStr (dumps (PDict [(py "name",
                                             PStr (py "Aspirin"))]));
                      c_call_id := Some (py "call_2");
                      c_item := 2 |}
                  (_extract_function_calls
                     {| output := Some (message_item :: stock_items) |}))
    by (right; left; reflexivity).
  destruct (proj1 (proj2 (extract_function_calls_spec
                            {| output :=
                                 Some (message_item :: stock_items) |}))
              _ Hin) as (it & Hn & _ & _ & _ & Hid).
  eexists _, it. split; [exact Hin|]. split; [exact Hn|].
  split; [reflexivity|exact Hid].
Defined.

(* ================================================================== *)
(** * The dispatcher and the arguments of a call *)

(** ** Binding the keyword arguments *)

Lemma unexpected_keyword_none params d :
  forallb (fun kv => existsb (Str.eqb (fst kv)) params) d = true ->
  unexpected_keyword params d = None.
Proof.
  unfold unexpected_keyword. induction d as [|kv d IH]; [reflexivity|].
  cbn [forallb find]. intros H. apply andb_true_iff in H.
  destruct H as [Hk Hd]. rewrite Hk. cbn [negb]. exact (IH Hd).
Qed.

Lemma missing_params_none params d :
  forallb (fun p => dict_mem p d) params = true ->
  missing_params params d = [].
Proof.
  unfold missing_params. induction params as [|p params IH]; [reflexivity|].
  cbn [forallb filter]. intros H. apply andb_true_iff in H.
  destruct H as [Hp Hps]. rewrite Hp. cbn [negb]. exact (IH Hps).
Qed.

Lemma bind_kwargs_accepts fname params d :
  accepts params d = true -> bind_kwargs fname params (PDict d) = Ok d.
Proof.
  unfold accepts. intros H. apply andb_true_iff in H. destruct H as [Hk Hp].
  unfold bind_kwargs.
  rewrite (unexpected_keyword_none _ _ Hk), (missing_params_none _ _ Hp).
  reflexivity.
Qed.

Lemma bind_kwargs_mapping fname params args d :
  bind_kwargs fname params args = Ok d -> args = PDict d.
Proof.
  unfold bind_kwargs. destruct args; try discriminate.
  destruct (unexpected_keyword params d0); [discriminate|].
  destruct (missing_params params d0) as [|p [|q ps]];
    [|discriminate|discriminate].
  intros [= <-]. reflexivity.
Qed.

Lemma run_tool_cases MEDICATIONS USERS name args :
  _run_tool MEDICATIONS USERS name args
  = if name_is name (py "get_medication_by_name") then
      match bind_kwargs (py "get_medication_by_name") [py "name"] args with
      | Ok d => get_medication_by_name MEDICATIONS (kwarg (py "name") d)
      | Raise e => Raise e
      end
    else if name_is name (py "check_stock") then
      match bind_kwargs (py "check_stock") [py "name"] args with
      | Ok d => check_stock MEDICATIONS (kwarg (py "name") d)
      | Raise e => Raise e
      end
    else if name_is name (py "check_prescription") then
      match bind_kwargs (py "check_prescription")
              [py "user_id"; py "name"] args with
      | Ok d =>
          check_prescription MEDICATIONS USERS
            (kwarg (py "user_id") d) (kwarg (py "name") d)
      | Raise e => Raise e
      end
    else Ok (unknown_tool name).
Proof. reflexivity. Qed.

Lemma kwarg_get p d v : dict_get p d = Some v -> kwarg p d = v.
Proof. unfold kwarg. intros ->. reflexivity. Qed.

Lemma run_tool_get_medication MEDICATIONS USERS d name :
  accepts [py "name"] d = true ->
  dict_get (py "name") d = Some name ->
  _run_tool MEDICATIONS USERS (Some (py "get_medication_by_name")) (PDict d)
  = get_medication_by_name MEDICATIONS name.
Proof.
  intros Ha Hn. rewrite run_tool_cases. cbn [name_is].
  replace (Str.eqb (py "get_medication_by_name")
             (py "get_medication_by_name")) with true by reflexivity.
  rewrite (bind_kwargs_accepts _ _ _ Ha), (kwarg_get _ _ _ Hn).
  reflexivity.
Qed.

Lemma run_tool_check_stock MEDICATIONS USERS d name :
  accepts [py "name"] d = true ->
  dict_get (py "name") d = Some name ->
  _run_tool MEDICATIONS USERS (Some (py "check_stock")) (PDict d)
  = check_stock MEDICATIONS name.
Proof.
  intros Ha Hn. rewrite run_tool_cases. cbn [name_is].
  replace (Str.eqb (py "check_stock") (py "get_medication_by_name"))
    with false by reflexivity.
  replace (Str.eqb (py "check_stock") (py "check_stock"))
    with true by reflexivity.
  rewrite (bind_kwargs_accepts _ _ _ Ha), (kwarg_get _ _ _ Hn).
  reflexivity.
Qed.

Lemma run_tool_check_prescription MEDICATIONS USERS d user_id name :
  accepts [py "user_id"; py "name"] d = true ->
  dict_get (py "user_id") d = Some user_id ->
  dict_get (py "name") d = Some name ->
  _run_tool MEDICATIONS USERS (Some (py "check_prescription")) (PDict d)
  = check_prescription MEDICATIONS USERS user_id name.
Proof.
  intros Ha Hu Hn. rewrite run_tool_cases. cbn [name_is].
  replace (Str.eqb (py "check_prescription")
             (py "get_medication_by_name")) with false by reflexivity.
  replace (Str.eqb (py "check_prescription") (py "check_stock"))
    with false by reflexivity.
  replace (Str.eqb (py "check_prescription") (py "check_prescription"))
    with true by reflexivity.
  rewrite (bind_kwargs_accepts _ _ _ Ha), (kwarg_get _ _ _ Hu),
    (kwarg_get _ _ _ Hn).
  reflexivity.
Qed.

(** X17.  The dispatcher routes a call by its name and binds the
    arguments by keyword.  For arguments whose keys are exactly the
    parameters of the function, in any order, [_run_tool] returns what the
    function of that name returns on the values under those keys, and
    raises what it raises; for [check_prescription] the user is the value
    under [user_id] and the medication the value under [name]. *)
Theorem run_tool_routes (MEDICATIONS : list Db.medication)
  (USERS : list Db.user) :
  (forall d name,
      accepts [py "name"] d = true ->
      dict_get (py "name") d = Some name ->
      _run_tool MEDICATIONS USERS (Some (py "get_medication_by_name"))
        (PDict d)
      = get_medication_by_name MEDICATIONS name
      /\ _run_tool MEDICATIONS USERS (Some (py "check_stock")) (PDict d)
         = check_stock MEDICATIONS name)
  /\ (forall d user_id name,
        accepts [py "user_id"; py "name"] d = true ->
        dict_get (py "user_id") d = Some user_id ->
        dict_get (py "name") d = Some name ->
        _run_tool MEDICATIONS USERS (Some (py "check_prescription"))
          (PDict d)
        = check_prescription MEDICATIONS USERS user_id name).
Proof.
  split.
  - intros d name Ha Hn. split.
    + apply run_tool_get_medication; assumption.
    + apply run_tool_check_stock; assumption.
  - intros d user_id name. apply run_tool_check_prescription.
Qed.

Lemma run_tool_routes_witness :
  _run_tool Db.MEDICATIONS Db.USERS (Some (py "check_prescription"))
    (PDict [(py "name", PStr (py "Amoxicillin"));
            (py "user_id", PStr (py "u003"))])
  = check_prescription Db.MEDICATIONS Db.USERS
      (PStr (py "u003")) (PStr (py "Amoxicillin")).
Proof.
  refine (proj2 (run_tool_routes Db.MEDICATIONS Db.USERS)
            [(py "name", PStr (py "Amoxicillin"));
             (py "user_id", PStr (py "u003"))] _ _ _ _ _);
    reflexivity.
Defined.

(** ** The schemas and the dispatcher *)

Lemma dict_mem_get k d : dict_mem k d = true -> exists v, dict_get k d = Some v.
Proof.
  unfold dict_mem. destruct (dict_get k d) as [v|]; [|discriminate].
  intros _. exists v. reflexivity.
Qed.

Lemma dict_get_string k d v :
  forallb (fun kv => match snd kv with PStr _ => true | _ => false end) d
  = true ->
  dict_get k d = Some v -> exists s, v = PStr s.
Proof.
  induction d as [|[k' v'] d IH]; [discriminate|].
  cbn [forallb dict_get snd]. intros H. apply andb_true_iff in H.
  destruct H as [Hv Hd].
  destruct (Str.eqb k' k); [|exact (IH Hd)].
  intros [= <-]. destruct v'; try discriminate. eexists; reflexivity.
Qed.

Lemma medication_codes MEDICATIONS s :
  exists env,
    get_medication_by_name MEDICATIONS (PStr s) = Ok env
    /\ (error_code env = None \/ error_code env = Some (py "NOT_FOUND")).
Proof.
  rewrite get_medication_cases, find_med_str.
  destruct (match s with
            | [] => None
            | _ => scan_meds (lower (strip s)) MEDICATIONS
            end) as [m|]; eexists; (split; [reflexivity|]);
    [left|right]; reflexivity.
Qed.

Lemma stock_codes MEDICATIONS s :
  exists env,
    check_stock MEDICATIONS (PStr s) = Ok env
    /\ (error_code env = None \/ error_code env = Some (py "NOT_FOUND")).
Proof.
  rewrite check_stock_cases, find_med_str.
  destruct (match s with
            | [] => None
            | _ => scan_meds (lower (strip s)) MEDICATIONS
            end) as [m|]; eexists; (split; [reflexivity|]);
    [left|right]; reflexivity.
Qed.

Lemma prescription_codes MEDICATIONS USERS u s :
  exists env,
    check_prescription MEDICATIONS USERS (PStr u) (PStr s) = Ok env
    /\ (error_code env = None
        \/ error_code env = Some (py "NOT_FOUND")
        \/ error_code env = Some (py "UNKNOWN_USER")).
Proof.
  rewrite check_prescription_cases, find_user_str, find_med_str.
  destruct (match u with
            | [] => None
            | _ => scan_users (strip u) USERS
            end) as [usr|].
  - destruct (match s with
              | [] => None
              | _ => scan_meds (lower (strip s)) MEDICATIONS
              end) as [m|]; eexists; (split; [reflexivity|]);
      [left|right; left]; reflexivity.
  - eexists; split; [reflexivity|]. right; right. reflexivity.
Qed.

(** X18.  The schemas of [TOOLS] and the dispatcher agree.  The names
    [_run_tool] answers are exactly the names of [TOOLS]: for any other
    name the result is [UNKNOWN_TOOL], and for no name of [TOOLS] is it.
    For arguments that conform to the schema of a tool (every key a
    property of the schema, every required property present, every value
    a string) the call binds, the function returns, and the envelope is a
    success or carries [NOT_FOUND] or [UNKNOWN_USER]: the dispatcher
    raises nothing on conforming arguments. *)
Theorem tools_schema_dispatched (MEDICATIONS : list Db.medication)
  (USERS : list Db.user) :
  (forall name,
      known_tool name = true
      <-> exists t, In t TOOLS /\ name = Some (t_name t))
  /\ (forall name args,
        known_tool name = false ->
        _run_tool MEDICATIONS USERS name args = Ok (unknown_tool name))
  /\ (forall t d,
        In t TOOLS -> conforms t d = true ->
        exists env,
          _run_tool MEDICATIONS USERS (Some (t_name t)) (PDict d) = Ok env
          /\ (error_code env = None
              \/ error_code env = Some (py "NOT_FOUND")
              \/ error_code env = Some (py "UNKNOWN_USER"))).
Proof.
  split; [|split].
  - intros name. unfold known_tool. split.
    + destruct name as [s|]; [|discriminate]. cbn [name_is].
      intros H. apply orb_true_iff in H. destruct H as [H|H];
        [apply orb_true_iff in H; destruct H as [H|H]|];
        apply str_eqb_eq in H; subst s;
        first [ eexists; split; [left; reflexivity|reflexivity]
              | eexists; split; [right; left; reflexivity|reflexivity]
              | eexists; split; [right; right; left; reflexivity
                                |reflexivity] ].
    + intros (t & Ht & ->).
      destruct Ht as [<-|[<-|[<-|[]]]]; reflexivity.
  - intros name args. unfold known_tool. intros H.
    apply orb_false_iff in H. destruct H as [H H3].
    apply orb_false_iff in H. destruct H as [H1 H2].
    rewrite run_tool_cases, H1, H2, H3. reflexivity.
  - intros t d Ht Hc. unfold conforms in Hc.
    apply andb_true_iff in Hc. destruct Hc as [Hc Hs].
    destruct Ht as [<-|[<-|[<-|[]]]]; cbn [t_properties t_required map fst]
      in Hc; cbn [t_name].
    + assert (Hr := Hc). apply andb_true_iff in Hr. destruct Hr as [_ Hr].
      cbn [forallb] in Hr. apply andb_true_iff in Hr. destruct Hr as [Hn _].
      destruct (dict_mem_get _ _ Hn) as (v & Hv).
      destruct (dict_get_string _ _ _ Hs Hv) as (s & ->).
      rewrite (run_tool_get_medication _ _ _ _ Hc Hv).
      destruct (medication_codes MEDICATIONS s) as (env & -> & [H|H]);
        exists env; split; auto.
    + assert (Hr := Hc). apply andb_true_iff in Hr. destruct Hr as [_ Hr].
      cbn [forallb] in Hr. apply andb_true_iff in Hr. destruct Hr as [Hn _].
      destruct (dict_mem_get _ _ Hn) as (v & Hv).
      destruct (dict_get_string _ _ _ Hs Hv) as (s & ->).
      rewrite (run_tool_check_stock _ _ _ _ Hc Hv).
      destruct (stock_codes MEDICATIONS s) as (env & -> & [H|H]);
        exists env; split; auto.
    + assert (Hr := Hc). apply andb_true_iff in Hr. destruct Hr as [_ Hr].
      cbn [forallb] in Hr. apply andb_true_iff in Hr. destruct Hr as [Hu Hr].
      apply andb_true_iff in Hr. destruct Hr as [Hn _].
      destruct (dict_mem_get _ _ Hu) as (vu & Hvu).
      destruct (dict_mem_get _ _ Hn) as (vn & Hvn).
      destruct (dict_get_string _ _ _ Hs Hvu) as (u & ->).
      destruct (dict_get_string _ _ _ Hs Hvn) as (s & ->).
      rewrite (run_tool_check_prescription _ _ _ _ _ Hc Hvu Hvn).
      apply prescription_codes.
Qed.

Lemma tools_schema_dispatched_witness :
  exists env,
    _run_tool Db.MEDICATIONS Db.USERS (Some (py "check_prescription"))
      (PDict [(py "user_id", PStr (py "u002"));
              (py "name", PStr (py "Metformin"))])
    = Ok env
    /\ (error_code env = None
        \/ error_code env = Some (py "NOT_FOUND")
        \/ error_code env = Some (py "UNKNOWN_USER")).
Proof.
  refine (proj2 (proj2 (tools_schema_dispatched Db.MEDICATIONS Db.USERS))
            {| t_name := py "check_prescription";
               t_description :=
                 py "Combined check: whether medication requires a prescription and whether user has it on file.";
               t_properties :=
                 [(py "user_id", py "string"); (py "name", py "string")];
               t_required := [py "user_id"; py "name"] |}
            [(py "user_id", PStr (py "u002"));
             (py "name", PStr (py "Metformin"))] _ _).
  - right; right; left. reflexivity.
  - reflexivity.
Defined.

(** ** The two forms of the arguments *)

Lemma join_val_no_high v : no_high v = true -> join_val v = v.
Proof.
  induction v as [|b|z|f|s|l IH|d IH] using pyval_induction;
    try reflexivity; cbn [no_high join_val]; intros H.
  - rewrite (join_plain_key _ H). reflexivity.
  - f_equal. induction l as [|x l IHl]; [reflexivity|].
    cbn [forallb] in H. apply andb_true_iff in H. destruct H as [Hx Hl].
    inversion IH as [|? ? Px Pl]; subst. cbn [map].
    rewrite (Px Hx), (IHl Pl Hl). reflexivity.
  - f_equal. induction d as [|[k x] d IHd]; [reflexivity|].
    cbn [forallb snd] in H. apply andb_true_iff in H. destruct H as [Hx Hd].
    inversion IH as [|? ? Px Pd]; subst. cbn [map fst snd] in *.
    rewrite (Px Hx), (IHd Pd Hd). reflexivity.
Qed.

(** X19.  The arguments of a call as a mapping and as its JSON text
    normalize to the same mapping.  For a mapping of the kind the round
    trip is proved for (keys with no high surrogate; values that are
    strings, integers, booleans, [None], lists and mappings of these),
    [_normalize_args] on the text [json.dumps] gives for the mapping
    returns a mapping with the same keys in the same order; when no
    string of the mapping holds a high surrogate it is the mapping
    itself, which is also what [_normalize_args] returns on the mapping
    as such. *)
Theorem normalize_args_round_trip (d : pydict) :
  plain (PDict d) = true ->
  _normalize_args (PStr (dumps (PDict d))) = join_val (PDict d)
  /\ (exists d',
         _normalize_args (PStr (dumps (PDict d))) = PDict d'
         /\ map fst d' = map fst d)
  /\ (no_high (PDict d) = true ->
      _normalize_args (PStr (dumps (PDict d))) = PDict d
      /\ _normalize_args (PDict d) = PDict d).
Proof.
  intros Hp.
  assert (E : _normalize_args (PStr (dumps (PDict d))) = join_val (PDict d)).
  { cbn [_normalize_args]. rewrite (loads_dumps _ Hp). reflexivity. }
  split; [exact E|]. split.
  - rewrite E. cbn [join_val]. eexists. split; [reflexivity|].
    rewrite map_map. reflexivity.
  - intros Hn. rewrite E, (join_val_no_high _ Hn). split; reflexivity.
Qed.

Lemma normalize_args_round_trip_witness :
  _normalize_args
    (PStr (dumps (PDict [(py "user_id", PStr (py "u001"));
                         (py "name", PStr (py "Amoxicillin"))])))
  = PDict [(py "user_id", PStr (py "u001"));
           (py "name", PStr (py "Amoxicillin"))].
Proof.
  refine (proj1 (proj2 (proj2 (normalize_args_round_trip
                                 [(py "user_id", PStr (py "u001"));
                                  (py "name", PStr (py "Amoxicillin"))] _))
                   _));
    reflexivity.
Defined.

(** ** Arguments that fall back to the empty mapping *)

Lemma known_tool_name name :
  known_tool name = true ->
  name = Some (py "get_medication_by_name")
  \/ name = Some (py "check_stock")
  \/ name = Some (py "check_prescription").
Proof.
  unfold known_tool. destruct name as [s|]; [|discriminate]. cbn [name_is].
  intros H. apply orb_true_iff in H. destruct H as [H|H];
    [apply orb_true_iff in H; destruct H as [H|H]|];
    apply str_eqb_eq in H; subst s; auto.
Qed.

(** X20.  A call whose arguments normalize to the empty mapping (no
    arguments, a text that is no JSON, a value that is neither a mapping
    nor a text, or the empty mapping itself) is still dispatched.  For
    each of the three tools the function is then called without its
    [name], the [TypeError] of the call is contained, and the result is
    the [TOOL_ERROR] envelope whose message names the missing argument;
    for [check_prescription] the user identifier of the request is put
    in first, so only [name] is missing.  The result does not carry
    [NOT_FOUND]. *)
Theorem empty_arguments_tool_error (MEDICATIONS : list Db.medication)
  (USERS : list Db.user) (user_id : str) (c : call) (resp : response) :
  known_tool (c_name c) = true ->
  _normalize_args (c_arguments c) = PDict [] ->
  exists fname args resp1,
    c_name c = Some fname
    /\ prepare_args user_id c resp = Ok (args, resp1)
    /\ args = (if Str.eqb fname (py "check_prescription")
               then PDict [(py "user_id", PStr user_id)]
               else PDict [])
    /\ dispatch MEDICATIONS USERS (c_name c) args
       = PDict [(py "ok", PBool false);
                (py "error",
                 error_body (py "TOOL_ERROR")
                   (fname
                    ++ py "() missing 1 required positional argument: 'name'"))]
    /\ carries_not_found (dispatch MEDICATIONS USERS (c_name c) args)
       = false.
Proof.
  intros Hk Hn.
  destruct (known_tool_name _ Hk) as [E|[E|E]];
    eexists _, _, _; (split; [exact E|]);
    unfold prepare_args; rewrite Hn, E;
    (split; [reflexivity|]); (split; [reflexivity|]);
    split; reflexivity.
Qed.

Lemma empty_arguments_tool_error_witness :
  loads (py "{name: Amoxicillin") = None
  /\ exists fname args resp1,
       c_name garbled_call = Some fname
       /\ prepare_args (py "u001") garbled_call no_output = Ok (args, resp1)
       /\ args = (if Str.eqb fname (py "check_prescription")
                  then PDict [(py "user_id", PStr (py "u001"))]
                  else PDict [])
       /\ dispatch Db.MEDICATIONS Db.USERS (c_name garbled_call) args
          = PDict [(py "ok", PBool false);
                   (py "error",
                    error_body (py "TOOL_ERROR")
                      (fname
                       ++ py "() missing 1 required positional argument: 'name'"))]
       /\ carries_not_found
            (dispatch Db.MEDICATIONS Db.USERS (c_name garbled_call) args)
          = false.
Proof.
  split; [reflexivity|].
  refine (empty_arguments_tool_error Db.MEDICATIONS Db.USERS (py "u001")
            garbled_call no_output _ _); reflexivity.
Defined.

(** ** The user of a prescription check *)

Lemma name_is_eq name lit : name_is name lit = true -> name = Some lit.
Proof.
  destruct name as [s|]; [|discriminate]. cbn [name_is].
  intros H. apply str_eqb_eq in H. subst s. reflexivity.
Qed.

Lemma gate_user_found USERS user_id user_res :
  get_user USERS (PStr user_id) = Ok user_res ->
  truthy (found user_res) = true ->
  exists u, _find_user_by_id USERS (PStr user_id) = Ok (Some u).
Proof.
  rewrite get_user_cases.
  destruct (_find_user_by_id USERS (PStr user_id)) as [[u|]|e];
    [|intros [= <-]; discriminate|discriminate].
  intros _ _. exists u. reflexivity.
Qed.

(** X21.  The user the core puts into a prescription check is a user the
    tool knows.  For a request that passes the gate and a call named
    [check_prescription] whose arguments are a mapping without
    [user_id]: the identifier put in is the one the gate looked up, given
    as it was (white space around it included), and the tool looks it up
    in the same way; so the result of the dispatch never carries
    [UNKNOWN_USER].  It is a success, [NOT_FOUND] for the medication, or
    a contained [TOOL_ERROR]. *)
Theorem injected_user_is_known (MEDICATIONS : list Db.medication)
  (USERS : list Db.user) (user_id : str) (user_res : pyval) (c : call)
  (resp : response) (d : pydict) :
  get_user USERS (PStr user_id) = Ok user_res ->
  truthy (found user_res) = true ->
  name_is (c_name c) (py "check_prescription") = true ->
  _normalize_args (c_arguments c) = PDict d ->
  dict_mem (py "user_id") d = false ->
  let args := PDict (dict_set (py "user_id") (PStr user_id) d) in
  (exists resp1, prepare_args user_id c resp = Ok (args, resp1))
  /\ error_code (dispatch MEDICATIONS USERS (c_name c) args)
     <> Some (py "UNKNOWN_USER")
  /\ (error_code (dispatch MEDICATIONS USERS (c_name c) args) = None
      \/ error_code (dispatch MEDICATIONS USERS (c_name c) args)
         = Some (py "NOT_FOUND")
      \/ error_code (dispatch MEDICATIONS USERS (c_name c) args)
         = Some (py "TOOL_ERROR")).
Proof.
  intros Hu Hf Hname Hn Hmem args.
  split.
  { rewrite (prepare_args_prescription user_id c resp d Hname Hn), Hmem.
    eexists. reflexivity. }
  assert (Hcode :
    error_code (dispatch MEDICATIONS USERS (c_name c) args) = None
    \/ error_code (dispatch MEDICATIONS USERS (c_name c) args)
       = Some (py "NOT_FOUND")
    \/ error_code (dispatch MEDICATIONS USERS (c_name c) args)
       = Some (py "TOOL_ERROR")).
  { rewrite (name_is_eq _ _ Hname). unfold dispatch.
    rewrite run_tool_cases. cbn [name_is].
    replace (Str.eqb (py "check_prescription")
               (py "get_medication_by_name")) with false by reflexivity.
    replace (Str.eqb (py "check_prescription") (py "check_stock"))
      with false by reflexivity.
    replace (Str.eqb (py "check_prescription") (py "check_prescription"))
      with true by reflexivity.
    destruct (bind_kwargs (py "check_prescription")
                [py "user_id"; py "name"] args) as [d''|e] eqn:Eb;
      [|right; right; reflexivity].
    apply bind_kwargs_mapping in Eb. unfold args in Eb.
    injection Eb as <-.
    rewrite (kwarg_get _ _ _ (dict_get_set (py "user_id") (PStr user_id) d)).
    rewrite check_prescription_cases.
    destruct (gate_user_found _ _ _ Hu Hf) as (u & ->).
    destruct (_find_med_by_name MEDICATIONS _)
      as [[m|]|e]; [left|right; left|right; right]; reflexivity. }
  split; [|exact Hcode].
  destruct Hcode as [ -> | [ -> | -> ] ]; intros H; vm_compute in H;
    discriminate.
Qed.

Lemma injected_user_is_known_witness :
  (exists resp1,
      prepare_args (py " u001 ")
        {| c_name := Some (py "check_prescription");
           c_arguments :=
             PStr (dumps (PDict [(py "name", PStr (py "Metformin"))]));
           c_call_id := Some (py "call_1");
           c_item := 0 |} no_output
      = Ok (PDict [(py "name", PStr (py "Metformin"));
                   (py "user_id", PStr (py " u001 "))], resp1))
  /\ error_code
       (dispatch Db.MEDICATIONS Db.USERS (Some (py "check_prescription"))
          (PDict [(py "name", PStr (py "Metformin"));
                  (py "user_id", PStr (py " u001 "))]))
     <> Some (py "UNKNOWN_USER").
Proof.
  refine ((fun H => conj (proj1 H) (proj1 (proj2 H)))
            (injected_user_is_known Db.MEDICATIONS Db.USERS (py " u001 ")
               (user_envelope Db.u001)
               {| c_name := Some (py "check_prescription");
                  c_arguments :=
                    PStr (dumps (PDict [(py "name",
                                         PStr (py "Metformin"))]));
                  c_call_id := Some (py "call_1");
                  c_item := 0 |} no_output
               [(py "name", PStr (py "Metformin"))] _ _ _ _ _));
    reflexivity.
Defined.

(** ** Where [NOT_FOUND] comes from *)

(** X22.  The apology for a medication that is not found has one cause.
    If the result of a dispatch carries [NOT_FOUND], then the call names
    one of the three tools, its arguments are a mapping that binds to the
    parameters of the tool, and the lookup of the value under [name]
    found no medication in the store.  An unknown tool, a failed binding
    of the arguments, an exception of the tool and an unknown user never
    give [NOT_FOUND]. *)
Theorem not_found_origin (MEDICATIONS : list Db.medication)
  (USERS : list Db.user) (name : option str) (args : pyval) :
  carries_not_found (dispatch MEDICATIONS USERS name args) = true ->
  known_tool name = true
  /\ exists d,
       args = PDict d
       /\ _find_med_by_name MEDICATIONS (kwarg (py "name") d) = Ok None
       /\ _run_tool MEDICATIONS USERS name args
          = Ok (not_found (if name_is name (py "check_prescription")
                           then py "ok" else py "found")
                  (kwarg (py "name") d)).
Proof.
  unfold dispatch, known_tool. rewrite run_tool_cases.
  destruct (name_is name (py "get_medication_by_name")) eqn:E1.
  { assert (E3 : name_is name (py "check_prescription") = false)
      by (rewrite (name_is_eq _ _ E1); reflexivity).
    rewrite E3.
    destruct (bind_kwargs (py "get_medication_by_name") [py "name"] args)
      as [d|e] eqn:Eb; [|intros H; vm_compute in H; discriminate H].
    apply bind_kwargs_mapping in Eb. subst args.
    rewrite get_medication_cases.
    destruct (_find_med_by_name MEDICATIONS (kwarg (py "name") d))
      as [[m|]|e] eqn:Ef; try (intros H; vm_compute in H; discriminate H).
    intros _. split; [reflexivity|]. exists d. repeat split. exact Ef. }
  destruct (name_is name (py "check_stock")) eqn:E2.
  { assert (E3 : name_is name (py "check_prescription") = false)
      by (rewrite (name_is_eq _ _ E2); reflexivity).
    rewrite E3.
    destruct (bind_kwargs (py "check_stock") [py "name"] args)
      as [d|e] eqn:Eb; [|intros H; vm_compute in H; discriminate H].
    apply bind_kwargs_mapping in Eb. subst args.
    rewrite check_stock_cases.
    destruct (_find_med_by_name MEDICATIONS (kwarg (py "name") d))
      as [[m|]|e] eqn:Ef; try (intros H; vm_compute in H; discriminate H).
    intros _. split; [reflexivity|]. exists d. repeat split. exact Ef. }
  destruct (name_is name (py "check_prescription")) eqn:E3;
    [|intros H; vm_compute in H; discriminate H].
  destruct (bind_kwargs (py "check_prescription")
              [py "user_id"; py "name"] args) as [d|e] eqn:Eb;
    [|intros H; vm_compute in H; discriminate H].
  apply bind_kwargs_mapping in Eb. subst args.
  rewrite check_prescription_cases.
  destruct (_find_user_by_id USERS (kwarg (py "user_id") d)) as [[u|]|e];
    try (intros H; vm_compute in H; discriminate H).
  destruct (_find_med_by_name MEDICATIONS (kwarg (py "name") d))
    as [[m|]|e] eqn:Ef; try (intros H; vm_compute in H; discriminate H).
  intros _. split; [reflexivity|]. exists d. repeat split. exact Ef.
Qed.

Lemma not_found_origin_witness :
  known_tool (Some (py "check_stock")) = true
  /\ exists d,
       PDict [(py "name", PStr (py "Aspirin"))] = PDict d
       /\ _find_med_by_name Db.MEDICATIONS (kwarg (py "name") d) = Ok None
       /\ _run_tool Db.MEDICATIONS Db.USERS (Some (py "check_stock"))
            (PDict [(py "name", PStr (py "Aspirin"))])
          = Ok (not_found (if name_is (Some (py "check_stock"))
                                (py "check_prescription")
                           then py "ok" else py "found")
                  (kwarg (py "name") d)).
Proof.
  refine (not_found_origin Db.MEDICATIONS Db.USERS (Some (py "check_stock"))
            (PDict [(py "name", PStr (py "Aspirin"))]) _).
  reflexivity.
Defined.

(** ** What the backend is given *)

Lemma gate_user_record USERS user_id user_res :
  get_user USERS (PStr user_id) = Ok user_res ->
  truthy (found user_res) = true ->
  exists u,
    user_res = user_envelope u
    /\ In u USERS
    /\ Db.user_id u = strip user_id
    /\ user_id <> [].
Proof.
  rewrite get_user_cases, find_user_str.
  destruct user_id as [|c t]; [intros [= <-]; discriminate|].
  destruct (scan_users (strip (c :: t)) USERS) as [u|] eqn:E;
    [|intros [= <-]; discriminate].
  intros [= <-] _. exists u.
  destruct (scan_users_some _ _ _ E) as (pre & post & -> & Eid & _).
  repeat split; [apply in_elt|exact Eid|discriminate].
Qed.

Lemma in_tools_trace a base cas tail :
  In a (DecisionCall base :: dispatch_actions cas ++ tail) ->
  a = DecisionCall base
  \/ (exists name args, a = Dispatch name args)
  \/ In a tail.
Proof.
  intros [<-|H]; [left; reflexivity|]. apply in_app_or in H.
  destruct H as [H|H]; [|right; right; exact H].
  right; left. exact (in_dispatch_actions _ _ H).
Qed.

Lemma not_in_relay_call a events :
  In a (relay events) ->
  (forall input, a <> DecisionCall input)
  /\ (forall input mode, a <> StreamingCall input mode).
Proof.
  intros H. destruct (in_relay _ _ H) as (m & -> & _).
  split; intros; discriminate.
Qed.

(** X23.  What each call to the backend is given.  In every run, the
    input of the decision call is three messages: the system prompt; the
    context of the user, which holds the user identifier as the request
    gave it, and the name and the prescriptions of the record of [USERS]
    whose [user_id] is the stripped identifier; and the message of the
    user, as it was given.  The input of a streaming call starts with the
    same three messages; without tools it holds nothing else. *)
Theorem backend_input_context (MEDICATIONS : list Db.medication)
  (USERS : list Db.user) (client : backend) (user_id user_message : str)
  (a : action) :
  In a (model_calls (trace (stream_agent_reply MEDICATIONS USERS client
                              user_id user_message))) ->
  exists u,
    In u USERS
    /\ Db.user_id u = strip user_id
    /\ user_id <> []
    /\ let context :=
         [Message (py "system") SYSTEM_PROMPT;
          Message (py "system")
            (UserContext user_id (PStr (Db.user_name u))
               (PList (map PStr (Db.prescriptions u))));
          Message (py "user") (UserText user_message)] in
       a = DecisionCall context
       \/ a = StreamingCall context NoTools
       \/ exists rest, a = StreamingCall (context ++ rest) ToolChoiceNone.
Proof.
  intros Ha. unfold model_calls in Ha. apply filter_In in Ha.
  destruct Ha as [Ha Hcall].
  destruct (reply_cases MEDICATIONS USERS client user_id user_message)
    as (user_res & Hu & Hshape).
  cbv zeta in Hshape.
  assert (Hfound : truthy (found user_res) = true).
  { destruct Hshape as [(_ & E & _)|[(Hf & _)|(Hf & _)]];
      [|exact Hf|exact Hf].
    rewrite E in Ha. destruct Ha as [<-|[]]. discriminate. }
  destruct (gate_user_record _ _ _ Hu Hfound) as (u & -> & Hin & Hid & Hne).
  exists u. split; [exact Hin|]. split; [exact Hid|]. split; [exact Hne|].
  cbv zeta.
  change [Message (py "system") SYSTEM_PROMPT;
          Message (py "system")
            (UserContext user_id (PStr (Db.user_name u))
               (PList (map PStr (Db.prescriptions u))));
          Message (py "user") (UserText user_message)]
    with (base_input user_id (user_envelope u) user_message).
  set (base := base_input user_id (user_envelope u) user_message) in *.
  destruct Hshape
    as [(Hf & _)
       |[(_ & E & _)
        |(_ & cas & [(e & E & _)|[(E & _)|(items & outs & E & _)]])]].
  - congruence.
  - rewrite E in Ha. destruct Ha as [<-|[<-|Ha]]; auto.
    destruct (not_in_relay_call _ _ Ha) as [H1 H2].
    destruct a; try discriminate; [elim (H1 input)|elim (H2 input mode)];
      reflexivity.
  - rewrite E, <- (app_nil_r (dispatch_actions cas)) in Ha.
    destruct (in_tools_trace _ _ _ _ Ha) as [->|[(n & ar & ->)|[]]]; auto.
    discriminate.
  - rewrite E in Ha.
    destruct (in_tools_trace _ _ _ _ Ha) as [->|[(n & ar & ->)|[<-|[]]]];
      auto; discriminate.
  - rewrite E in Ha.
    destruct (in_tools_trace _ _ _ _ Ha) as [->|[(n & ar & ->)|[<-|Hr]]];
      auto; try discriminate.
    + right; right. unfold final_input. eexists. reflexivity.
    + destruct (not_in_relay_call _ _ Hr) as [H1 H2].
      destruct a; try discriminate; [elim (H1 input)|elim (H2 input mode)];
        reflexivity.
Qed.

Lemma backend_input_context_witness :
  exists u,
    In u Db.USERS
    /\ Db.user_id u = strip (py " u003 ")
    /\ py " u003 " <> []
    /\ (DecisionCall
          (base_input (py " u003 ") (user_envelope Db.u003) (py "hello"))
        = DecisionCall
            [Message (py "system") SYSTEM_PROMPT;
             Message (py "system")
               (UserContext (py " u003 ") (PStr (Db.user_name u))
                  (PList (map PStr (Db.prescriptions u))));
             Message (py "user") (UserText (py "hello"))]
        \/ DecisionCall
             (base_input (py " u003 ") (user_envelope Db.u003) (py "hello"))
           = StreamingCall
               [Message (py "system") SYSTEM_PROMPT;
                Message (py "system")
                  (UserContext (py " u003 ") (PStr (Db.user_name u))
                     (PList (map PStr (Db.prescriptions u))));
                Message (py "user") (UserText (py "hello"))] NoTools
        \/ exists rest,
             DecisionCall
               (base_input (py " u003 ") (user_envelope Db.u003)
                  (py "hello"))
             = StreamingCall
                 ([Message (py "system") SYSTEM_PROMPT;
                   Message (py "system")
                     (UserContext (py " u003 ") (PStr (Db.user_name u))
                        (PList (map PStr (Db.prescriptions u))));
                   Message (py "user") (UserText (py "hello"))] ++ rest)
                 ToolChoiceNone).
Proof.
  refine (backend_input_context Db.MEDICATIONS Db.USERS
            (scripted [message_item]) (py " u003 ") (py "hello")
            (DecisionCall
               (base_input (py " u003 ") (user_envelope Db.u003)
                  (py "hello"))) _).
  left. reflexivity.
Defined.
